(** * Phoenix.ai API testing agent: scenario codec, directive extraction,
      validation, value extraction and reporting

    Shallow embedding of [src/agent/api_testing/api_testing_agent.py].

    Modelling conventions.
    - A Python [str] is a Rocq [string]; each character stands for the code
      point of the same number (0..255).  On this range [str.lower],
      [str.strip], the regular-expression class [\d] and [re.IGNORECASE]
      behave exactly as written below.
    - A Python [int] is a [Z]; [int(...)] of a digit string is the unbounded
      conversion.
    - A Python [dict] is an association list in insertion order with unique
      keys; [d[k] = v] is [Dict.set].
    - Python floats that the program computes with are primitive binary64
      floats; a float inside a JSON document is kept as the text its
      [repr] prints.
    - The HTTP transport, the clock and the text of interpreter exceptions
      are inputs of the functions that use them. *)

From Stdlib Require Import String Ascii List ZArith Bool Arith Lia.
From Stdlib Require Import Floats Uint63.
Import ListNotations.
Local Open Scope string_scope.
Local Open Scope list_scope.

(** ** Python string primitives *)

Module Py.

Definition nl_char : ascii := ascii_of_nat 10.
Definition nl : string := String nl_char "".
Definition dquote : ascii := ascii_of_nat 34.

(** [str.isspace] on one character. *)
Definition is_space (c : ascii) : bool :=
  let n := nat_of_ascii c in
  (((9 <=? n) && (n <=? 13)) || ((28 <=? n) && (n <=? 32))
   || (n =? 133) || (n =? 160))%nat.

Fixpoint lstrip (s : string) : string :=
  match s with
  | String c s' => if is_space c then lstrip s' else s
  | EmptyString => EmptyString
  end.

Fixpoint rstrip (s : string) : string :=
  match s with
  | String c s' =>
      match rstrip s' with
      | EmptyString => if is_space c then EmptyString else String c EmptyString
      | r => String c r
      end
  | EmptyString => EmptyString
  end.

(** [s.strip()] *)
Definition strip (s : string) : string := lstrip (rstrip s).

(** [s.split(sep)] for a one-character separator. *)
Fixpoint split (sep : ascii) (s : string) : list string :=
  match s with
  | EmptyString => [EmptyString]
  | String c s' =>
      if Ascii.eqb c sep then EmptyString :: split sep s'
      else match split sep s' with
           | h :: t => String c h :: t
           | [] => [String c EmptyString]
           end
  end.

(** [s.startswith(p)] *)
Fixpoint startswith (s p : string) {struct p} : bool :=
  match p with
  | EmptyString => true
  | String a p' =>
      match s with
      | String b s' => Ascii.eqb a b && startswith s' p'
      | EmptyString => false
      end
  end.

(** [needle in hay] *)
Fixpoint contains (needle hay : string) : bool :=
  startswith hay needle
  || match hay with
     | String _ t => contains needle t
     | EmptyString => false
     end.

(** [s.replace(old, new)] for a non-empty [old]: occurrences are taken left
    to right and do not overlap; [skip] counts the characters of a matched
    occurrence still to be dropped. *)
Fixpoint replace_from (skip : nat) (s old new : string) : string :=
  match s with
  | EmptyString => EmptyString
  | String c s' =>
      match skip with
      | S k => replace_from k s' old new
      | O =>
          if startswith s old
          then new ++ replace_from (String.length old - 1) s' old new
          else String c (replace_from 0 s' old new)
      end
  end.

Definition replace (s old new : string) : string := replace_from 0 s old new.

(** [str.lower] on one character: A-Z and the Latin-1 capitals. *)
Definition lower_char (c : ascii) : ascii :=
  let n := nat_of_ascii c in
  if (((65 <=? n) && (n <=? 90))
      || ((192 <=? n) && (n <=? 222) && negb (n =? 215)))%nat
  then ascii_of_nat (n + 32) else c.

Fixpoint lower (s : string) : string :=
  match s with
  | String c s' => String (lower_char c) (lower s')
  | EmptyString => EmptyString
  end.

End Py.

(** ** Scenario model *)

Record GherkinScenario := {
  feature : string;
  scenario : string;
  given : list string;
  when : list string;
  then_ : list string;
  background : option (list string)
}.

(** ** Scenario text codec *)

Module GherkinGenerator.

Inductive section_name := sec_given | sec_when | sec_then.

(** The local variables of [_parse_gherkin_text]. *)
Record parse_state := {
  p_feature : string;
  p_scenario : string;
  p_given : list string;
  p_when : list string;
  p_then : list string;
  current_section : option section_name
}.

Definition parse_init : parse_state :=
  {| p_feature := ""; p_scenario := ""; p_given := []; p_when := [];
     p_then := []; current_section := None |}.

(** One iteration of the loop, on a line already stripped. *)
Definition parse_line (st : parse_state) (line : string) : parse_state :=
  if Py.startswith line "Feature:" then
    {| p_feature := Py.strip (Py.replace line "Feature:" "");
       p_scenario := p_scenario st; p_given := p_given st;
       p_when := p_when st; p_then := p_then st;
       current_section := current_section st |}
  else if Py.startswith line "Scenario:" then
    {| p_feature := p_feature st;
       p_scenario := Py.strip (Py.replace line "Scenario:" "");
       p_given := p_given st; p_when := p_when st; p_then := p_then st;
       current_section := current_section st |}
  else if Py.startswith line "Given" then
    {| p_feature := p_feature st; p_scenario := p_scenario st;
       p_given := p_given st ++ [Py.strip (Py.replace line "Given" "")];
       p_when := p_when st; p_then := p_then st;
       current_section := Some sec_given |}
  else if Py.startswith line "When" then
    {| p_feature := p_feature st; p_scenario := p_scenario st;
       p_given := p_given st;
       p_when := p_when st ++ [Py.strip (Py.replace line "When" "")];
       p_then := p_then st;
       current_section := Some sec_when |}
  else if Py.startswith line "Then" then
    {| p_feature := p_feature st; p_scenario := p_scenario st;
       p_given := p_given st; p_when := p_when st;
       p_then := p_then st ++ [Py.strip (Py.replace line "Then" "")];
       current_section := Some sec_then |}
  else if Py.startswith line "And" then
    match current_section st with
    | Some sec =>
        let step := Py.strip (Py.replace line "And" "") in
        match sec with
        | sec_given =>
            {| p_feature := p_feature st; p_scenario := p_scenario st;
               p_given := p_given st ++ [step];
               p_when := p_when st; p_then := p_then st;
               current_section := current_section st |}
        | sec_when =>
            {| p_feature := p_feature st; p_scenario := p_scenario st;
               p_given := p_given st;
               p_when := p_when st ++ [step]; p_then := p_then st;
               current_section := current_section st |}
        | sec_then =>
            {| p_feature := p_feature st; p_scenario := p_scenario st;
               p_given := p_given st; p_when := p_when st;
               p_then := p_then st ++ [step];
               current_section := current_section st |}
        end
    | None => st
    end
  else st.

Definition parse_lines (lines : list string) (st : parse_state) : parse_state :=
  fold_left (fun st line => parse_line st (Py.strip line)) lines st.

Definition _parse_gherkin_text (text : string) : GherkinScenario :=
  let lines := Py.split Py.nl_char (Py.strip text) in
  let st := parse_lines lines parse_init in
  {| feature := p_feature st; scenario := p_scenario st;
     given := p_given st; when := p_when st; then_ := p_then st;
     background := None |}.

End GherkinGenerator.

(** ** Regular expressions used by the agent, and integer conversion *)

Module Re.

(** The characters before the first double quote; [None] when there is
    no double quote. *)
Fixpoint until_quote (s : string) : option string :=
  match s with
  | EmptyString => None
  | String c s' =>
      if Ascii.eqb c Py.dquote then Some EmptyString
      else option_map (String c) (until_quote s')
  end.

(** [re.search] for a double quote, the group [([^Q]+)] of characters
    other than the double quote Q, and a double quote: group 1 of the
    leftmost match.  A match starts at a double quote that is followed by
    a non-empty run without double quotes and then a double quote. *)
Fixpoint search_quoted (s : string) : option string :=
  match s with
  | EmptyString => None
  | String c s' =>
      if Ascii.eqb c Py.dquote then
        match until_quote s' with
        | Some (String a r) => Some (String a r)
        | _ => search_quoted s'
        end
      else search_quoted s'
  end.

Definition is_digit (c : ascii) : bool :=
  let n := nat_of_ascii c in ((48 <=? n) && (n <=? 57))%nat.

Fixpoint take_digits (s : string) : string :=
  match s with
  | String c s' => if is_digit c then String c (take_digits s') else EmptyString
  | EmptyString => EmptyString
  end.

(** [re.search(r'\d+', s)]: the leftmost, longest run of digits. *)
Fixpoint search_digits (s : string) : option string :=
  match s with
  | EmptyString => None
  | String c s' =>
      if is_digit c then Some (take_digits s) else search_digits s'
  end.

(** The text after the leftmost occurrence of [p], compared without case;
    [p] is given in lower case. *)
Fixpoint after_nocase (p s : string) : option string :=
  if Py.startswith (Py.lower s) p
  then Some (substring (String.length p) (String.length s - String.length p) s)
  else match s with
       | String _ s' => after_nocase p s'
       | EmptyString => None
       end.

(** [re.search] with [re.IGNORECASE] for [should contain.*?] followed by
    the quoted group of [search_quoted]: group 1.  A line has no newline,
    so the lazy [.*?] reaches every later position, and a quoted run found
    after a later occurrence of the keyword is also found after the
    leftmost one. *)
Definition search_should_contain (line : string) : option string :=
  match after_nocase "should contain" line with
  | Some rest => search_quoted rest
  | None => None
  end.

End Re.

Module PyInt.

Definition digit_val (c : ascii) : Z := Z.of_nat (nat_of_ascii c - 48).

(** Digits with single underscores between them, as [int] accepts.
    [prev] tells whether the previous character was a digit. *)
Fixpoint digits_value (acc : Z) (prev : bool) (s : string) : option Z :=
  match s with
  | EmptyString => if prev then Some acc else None
  | String c s' =>
      if Re.is_digit c then digits_value (10 * acc + digit_val c)%Z true s'
      else if Ascii.eqb c "_" && prev then digits_value acc false s'
      else None
  end.

(** The white space [int] skips at both ends of its argument: the ASCII
    white space and, through the decoding of the text, the two spaces of
    Latin-1.  The separators U+001C to U+001F, which [str.strip] removes,
    are not skipped. *)
Definition is_int_space (c : ascii) : bool :=
  let n := nat_of_ascii c in
  (((9 <=? n) && (n <=? 13)) || (n =? 32) || (n =? 133) || (n =? 160))%nat.

Fixpoint skip_leading (s : string) : string :=
  match s with
  | String c s' => if is_int_space c then skip_leading s' else s
  | EmptyString => EmptyString
  end.

Fixpoint skip_trailing (s : string) : string :=
  match s with
  | String c s' =>
      match skip_trailing s' with
      | EmptyString => if is_int_space c then EmptyString else String c EmptyString
      | r => String c r
      end
  | EmptyString => EmptyString
  end.

(** [sys.get_int_max_str_digits()], at its default. *)
Definition max_str_digits : Z := 4300.

(** The number of digits of a literal; underscores do not count. *)
Fixpoint count_digits (s : string) : Z :=
  match s with
  | EmptyString => 0
  | String c s' => ((if Re.is_digit c then 1 else 0) + count_digits s')%Z
  end.

(** The digits of a literal, after the sign: a literal of more than
    [max_str_digits] digits is refused, leading zeros included. *)
Definition literal (r : string) : option Z :=
  if (count_digits r <=? max_str_digits)%Z then digits_value 0 false r
  else None.

(** [int(s)]; [None] is [ValueError]. *)
Definition parse (s : string) : option Z :=
  match skip_leading (skip_trailing s) with
  | String "+" r => literal r
  | String "-" r => option_map Z.opp (literal r)
  | r => literal r
  end.

Fixpoint pos_digits (fuel : nat) (n : Z) (acc : string) : string :=
  match fuel with
  | O => acc
  | S f =>
      let d := String (ascii_of_nat (48 + Z.to_nat (n mod 10))) acc in
      if (n <? 10)%Z then d else pos_digits f (n / 10)%Z d
  end.

(** [str(n)] *)
Definition str (n : Z) : string :=
  if (n <? 0)%Z
  then String "-" (pos_digits (S (Z.to_nat (Z.log2 (- n)))) (- n) "")
  else pos_digits (S (Z.to_nat (Z.log2 n))) n "".

(** [str(e)] for the [ValueError] of a literal of [digits] digits, more
    than the limit. *)
Definition limit_message (digits : Z) : string :=
  "Exceeds the limit (" ++ str max_str_digits
  ++ " digits) for integer string conversion: value has " ++ str digits
  ++ " digits; use sys.set_int_max_str_digits() to increase the limit".

End PyInt.

(** ** JSON values and dictionaries *)

#[local] Set Warnings "-register-all".

Inductive json :=
| JNull
| JBool (b : bool)
| JInt (n : Z)
| JFloat (text : string)
| JStr (s : string)
| JList (l : list json)
| JDict (d : list (string * json)).

Module Dict.
Section Ops.
Context {V : Type}.

Fixpoint get (d : list (string * V)) (k : string) : option V :=
  match d with
  | [] => None
  | (k', v) :: r => if String.eqb k' k then Some v else get r k
  end.

(** [d[k] = v]: overwrite in place or append. *)
Fixpoint set (d : list (string * V)) (k : string) (v : V) : list (string * V) :=
  match d with
  | [] => [(k, v)]
  | (k', v') :: r =>
      if String.eqb k' k then (k', v) :: r else (k', v') :: set r k v
  end.

End Ops.
End Dict.

(** ** [json.dumps] *)

Module Json.
Local Open Scope string_scope.

Definition hex_digit (n : nat) : ascii :=
  if (n <? 10)%nat then ascii_of_nat (48 + n) else ascii_of_nat (87 + n).

(** One character of a string, [ensure_ascii=True]. *)
Definition escape_char (c : ascii) : string :=
  let n := nat_of_ascii c in
  if Ascii.eqb c Py.dquote then String "\" (String Py.dquote "")
  else if Ascii.eqb c "\" then "\\"
  else if (n =? 10)%nat then "\n"
  else if (n =? 13)%nat then "\r"
  else if (n =? 9)%nat then "\t"
  else if (n =? 8)%nat then "\b"
  else if (n =? 12)%nat then "\f"
  else if ((32 <=? n) && (n <=? 126))%nat then String c ""
  else "\u00" ++ String (hex_digit (n / 16)) (String (hex_digit (n mod 16)) "").

Fixpoint escape (s : string) : string :=
  match s with
  | String c s' => escape_char c ++ escape s'
  | EmptyString => EmptyString
  end.

Definition dumps_str (s : string) : string :=
  String Py.dquote (escape s ++ String Py.dquote "").

(** [json.dumps(j)] with the default separators. *)
Fixpoint dumps (j : json) : string :=
  match j with
  | JNull => "null"
  | JBool true => "true"
  | JBool false => "false"
  | JInt n => PyInt.str n
  | JFloat t => t
  | JStr s => dumps_str s
  | JList l =>
      "[" ++ (fix items (l : list json) : string :=
                match l with
                | [] => ""
                | x :: r =>
                    match r with
                    | [] => dumps x
                    | _ => dumps x ++ ", " ++ items r
                    end
                end) l ++ "]"
  | JDict d =>
      "{" ++ (fix items (d : list (string * json)) : string :=
                match d with
                | [] => ""
                | (k, v) :: r =>
                    match r with
                    | [] => dumps_str k ++ ": " ++ dumps v
                    | _ => dumps_str k ++ ": " ++ dumps v ++ ", " ++ items r
                    end
                end) d ++ "}"
  end.

Fixpoint spaces (n : nat) : string :=
  match n with O => "" | S k => String " " (spaces k) end.

(** [json.dumps(j, indent=2)] at nesting depth [level]. *)
Fixpoint dumps_indent (level : nat) (j : json) : string :=
  match j with
  | JList [] => "[]"
  | JList l =>
      "[" ++ Py.nl ++ spaces (2 * S level)
      ++ (fix items (l : list json) : string :=
            match l with
            | [] => ""
            | x :: r =>
                match r with
                | [] => dumps_indent (S level) x
                | _ => dumps_indent (S level) x ++ "," ++ Py.nl
                       ++ spaces (2 * S level) ++ items r
                end
            end) l
      ++ Py.nl ++ spaces (2 * level) ++ "]"
  | JDict [] => "{}"
  | JDict d =>
      "{" ++ Py.nl ++ spaces (2 * S level)
      ++ (fix items (d : list (string * json)) : string :=
            match d with
            | [] => ""
            | (k, v) :: r =>
                match r with
                | [] => dumps_str k ++ ": " ++ dumps_indent (S level) v
                | _ => dumps_str k ++ ": " ++ dumps_indent (S level) v ++ ","
                       ++ Py.nl ++ spaces (2 * S level) ++ items r
                end
            end) d
      ++ Py.nl ++ spaces (2 * level) ++ "}"
  | _ => dumps j
  end.

End Json.

(** ** Value extractor *)

Module APIValidator.

(** The exceptions subscripting and [int] raise. *)
Inductive exception :=
| KeyError (key : string)
| KeyError_int (key : Z)
| TypeError (subject : json)
| IndexError (subject : json)
| ValueError (text : string).

Inductive outcome (A : Type) :=
| Return (a : A)
| Raise (e : exception).
Arguments Return {A} a.
Arguments Raise {A} e.

Definition bind {A B} (m : outcome A) (k : A -> outcome B) : outcome B :=
  match m with
  | Return a => k a
  | Raise e => Raise e
  end.

(** [v[k]] for a [str] key: only a dict accepts it. *)
Definition getitem_str (v : json) (k : string) : outcome json :=
  match v with
  | JDict d =>
      match Dict.get d k with
      | Some x => Return x
      | None => Raise (KeyError k)
      end
  | _ => Raise (TypeError v)
  end.

(** Position of index [i] in a sequence of length [len]: a negative index
    counts from the end. *)
Definition sequence_position (len : nat) (i : Z) : option nat :=
  let n := Z.of_nat len in
  if ((0 <=? i) && (i <? n))%Z then Some (Z.to_nat i)
  else if ((- n <=? i) && (i <? 0))%Z then Some (Z.to_nat (i + n))
  else None.

(** [v[i]] for an [int] index. *)
Definition getitem_int (v : json) (i : Z) : outcome json :=
  match v with
  | JList l =>
      match sequence_position (List.length l) i with
      | Some n =>
          match nth_error l n with
          | Some x => Return x
          | None => Raise (IndexError v)
          end
      | None => Raise (IndexError v)
      end
  | JStr s =>
      match sequence_position (String.length s) i with
      | Some n =>
          match String.get n s with
          | Some c => Return (JStr (String c ""))
          | None => Raise (IndexError v)
          end
      | None => Raise (IndexError v)
      end
  | JDict _ => Raise (KeyError_int i)
  | _ => Raise (TypeError v)
  end.

(** [key.split('[')[0]] *)
Definition key_name_of (key : string) : string := hd "" (Py.split "[" key).

(** [key.split('[')[1].split(']')[0]]; the key has a bracket, so the first
    split has a second piece. *)
Definition index_text_of (key : string) : string :=
  hd "" (Py.split "]" (nth 1 (Py.split "[" key) "")).

(** The body of the loop of [_get_nested_value]: one path segment.  The
    index is converted before the field is looked up. *)
Definition get_segment (current : json) (key : string) : outcome json :=
  if Py.contains "[" key && Py.contains "]" key then
    let key_name := key_name_of key in
    match PyInt.parse (index_text_of key) with
    | None => Raise (ValueError (index_text_of key))
    | Some index =>
        bind (getitem_str current key_name) (fun v => getitem_int v index)
    end
  else getitem_str current key.

Fixpoint get_segments (current : json) (keys : list string) : outcome json :=
  match keys with
  | [] => Return current
  | key :: rest => bind (get_segment current key) (fun v => get_segments v rest)
  end.

Definition _get_nested_value (data : json) (path : string) : outcome json :=
  get_segments data (Py.split "." path).

Section Extract.

(** [str(e)]: the interpreter's text for an exception. *)
Variable str_exception : exception -> string.

(** One iteration of the loop of [_extract_values]. *)
Definition extract_one (data : json) (extracted : list (string * json))
    (item : string * string) : list (string * json) :=
  let (key, path) := item in
  match _get_nested_value data path with
  | Return value => Dict.set extracted key value
  | Raise e =>
      Dict.set extracted key (JStr ("Error extracting: " ++ str_exception e))
  end.

(** [extractors] lists the items of the dict in insertion order. *)
Definition _extract_values (data : json) (extractors : list (string * string))
    : list (string * json) :=
  fold_left (extract_one data) extractors [].

End Extract.

End APIValidator.

(** ** Fixed-point formatting of floats *)

Module Fmt.
Local Open Scope string_scope.

Fixpoint zeros (n : nat) : string :=
  match n with O => "" | S k => String "0" (zeros k) end.

(** Decimal digits of [n >= 0] with the decimal point before the last
    [prec] digits. *)
Definition place_point (prec : nat) (n : Z) : string :=
  let d := PyInt.str n in
  let d := zeros (S prec - String.length d) ++ d in
  let k := (String.length d - prec)%nat in
  if (prec =? 0)%nat then d
  else substring 0 k d ++ "." ++ substring k prec d.

(** [m * 2^e * 10^prec] rounded to the nearest integer, ties to even. *)
Definition scaled_round (prec : nat) (m : positive) (e : Z) : Z :=
  let num := (Z.pos m * 10 ^ Z.of_nat prec)%Z in
  if (0 <=? e)%Z then (num * 2 ^ e)%Z
  else
    let den := (2 ^ (- e))%Z in
    let q := (num / den)%Z in
    let r := (num mod den)%Z in
    if (den <? 2 * r)%Z then (q + 1)%Z
    else if ((2 * r =? den) && Z.odd q)%Z then (q + 1)%Z
    else q.

(** [format(v, '.<prec>f')] *)
Definition fixed (prec : nat) (v : float) : string :=
  match Prim2SF v with
  | S754_zero s => (if s then "-" else "") ++ place_point prec 0
  | S754_infinity s => (if s then "-" else "") ++ "inf"
  | S754_nan => "nan"
  | S754_finite s m e =>
      (if s then "-" else "") ++ place_point prec (scaled_round prec m e)
  end.

(** [float(n)] for [0 <= n < 2^53]. *)
Definition float_of_nat (n : nat) : float :=
  PrimFloat.of_uint63 (Uint63.of_Z (Z.of_nat n)).

(** [a / b] on ints; [None] is [ZeroDivisionError]. *)
Definition truediv (a b : nat) : option float :=
  if (b =? 0)%nat then None
  else Some (PrimFloat.div (float_of_nat a) (float_of_nat b)).

End Fmt.

(** ** Results *)

(** The dict [execute_gherkin_scenario] stores as [api_response]. *)
Record api_response_dict := {
  status_code : Z;
  response_time_ms : float;
  data : json
}.

Record TestResult := {
  success : bool;
  scenario_name : string;
  timestamp : string;
  api_response : option api_response_dict;
  ui_validation_result : option json;
  extracted_values : option (list (string * json));
  errors : option (list string);
  execution_time : float
}.

(** A [datetime], kept as the two texts the program prints from it:
    [isoformat()] and [strftime('%Y-%m-%d %H:%M:%S')]. *)
Record datetime := {
  isoformat : string;
  strftime : string
}.

Inductive Status := PASSED | FAILED | SKIPPED.

Record FormattedTestResult := {
  f_status : Status;
  f_execution_time : float;
  f_timestamp : datetime;
  f_api_endpoint : string;
  f_status_code : Z;
  f_response_time_ms : float;
  f_extracted_values : list (string * json);
  f_validation_errors : list string;
  f_message : string;
  f_response_data : json
}.

(** What [execute_gherkin_scenario] returns: one of the two classes. *)
Inductive execution_result :=
| Plain (r : TestResult)
| Formatted (r : FormattedTestResult).

(** ** The world outside the agent *)

(** A [requests.Response]: [r_json] is [None] when [response.json()]
    raises. *)
Record Response := {
  r_status_code : Z;
  r_elapsed_seconds : float;
  r_text : string;
  r_json : option json
}.

Inductive http_outcome :=
| Responded (r : Response)
| RequestException (message : string)
| OtherException (message : string).

(** [requests_request n method url]: the outcome of the [n]-th call, made
    with the fixed header and timeout.  [time_time n] and [datetime_now n]:
    the [n]-th reading of the clock. *)
Record Env := {
  requests_request : nat -> string -> string -> http_outcome;
  time_time : nat -> float;
  datetime_now : nat -> datetime
}.

(** [self.test_results], the HTTP calls made so far, and the number of
    clock readings. *)
Record State := {
  test_results : list TestResult;
  http_calls : list (string * string);
  clock_reads : nat
}.

(** ** The agent *)

Module APITestingAgent.
Local Open Scope string_scope.

(** *** State passing *)

Definition M (A : Type) : Type := State -> A * State.

Definition ret {A} (a : A) : M A := fun s => (a, s).

Definition mbind {A B} (m : M A) (k : A -> M B) : M B :=
  fun s => let (a, s') := m s in k a s'.

Notation "x <- m ;; k" := (mbind m (fun x => k))
  (at level 61, m at next level, right associativity).

Definition read_time (env : Env) : M float :=
  fun s => (time_time env (clock_reads s),
            {| test_results := test_results s; http_calls := http_calls s;
               clock_reads := S (clock_reads s) |}).

Definition read_now (env : Env) : M datetime :=
  fun s => (datetime_now env (clock_reads s),
            {| test_results := test_results s; http_calls := http_calls s;
               clock_reads := S (clock_reads s) |}).

Definition http_request (env : Env) (method url : string) : M http_outcome :=
  fun s => (requests_request env (List.length (http_calls s)) method url,
            {| test_results := test_results s;
               http_calls := (http_calls s ++ [(method, url)])%list;
               clock_reads := clock_reads s |}).

(** [self.test_results.append(result)] *)
Definition append_result (r : TestResult) : M unit :=
  fun s => (tt,
            {| test_results := (test_results s ++ [r])%list;
               http_calls := http_calls s; clock_reads := clock_reads s |}).

(** *** Text of a generated scenario *)

Fixpoint step_lines (keyword : string) (steps : list string) : string :=
  match steps with
  | [] => ""
  | step :: rest =>
      "  " ++ keyword ++ " " ++ step ++ Py.nl ++ step_lines keyword rest
  end.

(** The text [generate_gherkin_from_prompt] builds from the scenario the
    generator returned. *)
Definition gherkin_text_of (sc : GherkinScenario) : string :=
  "Feature: " ++ feature sc ++ Py.nl ++ Py.nl
  ++ "Scenario: " ++ scenario sc ++ Py.nl
  ++ step_lines "Given" (given sc)
  ++ step_lines "When" (when sc)
  ++ step_lines "Then" (then_ sc).

(** [generate_gherkin] is the language model's answer. *)
Definition generate_gherkin_from_prompt
    (generate_gherkin : string -> option string -> GherkinScenario)
    (prompt : string) (context : option string) : string :=
  gherkin_text_of (generate_gherkin prompt context).

Definition _parse_gherkin_scenario (gherkin_text : string) : GherkinScenario :=
  GherkinGenerator._parse_gherkin_text gherkin_text.

(** *** Directive extraction: the first loop of [execute_gherkin_scenario] *)

(** The variables of the loop.  [raised] is [str(e)] of the exception [e]
    that ended the loop, when one did: the other fields are then the
    values the variables had at that point. *)
Record directives := {
  api_url : option string;
  method : string;
  expected_status : Z;
  d_scenario_name : string;
  raised : option string
}.

Definition directives_init : directives :=
  {| api_url := None; method := "GET"; expected_status := 200;
     d_scenario_name := "API Test"; raised := None |}.

Definition read_scenario_name (d : directives) (line : string) : directives :=
  if Py.startswith line "Scenario:" then
    {| api_url := api_url d; method := method d;
       expected_status := expected_status d;
       d_scenario_name := Py.strip (Py.replace line "Scenario:" "");
       raised := raised d |}
  else d.

Definition read_url (d : directives) (line : string) : directives :=
  if Py.contains "endpoint is" (Py.lower line)
     || Py.contains "url is" (Py.lower line) then
    match Re.search_quoted line with
    | Some u =>
        {| api_url := Some u; method := method d;
           expected_status := expected_status d;
           d_scenario_name := d_scenario_name d; raised := raised d |}
    | None => d
    end
  else d.

Definition set_method (d : directives) (m : string) : directives :=
  {| api_url := api_url d; method := m;
     expected_status := expected_status d;
     d_scenario_name := d_scenario_name d; raised := raised d |}.

Definition read_method (d : directives) (line : string) : directives :=
  if Py.contains "GET request" line then set_method d "GET"
  else if Py.contains "POST request" line then set_method d "POST"
  else if Py.contains "PUT request" line then set_method d "PUT"
  else if Py.contains "DELETE request" line then set_method d "DELETE"
  else d.

(** The status line: [int] of the first run of digits.  A run of digits
    is a literal [int] refuses only for its length, and then it raises the
    [ValueError] of the digit limit. *)
Definition read_status (d : directives) (line : string) : directives :=
  if Py.contains "status code should be" (Py.lower line) then
    match Re.search_digits line with
    | Some digits =>
        match PyInt.parse digits with
        | Some n =>
            {| api_url := api_url d; method := method d;
               expected_status := n;
               d_scenario_name := d_scenario_name d; raised := raised d |}
        | None =>
            {| api_url := api_url d; method := method d;
               expected_status := expected_status d;
               d_scenario_name := d_scenario_name d;
               raised :=
                 Some (PyInt.limit_message (PyInt.count_digits digits)) |}
        end
    | None => d
    end
  else d.

(** One iteration, on the stripped line.  An exception ends the loop: no
    line is read after it. *)
Definition directive_line (d : directives) (line : string) : directives :=
  match raised d with
  | Some _ => d
  | None =>
      read_status
        (read_method (read_url (read_scenario_name d line) line) line) line
  end.

Definition split_lines (gherkin_text : string) : list string :=
  Py.split Py.nl_char (Py.strip gherkin_text).

(** The loop, from the directives [d] found so far. *)
Definition directive_fold (lines : list string) (d : directives) : directives :=
  fold_left (fun d line => directive_line d (Py.strip line)) lines d.

Definition extract_directives (lines : list string) : directives :=
  directive_fold lines directives_init.

(** *** Validation: the second loop of [execute_gherkin_scenario] *)

(** [isinstance(response_data, list)] *)
Definition is_list (j : json) : bool :=
  match j with JList _ => true | _ => false end.

(** The two accumulators of the loop: [validation_errors] and
    [extracted_values]. *)
Definition checks : Type := list string * list (string * json).

Definition check_array (response_data : json) (acc : checks) (line_lower : string)
    : checks :=
  if Py.contains "should be a json array" line_lower
     || Py.contains "should be an array" line_lower then
    if negb (is_list response_data)
    then ((fst acc ++ ["Response is not a JSON array"])%list, snd acc)
    else acc
  else acc.

Definition check_contains (response_data : json) (acc : checks)
    (line line_lower : string) : checks :=
  if Py.contains "should contain" line_lower then
    match Re.search_should_contain line with
    | Some search_value =>
        let response_str := Json.dumps response_data in
        if negb (Py.contains search_value response_str)
        then ((fst acc
               ++ [("Response does not contain '" ++ search_value ++ "'")%string])%list,
              snd acc)
        else (fst acc,
              Dict.set (snd acc)
                ("contains_" ++ Py.replace search_value " " "_") (JBool true))
    | None => acc
    end
  else acc.

(** One iteration, on the line as split (not stripped). *)
Definition validate_line (response_data : json) (acc : checks) (line : string)
    : checks :=
  let line_lower := Py.lower line in
  check_contains response_data (check_array response_data acc line_lower)
    line line_lower.

(** [sep.join(l)] *)
Fixpoint join (sep : string) (l : list string) : string :=
  match l with
  | [] => ""
  | x :: r => match r with [] => x | _ => x ++ sep ++ join sep r end
  end.

Definition status_message (expected actual : Z) : string :=
  "Expected status " ++ PyInt.str expected ++ ", got " ++ PyInt.str actual.

Definition failed_result (name : string) (now : datetime) (error : string)
    (elapsed : float) : TestResult :=
  {| success := false; scenario_name := name; timestamp := isoformat now;
     api_response := None; ui_validation_result := None;
     extracted_values := None; errors := Some [error];
     execution_time := elapsed |}.

(** The parsed body: [response.json()], or the text under the key [text]
    when that raises. *)
Definition response_body (response : Response) : json :=
  match r_json response with
  | Some j => j
  | None => JDict [("text", JStr (r_text response))]
  end.

(** [status_ok] *)
Definition status_matches (d : directives) (response : Response) : bool :=
  (r_status_code response =? expected_status d)%Z.

(** The status check and the loop over the lines: the final
    [validation_errors] and [extracted_values]. *)
Definition validate (lines : list string) (d : directives) (response : Response)
    : checks :=
  let initial : checks :=
    (if negb (status_matches d response)
     then [status_message (expected_status d) (r_status_code response)]
     else [], []) in
  fold_left (validate_line (response_body response)) lines initial.

(** *** [execute_gherkin_scenario] *)

Definition execute_gherkin_scenario (env : Env) (gherkin_text : string)
    : M execution_result :=
  start_time <- read_time env ;;
  let lines := split_lines gherkin_text in
  let d := extract_directives lines in
  let scenario_name := d_scenario_name d in
  match raised d with
  | Some message =>
      now <- read_now env ;;
      t <- read_time env ;;
      ret (Plain (failed_result "Error" now
                    ("Execution error: " ++ message)
                    (PrimFloat.sub t start_time)))
  | None =>
  match api_url d with
  | Some (String _ _ as url) =>
      answer <- http_request env (method d) url ;;
      match answer with
      | Responded response =>
          let response_time_ms :=
            PrimFloat.mul (r_elapsed_seconds response) 1000%float in
          let response_data := response_body response in
          let status_ok := status_matches d response in
          let final := validate lines d response in
          let validation_errors := fst final in
          let extracted := snd final in
          let ok := (List.length validation_errors =? 0)%nat && status_ok in
          now <- read_now env ;;
          t <- read_time env ;;
          let result :=
            {| success := ok; scenario_name := scenario_name;
               timestamp := isoformat now;
               api_response :=
                 Some {| status_code := r_status_code response;
                         response_time_ms := response_time_ms;
                         data := response_data |};
               ui_validation_result := None;
               extracted_values := Some extracted;
               errors := match validation_errors with
                         | [] => None
                         | _ => Some validation_errors
                         end;
               execution_time := PrimFloat.sub t start_time |} in
          _ <- append_result result ;;
          t' <- read_time env ;;
          now' <- read_now env ;;
          ret (Formatted
                 {| f_status := if ok then PASSED else FAILED;
                    f_execution_time := PrimFloat.sub t' start_time;
                    f_timestamp := now';
                    f_api_endpoint := url;
                    f_status_code := r_status_code response;
                    f_response_time_ms := response_time_ms;
                    f_extracted_values := extracted;
                    f_validation_errors := validation_errors;
                    f_message :=
                      if ok then "Test passed successfully"
                      else "Test failed: " ++ join ", " validation_errors;
                    f_response_data := response_data |})
      | RequestException message =>
          now <- read_now env ;;
          t <- read_time env ;;
          ret (Plain (failed_result scenario_name now
                        ("API request failed: " ++ message)
                        (PrimFloat.sub t start_time)))
      | OtherException message =>
          now <- read_now env ;;
          t <- read_time env ;;
          ret (Plain (failed_result "Error" now
                        ("Execution error: " ++ message)
                        (PrimFloat.sub t start_time)))
      end
  | _ =>
      now <- read_now env ;;
      t <- read_time env ;;
      ret (Plain (failed_result scenario_name now
                    "Could not extract API URL from Gherkin scenario"
                    (PrimFloat.sub t start_time)))
  end
  end.

(** *** [generate_test_report] *)

(** The glyphs U+2705 and U+274C, as their UTF-8 bytes. *)
Definition glyph_passed : string :=
  String (ascii_of_nat 226) (String (ascii_of_nat 156) (String (ascii_of_nat 133) "")).
Definition glyph_failed : string :=
  String (ascii_of_nat 226) (String (ascii_of_nat 157) (String (ascii_of_nat 140) "")).

Definition str_nat (n : nat) : string := PyInt.str (Z.of_nat n).

(** [sum(1 for r in self.test_results if r.success)] *)
Definition count_passed (results : list TestResult) : nat :=
  List.length (filter success results).

(** The text the [.1f] field of the Success Rate line prints; [None] is
    [ZeroDivisionError]. *)
Definition success_rate_text (passed_tests total_tests : nat) : option string :=
  if (0 <? total_tests)%nat then
    match Fmt.truediv passed_tests total_tests with
    | Some q => Some (Fmt.fixed 1 (PrimFloat.mul q 100%float))
    | None => None
    end
  else Some (Fmt.fixed 1 (Fmt.float_of_nat 0)).

Fixpoint error_lines (errs : list string) : string :=
  match errs with
  | [] => ""
  | e :: r => "  - " ++ e ++ Py.nl ++ error_lines r
  end.

(** The body of the loop over the results; [i] counts from 1. *)
Definition result_section (i : nat) (result : TestResult) : string :=
  let status :=
    if success result then glyph_passed ++ " PASSED"
    else glyph_failed ++ " FAILED" in
  "### Test " ++ str_nat i ++ ": " ++ scenario_name result ++ " " ++ status
  ++ Py.nl
  ++ "- Execution Time: " ++ Fmt.fixed 2 (execution_time result) ++ "s" ++ Py.nl
  ++ "- Timestamp: " ++ timestamp result ++ Py.nl
  ++ match api_response result with
     | Some r => "- API Status: " ++ PyInt.str (status_code r) ++ Py.nl
     | None => ""
     end
  ++ match extracted_values result with
     | Some ((_ :: _) as ev) =>
         "- Extracted Values: " ++ Json.dumps_indent 0 (JDict ev) ++ Py.nl
     | _ => ""
     end
  ++ match errors result with
     | Some ((_ :: _) as errs) => "- Errors:" ++ Py.nl ++ error_lines errs
     | _ => ""
     end
  ++ Py.nl.

Fixpoint result_sections (i : nat) (results : list TestResult) : string :=
  match results with
  | [] => ""
  | r :: rest => result_section i r ++ result_sections (S i) rest
  end.

Definition generate_test_report (env : Env) : M (option string) :=
  now <- read_now env ;;
  fun s =>
    let results := test_results s in
    let total_tests := List.length results in
    let passed_tests := count_passed results in
    let failed_tests := (total_tests - passed_tests)%nat in
    (match success_rate_text passed_tests total_tests with
     | Some rate =>
         Some ("# API Testing Report" ++ Py.nl ++ Py.nl
               ++ "Generated: " ++ strftime now ++ Py.nl ++ Py.nl
               ++ "## Summary" ++ Py.nl
               ++ "- Total Tests: " ++ str_nat total_tests ++ Py.nl
               ++ "- Passed: " ++ str_nat passed_tests ++ Py.nl
               ++ "- Failed: " ++ str_nat failed_tests ++ Py.nl
               ++ "- Success Rate: " ++ rate ++ "%" ++ Py.nl ++ Py.nl
               ++ "## Test Results" ++ Py.nl ++ Py.nl
               ++ result_sections 1 results)
     | None => None
     end, s).

End APITestingAgent.

(** ** The validator's API test *)

Module ApiTest.
Import APIValidator.
Local Open Scope string_scope.

(** *** Upper case *)

(** [str.upper] on one Latin-1 character, as Unicode code points: the
    capitals of the micro sign and of y with diaeresis lie outside
    Latin-1, and the sharp s becomes two letters. *)
Definition upper_char (c : ascii) : list N :=
  let n := N_of_ascii c in
  if ((97 <=? n) && (n <=? 122))%N then [(n - 32)%N]
  else if (n =? 181)%N then [924%N]
  else if (n =? 223)%N then [83%N; 83%N]
  else if ((224 <=? n) && (n <=? 254) && negb (n =? 247))%N then [(n - 32)%N]
  else if (n =? 255)%N then [376%N]
  else [n].

(** [s.upper()] *)
Fixpoint upper (s : string) : list N :=
  match s with
  | EmptyString => []
  | String c s' => (upper_char c ++ upper s')%list
  end.

(** The code points of a literal. *)
Definition codes (s : string) : list N :=
  map N_of_ascii (list_ascii_of_string s).

Fixpoint startswith_codes (hay needle : list N) {struct needle} : bool :=
  match needle with
  | [] => true
  | a :: needle' =>
      match hay with
      | b :: hay' => (a =? b)%N && startswith_codes hay' needle'
      | [] => false
      end
  end.

(** [needle in hay] on code points. *)
Fixpoint contains_codes (needle hay : list N) : bool :=
  startswith_codes hay needle
  || match hay with
     | _ :: t => contains_codes needle t
     | [] => false
     end.

(** *** Configuration, request and answers *)

Record APITestConfig := {
  base_url : string;
  endpoint : string;
  method : string;
  headers : option (list (string * string));
  query_params : option (list (string * string));
  body : option (list (string * json));
  auth : option (list (string * json));
  expected_status : Z;
  expected_response_schema : option (list (string * json));
  extract_values : option (list (string * string))
}.

(** The keyword arguments of [requests.request]. *)
Record request_kwargs := {
  kw_method : list N;
  kw_url : string;
  kw_headers : list (string * string);
  kw_timeout : Z;
  kw_params : option (list (string * string));
  kw_json : option (list (string * json));
  kw_auth : option (json * json)
}.

(** A [requests.Response] with its headers. *)
Record HttpResponse := {
  resp : Response;
  resp_headers : list (string * string)
}.

(** [Failed message]: the call raised an exception [e] with [str(e)]
    equal to [message]. *)
Inductive request_outcome :=
| Answered (r : HttpResponse)
| Failed (message : string).

Inductive llm_outcome :=
| Content (content : string)
| LlmFailed (message : string).

(** [request n kwargs]: the outcome of the [n]-th HTTP call;
    [ainvoke n system human]: the outcome of the [n]-th question to the
    language model. *)
Record Services := {
  request : nat -> request_kwargs -> request_outcome;
  ainvoke : nat -> string -> string -> llm_outcome
}.

(** The HTTP calls made and the questions asked so far. *)
Record Trace := {
  requests_made : list request_kwargs;
  llm_asked : list (string * string)
}.

(** The tuple [execute_api_test] returns. *)
Definition api_result : Type :=
  bool * list (string * json) * option (list (string * json)).

(** [d if d else None]: a dict counts when it is not empty. *)
Definition truthy {A} (d : option (list A)) : option (list A) :=
  match d with
  | Some (_ :: _) => d
  | _ => None
  end.

Definition set_headers (config : APITestConfig)
    (h : list (string * string)) : APITestConfig :=
  {| base_url := base_url config; endpoint := endpoint config;
     method := method config; headers := Some h;
     query_params := query_params config; body := body config;
     auth := auth config; expected_status := expected_status config;
     expected_response_schema := expected_response_schema config;
     extract_values := extract_values config |}.

(** *** [_validate_schema] *)

Definition system_prompt : string :=
  "You are validating API response against expected schema." ++ Py.nl
  ++ "Check if the response data matches the schema requirements." ++ Py.nl
  ++ "Return only 'VALID' or 'INVALID' followed by a brief explanation.".

Definition user_message (response_data : json)
    (schema : list (string * json)) : string :=
  Py.nl ++ "Response Data:" ++ Py.nl
  ++ Json.dumps_indent 0 response_data ++ Py.nl ++ Py.nl
  ++ "Expected Schema:" ++ Py.nl
  ++ Json.dumps_indent 0 (JDict schema) ++ Py.nl ++ Py.nl
  ++ "Is the response valid according to the schema?".

(** ['VALID' in content.upper()] *)
Definition verdict (content : string) : bool :=
  contains_codes (codes "VALID") (upper content).

Definition ask (tr : Trace) (question : string * string) : Trace :=
  {| requests_made := requests_made tr;
     llm_asked := (llm_asked tr ++ [question])%list |}.

(** The verdict, or the text of the exception the model raised. *)
Definition _validate_schema (sv : Services) (response_data : json)
    (schema : list (string * json)) (tr : Trace)
    : (bool + string) * Trace :=
  let human := user_message response_data schema in
  (match ainvoke sv (List.length (llm_asked tr)) system_prompt human with
   | Content content => inl (verdict content)
   | LlmFailed message => inr message
   end, ask tr (system_prompt, human)).

(** *** [execute_api_test] *)

Section Run.

(** [str(e)] for the exceptions of subscripting, and [str(v)] for a value
    that is neither a string, an integer, a truth value nor [None]. *)
Variable str_exception : exception -> string.
Variable str_other : json -> string.

(** [str(v)], as the f-string prints it. *)
Definition py_str (v : json) : string :=
  match v with
  | JStr s => s
  | JInt n => PyInt.str n
  | JBool true => "True"
  | JBool false => "False"
  | JNull => "None"
  | _ => str_other v
  end.

(** The request preparation.  The headers of the request are the very
    dict of the configuration when that one is not empty, so the
    assignment of the [Authorization] header reaches the configuration;
    the second component is the configuration after the preparation. *)
Definition prepare_request (config : APITestConfig)
    : outcome request_kwargs * APITestConfig :=
  let url := base_url config ++ endpoint config in
  let kw_of h a :=
    {| kw_method := upper (method config); kw_url := url; kw_headers := h;
       kw_timeout := 30; kw_params := truthy (query_params config);
       kw_json := truthy (body config); kw_auth := a |} in
  let h := match headers config with
           | Some ((_ :: _) as h) => h
           | _ => []
           end in
  match auth config with
  | Some ((_ :: _) as a) =>
      match Dict.get a "bearer" with
      | Some token =>
          let h' := Dict.set h "Authorization" ("Bearer " ++ py_str token) in
          (Return (kw_of h' None),
           match headers config with
           | Some (_ :: _) => set_headers config h'
           | _ => config
           end)
      | None =>
          match Dict.get a "basic" with
          | Some basic =>
              (bind (getitem_str basic "username") (fun username =>
               bind (getitem_str basic "password") (fun password =>
               Return (kw_of h (Some (username, password))))),
               config)
          | None => (Return (kw_of h None), config)
          end
      end
  | _ => (Return (kw_of h None), config)
  end.

Definition sent (tr : Trace) (kwargs : request_kwargs) : Trace :=
  {| requests_made := (requests_made tr ++ [kwargs])%list;
     llm_asked := llm_asked tr |}.

(** The result of the [except Exception] clause. *)
Definition error_result (message : string) : api_result :=
  (false, [("error", JStr message)], None).

Definition headers_dict (h : list (string * string)) : json :=
  JDict (map (fun kv => (fst kv, JStr (snd kv))) h).

(** The result, the configuration after the call and the trace after the
    call. *)
Definition execute_api_test (sv : Services) (config : APITestConfig)
    (tr : Trace) : api_result * APITestConfig * Trace :=
  let (prepared, config') := prepare_request config in
  match prepared with
  | Raise e => (error_result (str_exception e), config', tr)
  | Return kwargs =>
      match request sv (List.length (requests_made tr)) kwargs with
      | Failed message => (error_result message, config', sent tr kwargs)
      | Answered response =>
          let code := r_status_code (resp response) in
          if negb (code =? expected_status config)%Z then
            ((false,
              [("status_code", JInt code);
               ("body", JStr (r_text (resp response)));
               ("error",
                JStr ("Expected status " ++ PyInt.str (expected_status config)
                      ++ ", got " ++ PyInt.str code))],
              None), config', sent tr kwargs)
          else
            let response_data :=
              APITestingAgent.response_body (resp response) in
            let extracted_values :=
              match extract_values config with
              | Some ((_ :: _) as extractors) =>
                  Some (_extract_values str_exception response_data extractors)
              | _ => None
              end in
            let passed :=
              (true,
               [("status_code", JInt code);
                ("body", response_data);
                ("headers", headers_dict (resp_headers response))],
               extracted_values) in
            match expected_response_schema config with
            | Some ((_ :: _) as schema) =>
                let (schema_valid, tr') :=
                  _validate_schema sv response_data schema (sent tr kwargs) in
                match schema_valid with
                | inr message => (error_result message, config', tr')
                | inl true => (passed, config', tr')
                | inl false =>
                    ((false,
                      [("status_code", JInt code);
                       ("body", response_data);
                       ("error", JStr "Response schema validation failed")],
                      extracted_values), config', tr')
                end
            | _ => (passed, config', sent tr kwargs)
            end
      end
  end.

End Run.

End ApiTest.

(** ** The web tab *)

Module ApiTestingTab.
Local Open Scope string_scope.

(** [re.search(r'^\s*...', text, re.MULTILINE)]: a match starts at the
    start of a line, skips white space (newlines too) and goes on with
    what [rest] recognises.  [line_start] tells whether the current
    position follows a newline or is the start of the text. *)
Fixpoint search_line_start (rest : string -> bool) (line_start : bool)
    (text : string) : bool :=
  (line_start && rest (Py.lstrip text))
  || match text with
     | String c t => search_line_start rest (Ascii.eqb c Py.nl_char) t
     | EmptyString => false
     end.

(** [re.search(r'^\s*Feature:', text, re.MULTILINE)], and the same for
    [Scenario:]. *)
Definition has_declaration (keyword text : string) : bool :=
  search_line_start (fun r => Py.startswith r keyword) true text.

(** What the pattern [kw\s+] needs: the keyword, then a white space. *)
Fixpoint keyword_then_space (kw r : string) : bool :=
  match kw with
  | EmptyString =>
      match r with
      | String c _ => Py.is_space c
      | EmptyString => false
      end
  | String a kw' =>
      match r with
      | String b r' => Ascii.eqb a b && keyword_then_space kw' r'
      | EmptyString => false
      end
  end.

Definition step_keywords : list string :=
  ["Given"; "When"; "Then"; "And"; "But"].

(** [has_steps] *)
Definition has_steps (text : string) : bool :=
  existsb (fun kw => search_line_start (keyword_then_space kw) true text)
    step_keywords.

(** The bullet U+2022, as its UTF-8 bytes. *)
Definition bullet : string :=
  String (ascii_of_nat 226) (String (ascii_of_nat 128)
    (String (ascii_of_nat 162) "")).

Definition is_empty (s : string) : bool :=
  match s with
  | EmptyString => true
  | _ => false
  end.

Definition syntax_errors (gherkin_text : string) : list string :=
  ((if has_declaration "Feature:" gherkin_text then []
    else ["Missing 'Feature:' declaration"])
   ++ (if has_declaration "Scenario:" gherkin_text then []
       else ["Missing 'Scenario:' declaration"])
   ++ (if has_steps gherkin_text then []
       else ["No test steps found (Given/When/Then)"]))%list.

Definition validate_gherkin_handler (gherkin_text : string) : string :=
  if is_empty gherkin_text || is_empty (Py.strip gherkin_text) then
    APITestingAgent.glyph_failed ++ " No Gherkin scenario to validate"
  else
    match syntax_errors gherkin_text with
    | [] => APITestingAgent.glyph_passed ++ " Gherkin syntax is valid!"
    | errors =>
        APITestingAgent.glyph_failed ++ " Validation failed:" ++ Py.nl
        ++ APITestingAgent.join Py.nl
             (map (fun err => "  " ++ bullet ++ " " ++ err) errors)
    end.

(** *** [execute_test_handler] *)

(** Around the agent: [new_agent] is the construction of the agent, which
    gives [Some message] when it raises an exception of that text, and
    [float_text] is the text [json.dumps] prints for a float. *)
Record TabEnv := {
  agent_env : Env;
  new_agent : string -> string -> string -> option string -> option string;
  float_text : float -> string
}.

(** The text of the AttributeError that reading [status] from a
    [TestResult] raises. *)
Definition attribute_error : string :=
  "'TestResult' object has no attribute 'status'".

(** The warning sign U+26A0 U+FE0F, as its UTF-8 bytes. *)
Definition glyph_warning : string :=
  String (ascii_of_nat 226) (String (ascii_of_nat 154)
    (String (ascii_of_nat 160) (String (ascii_of_nat 239)
      (String (ascii_of_nat 184) (String (ascii_of_nat 143) ""))))).

(** The [except Exception] clause. *)
Definition execution_error (env : TabEnv) (message : string)
    : APITestingAgent.M (string * string) :=
  APITestingAgent.mbind (APITestingAgent.read_now (agent_env env))
    (fun now =>
       APITestingAgent.ret
         (APITestingAgent.glyph_failed ++ " Execution error: " ++ message,
          Json.dumps_indent 0
            (JDict [("status", JStr "error");
                    ("error", JStr message);
                    ("timestamp", JStr (isoformat now))]))).

(** [result.status.value] *)
Definition status_value (st : Status) : string :=
  match st with
  | PASSED => "passed"
  | FAILED => "failed"
  | SKIPPED => "skipped"
  end.

Definition result_dict (env : TabEnv) (r : FormattedTestResult) : json :=
  JDict
    [("test_status", JStr (status_value (f_status r)));
     ("message", JStr (f_message r));
     ("execution_time", JStr (Fmt.fixed 2 (f_execution_time r) ++ "s"));
     ("api_endpoint",
      JStr (if is_empty (f_api_endpoint r) then "N/A" else f_api_endpoint r));
     ("status_code", JInt (f_status_code r));
     ("response_time_ms", JFloat (float_text env (f_response_time_ms r)));
     ("full_response", f_response_data r);
     ("extracted_values", JDict (f_extracted_values r));
     ("validation_errors", JList (map JStr (f_validation_errors r)));
     ("timestamp", JStr (isoformat (f_timestamp r)))].

Definition status_msg (r : FormattedTestResult) : string :=
  match f_status r with
  | PASSED =>
      APITestingAgent.glyph_passed ++ " Test PASSED in "
      ++ Fmt.fixed 2 (f_execution_time r) ++ "s"
  | FAILED => APITestingAgent.glyph_failed ++ " Test FAILED: " ++ f_message r
  | SKIPPED => glyph_warning ++ " Test SKIPPED: " ++ f_message r
  end.

(** The handler builds an agent of its own, with an empty log, and drops
    it when it returns: the log of the state is not touched. *)
Definition with_new_agent (s : State) : State :=
  {| test_results := []; http_calls := http_calls s;
     clock_reads := clock_reads s |}.

Definition drop_agent (s s' : State) : State :=
  {| test_results := test_results s; http_calls := http_calls s';
     clock_reads := clock_reads s' |}.

Definition execute_test_handler (env : TabEnv)
    (gherkin_text llm_provider model_name api_key base_url : string)
    : APITestingAgent.M (string * string) :=
  if is_empty gherkin_text || is_empty (Py.strip gherkin_text) then
    APITestingAgent.ret
      (APITestingAgent.glyph_failed ++ " No Gherkin scenario to execute", "{}")
  else if is_empty llm_provider || is_empty model_name then
    APITestingAgent.ret
      (APITestingAgent.glyph_failed
       ++ " Please configure LLM settings in Agent Settings tab", "{}")
  else if is_empty api_key || is_empty (Py.strip api_key) then
    APITestingAgent.ret
      (APITestingAgent.glyph_failed
       ++ " Please set API key in Agent Settings tab", "{}")
  else
    match new_agent env llm_provider model_name api_key
            (if is_empty base_url then None else Some base_url) with
    | Some message => execution_error env message
    | None =>
        fun s =>
          let (result, s') :=
            APITestingAgent.execute_gherkin_scenario (agent_env env)
              gherkin_text (with_new_agent s) in
          match result with
          | Plain _ => execution_error env attribute_error (drop_agent s s')
          | Formatted r =>
              ((status_msg r, Json.dumps_indent 0 (result_dict env r)),
               drop_agent s s')
          end
    end.

End ApiTestingTab.

(** * Vocabulary of the properties, and sample inputs *)

Import GherkinGenerator.
Import APITestingAgent.
Local Open Scope string_scope.

(** [s] has no newline. *)
Definition no_newline (s : string) : Prop := Py.contains Py.nl s = false.

(** [s] has no newline, no white space at either end and no occurrence of
    [keyword]. *)
Definition clean_for (keyword s : string) : Prop :=
  no_newline s /\ Py.strip s = s /\ Py.contains keyword s = false.

(** [quoted s] is [s] between double quotes. *)
Definition quoted (s : string) : string :=
  String Py.dquote (s ++ String Py.dquote "").

(** A scenario that the codec returns unchanged. *)
Definition sample_scenario : GherkinScenario :=
  {| feature := "User API";
     scenario := "List users";
     given := ["the API endpoint is " ++ quoted "https://example.test/users"];
     when := ["I send a GET request"];
     then_ := ["the response status code should be 200";
               "the response should be a JSON array"];
     background := None |}.

(** A scenario with a step that starts with a space. *)
Definition padded_scenario : GherkinScenario :=
  {| feature := "User API";
     scenario := "List users";
     given := [" the service is up"];
     when := ["I send a GET request"];
     then_ := ["the response status code should be 200"];
     background := None |}.

(** The URL a stripped line gives, if any: the line mentions [endpoint is]
    or [url is] in any case and has a quoted substring. *)
Definition url_of_line (line : string) : option string :=
  if Py.contains "endpoint is" (Py.lower line)
     || Py.contains "url is" (Py.lower line)
  then Re.search_quoted line else None.

(** The line has one of the four method keywords, verbatim. *)
Definition has_method_keyword (line : string) : bool :=
  Py.contains "GET request" line || Py.contains "POST request" line
  || Py.contains "PUT request" line || Py.contains "DELETE request" line.

(** The line mentions [status code should be] in any case. *)
Definition has_status_phrase (line : string) : bool :=
  Py.contains "status code should be" (Py.lower line).

(** A text from its lines. *)
Definition text_of_lines (lines : list string) : string := join Py.nl lines.

Definition get_line : string := "When I send a GET request".


Definition no_url_text : string :=
  text_of_lines
    ["Scenario: List users";
     "When I send a GET request";
     "Then the response status code should be 200"].

(** A run of [n] digits. *)
Fixpoint sevens (n : nat) : string :=
  match n with
  | O => ""
  | S k => String "7" (sevens k)
  end.

(** A status line whose number has one digit more than [int] accepts. *)
Definition long_status_line : string :=
  "Then the response status code should be " ++ sevens 4301.

Definition long_status_text : string :=
  text_of_lines ["Scenario: List users"; get_line; long_status_line].

Definition bare_url_text : string :=
  text_of_lines
    ["Given the API endpoint is " ++ quoted "https://example.test/users";
     "Then the response should be a JSON array"].

Definition sample_datetime : datetime :=
  {| isoformat := "2024-05-01T12:00:00"; strftime := "2024-05-01 12:00:00" |}.

(** A world whose server always gives [answer]. *)
Definition sample_env (answer : http_outcome) : Env :=
  {| requests_request := fun _ _ _ => answer;
     time_time := fun n => Fmt.float_of_nat n;
     datetime_now := fun _ => sample_datetime |}.

Definition sample_response (code : Z) (body : json) : Response :=
  {| r_status_code := code; r_elapsed_seconds := 0.25%float;
     r_text := Json.dumps body; r_json := Some body |}.

Definition initial_state : State :=
  {| test_results := []; http_calls := []; clock_reads := 0 |}.

(** The line declares the array assertion (in any case). *)
Definition asserts_array (line : string) : bool :=
  Py.contains "should be a json array" (Py.lower line)
  || Py.contains "should be an array" (Py.lower line).

(** The literal a line asserts the body contains, if any. *)
Definition content_assertion (line : string) : option string :=
  if Py.contains "should contain" (Py.lower line)
  then Re.search_should_contain line else None.

(** The rules of one line, each read on its own. *)
Definition array_errors (body : json) (line : string) : list string :=
  if asserts_array line && negb (is_list body)
  then ["Response is not a JSON array"] else [].

Definition content_errors (body : json) (line : string) : list string :=
  match content_assertion line with
  | Some v =>
      if Py.contains v (Json.dumps body) then []
      else [("Response does not contain '" ++ v ++ "'")%string]
  | None => []
  end.

Definition line_errors (body : json) (line : string) : list string :=
  (array_errors body line ++ content_errors body line)%list.

(** The key under which a content assertion records its literal. *)
Definition content_key (v : string) : string :=
  "contains_" ++ Py.replace v " " "_".

(** The five-line notation of the end-to-end scenario. *)
Definition users_text : string :=
  text_of_lines
    ["Given the API endpoint is " ++ quoted "https://example.test/users";
     "When I send a GET request";
     "Then the response status code should be 200";
     "Then the response should be a JSON array";
     "Then the response should contain " ++ quoted "Leanne Graham"].

Definition users_body : json := JList [JDict [("name", JStr "Leanne Graham")]].

(** Two content assertions whose literals differ by a space and an
    underscore. *)
Definition spaced_line : string :=
  "Then the response should contain " ++ quoted "a b".
Definition underscore_line : string :=
  "Then the response should contain " ++ quoted "a_b".
Definition collision_text : string :=
  text_of_lines
    ["Given the url is " ++ quoted "https://example.test/tags";
     spaced_line; underscore_line].
Definition collision_body : json := JList [JStr "a_b"].

(** The body of the path-resolution example. *)
Definition users_document : json :=
  JDict [("users", JList [JDict [("id", JInt 1); ("name", JStr "Leanne Graham")]])].

(** The segment carries an index: it has both brackets. *)
Definition has_index (key : string) : bool :=
  Py.contains "[" key && Py.contains "]" key.




(** The line starts with one of the six keywords of the decoder. *)
Definition recognised (line : string) : bool :=
  Py.startswith line "Feature:" || Py.startswith line "Scenario:"
  || Py.startswith line "Given" || Py.startswith line "When"
  || Py.startswith line "Then" || Py.startswith line "And".

(** [s] is what [strip] returns for some string: no white space at either
    end. *)
Definition stripped (s : string) : Prop := Py.strip s = s.

(** The line starts a step section. *)
Definition starts_step (line : string) : bool :=
  Py.startswith line "Given" || Py.startswith line "When"
  || Py.startswith line "Then".

(** No white space at either end and no newline. *)
Definition tidy (s : string) : Prop := stripped s /\ no_newline s.

Definition comment_line : string := "# smoke test, written by hand".

(** Every field of the decoder's state is tidy. *)
Definition tidy_state (st : parse_state) : Prop :=
  tidy (p_feature st) /\ tidy (p_scenario st)
  /\ Forall tidy (p_given st) /\ Forall tidy (p_when st)
  /\ Forall tidy (p_then st).

(** The method a stripped line sets, if any: the first of the four
    keywords, in the order the code tests them. *)
Definition method_of_line (line : string) : option string :=
  if Py.contains "GET request" line then Some "GET"
  else if Py.contains "POST request" line then Some "POST"
  else if Py.contains "PUT request" line then Some "PUT"
  else if Py.contains "DELETE request" line then Some "DELETE"
  else None.

(** All characters are decimal digits. *)
Fixpoint all_digits (s : string) : bool :=
  match s with
  | String c s' => Re.is_digit c && all_digits s'
  | EmptyString => true
  end.






Definition users_url_line : string :=
  "Given the API endpoint is " ++ quoted "https://example.test/users".



(** Every character of [s] satisfies [p]. *)
Fixpoint all_chars (p : ascii -> bool) (s : string) : bool :=
  match s with
  | String c s' => p c && all_chars p s'
  | EmptyString => true
  end.

(** Printable ASCII: the characters [json.dumps] leaves as they are. *)
Definition printable (c : ascii) : bool :=
  let n := nat_of_ascii c in ((32 <=? n) && (n <=? 126))%nat.

(** The text kept for every float of the document is printable ASCII, as
    the text of a Python float is. *)
Fixpoint floats_printable (j : json) : bool :=
  match j with
  | JFloat t => all_chars printable t
  | JList l => forallb floats_printable l
  | JDict d => forallb (fun kv => floats_printable (snd kv)) d
  | _ => true
  end.

Definition accented_name : string := "Jos" ++ String (ascii_of_nat 233) "".

Definition accented_text : string :=
  text_of_lines
    [users_url_line;
     "Then the response should contain " ++ quoted accented_name].

Definition accented_body : json := JList [JDict [("name", JStr accented_name)]].

Definition web_page : string := "<html><body>Not found</body></html>".

(** A field name that can stand in a path segment: no dot, no bracket. *)
Definition plain_name (name : string) : Prop :=
  Py.contains "." name = false /\ Py.contains "[" name = false
  /\ Py.contains "]" name = false.

(** The segment [name[i]]. *)
Definition indexed (name : string) (i : nat) : string :=
  name ++ "[" ++ PyInt.str (Z.of_nat i) ++ "]".

(** The configuration with its credentials removed. *)
Definition without_auth (config : ApiTest.APITestConfig)
    : ApiTest.APITestConfig :=
  {| ApiTest.base_url := ApiTest.base_url config;
     ApiTest.endpoint := ApiTest.endpoint config;
     ApiTest.method := ApiTest.method config;
     ApiTest.headers := ApiTest.headers config;
     ApiTest.query_params := ApiTest.query_params config;
     ApiTest.body := ApiTest.body config;
     ApiTest.auth := None;
     ApiTest.expected_status := ApiTest.expected_status config;
     ApiTest.expected_response_schema :=
       ApiTest.expected_response_schema config;
     ApiTest.extract_values := ApiTest.extract_values config |}.

(** The configuration carries a bearer token. *)
Definition has_bearer (config : ApiTest.APITestConfig) : bool :=
  match ApiTest.truthy (ApiTest.auth config) with
  | Some a => match Dict.get a "bearer" with Some _ => true | None => false end
  | None => false
  end.

(** The configuration has a header dict that is not empty. *)
Definition has_headers (config : ApiTest.APITestConfig) : bool :=
  match ApiTest.truthy (ApiTest.headers config) with
  | Some _ => true
  | None => false
  end.

Definition users_config (credentials : option (list (string * json)))
    : ApiTest.APITestConfig :=
  {| ApiTest.base_url := "https://api.example.com";
     ApiTest.endpoint := "/users";
     ApiTest.method := "get";
     ApiTest.headers := Some [("Accept", "application/json")];
     ApiTest.query_params := None;
     ApiTest.body := None;
     ApiTest.auth := credentials;
     ApiTest.expected_status := 200;
     ApiTest.expected_response_schema := Some [("type", JStr "object")];
     ApiTest.extract_values := Some [("first", "users[0].name")] |}.

Definition bearer_credentials : list (string * json) :=
  [("bearer", JStr "s3cret")].

(** A server that answers every call with [code] and the users document,
    and a language model that always answers [content]. *)
Definition users_services (code : Z) (content : string) : ApiTest.Services :=
  {| ApiTest.request := fun _ _ =>
       ApiTest.Answered
         {| ApiTest.resp := sample_response code users_document;
            ApiTest.resp_headers := [("Content-Type", "application/json")] |};
     ApiTest.ainvoke := fun _ _ _ => ApiTest.Content content |}.

Definition empty_trace : ApiTest.Trace :=
  {| ApiTest.requests_made := []; ApiTest.llm_asked := [] |}.

Definition str_exception_sample (e : APIValidator.exception) : string :=
  match e with
  | APIValidator.KeyError k => "'" ++ k ++ "'"
  | _ => "error"
  end.

Definition str_other_sample (v : json) : string := Json.dumps v.

(** The parts of what a call of [execute_api_test] gives: the returned
    tuple, the configuration and the trace after the call. *)
Definition result_after (r : ApiTest.api_result * ApiTest.APITestConfig
                             * ApiTest.Trace) : ApiTest.api_result :=
  fst (fst r).
Definition config_after (r : ApiTest.api_result * ApiTest.APITestConfig
                             * ApiTest.Trace) : ApiTest.APITestConfig :=
  snd (fst r).
Definition trace_after (r : ApiTest.api_result * ApiTest.APITestConfig
                            * ApiTest.Trace) : ApiTest.Trace :=
  snd r.

(** The three components of the returned tuple. *)
Definition api_success (r : ApiTest.api_result) : bool := fst (fst r).
Definition api_dict (r : ApiTest.api_result) : list (string * json) :=
  snd (fst r).
Definition api_extracted (r : ApiTest.api_result)
    : option (list (string * json)) := snd r.

(** * Properties *)

(** ** Facts about the string primitives *)

Lemma append_assoc_s (a b c : string) : (a ++ b) ++ c = a ++ (b ++ c).
Proof. induction a as [|x a IH]; simpl; [reflexivity | now rewrite IH]. Qed.

Lemma append_empty_r (a : string) : a ++ "" = a.
Proof. induction a as [|x a IH]; simpl; [reflexivity | now rewrite IH]. Qed.

Lemma length_append_s (a b : string) :
  String.length (a ++ b) = String.length a + String.length b.
Proof. induction a as [|x a IH]; simpl; [reflexivity | now rewrite IH]. Qed.

Lemma split_cons_exists sep s : exists h t, Py.split sep s = h :: t.
Proof.
  induction s as [|c s IH]; simpl.
  - now exists "", [].
  - destruct (Ascii.eqb c sep).
    + now exists "", (Py.split sep s).
    + destruct IH as (h & t & ->). now exists (String c h), t.
Qed.

(** A one-character needle occurs in [s] when it is one of its characters. *)
Lemma contains_char_cons c a s :
  Py.contains (String c "") (String a s)
  = Ascii.eqb c a || Py.contains (String c "") s.
Proof.
  simpl. destruct (Ascii.eqb c a); simpl; [|reflexivity].
  now destruct s.
Qed.

Lemma contains_char_app c a b :
  Py.contains (String c "") (a ++ b)
  = Py.contains (String c "") a || Py.contains (String c "") b.
Proof.
  induction a as [|x a IH].
  - simpl (_ ++ _). change (Py.contains (String c "") "") with false.
    reflexivity.
  - change (String x a ++ b) with (String x (a ++ b)).
    rewrite !contains_char_cons, IH. now rewrite orb_assoc.
Qed.

Lemma split_no_sep sep a :
  Py.contains (String sep "") a = false -> Py.split sep a = [a].
Proof.
  induction a as [|c a IH]; intros H; [reflexivity|].
  rewrite contains_char_cons in H. apply orb_false_iff in H as [Hc Ha].
  simpl. rewrite Ascii.eqb_sym, Hc. now rewrite (IH Ha).
Qed.

Lemma split_app_sep sep a b :
  Py.contains (String sep "") a = false ->
  Py.split sep (a ++ String sep b) = a :: Py.split sep b.
Proof.
  induction a as [|c a IH]; intros H.
  - simpl. now rewrite Ascii.eqb_refl.
  - rewrite contains_char_cons in H. apply orb_false_iff in H as [Hc Ha].
    simpl. rewrite Ascii.eqb_sym, Hc. now rewrite (IH Ha).
Qed.

Lemma rstrip_cons c s :
  Py.rstrip (String c s)
  = match Py.rstrip s with
    | "" => if Py.is_space c then "" else String c ""
    | r => String c r
    end.
Proof. reflexivity. Qed.

Lemma rstrip_cons_keep c s :
  Py.is_space c = false -> Py.rstrip (String c s) = String c (Py.rstrip s).
Proof. intros H. rewrite rstrip_cons, H. now destruct (Py.rstrip s). Qed.

Lemma rstrip_app_keep a b :
  Py.rstrip b <> "" -> Py.rstrip (a ++ b) = a ++ Py.rstrip b.
Proof.
  intros H. induction a as [|c a IH]; [reflexivity|].
  change (String c a ++ b) with (String c (a ++ b)).
  rewrite rstrip_cons, IH. simpl.
  destruct (a ++ Py.rstrip b) eqn:E; [|reflexivity].
  destruct a; simpl in E; [contradiction | discriminate].
Qed.

Lemma lstrip_length s : String.length (Py.lstrip s) <= String.length s.
Proof.
  induction s as [|c s IH]; simpl; [lia|].
  destruct (Py.is_space c); simpl; lia.
Qed.

Lemma rstrip_length s : String.length (Py.rstrip s) <= String.length s.
Proof.
  induction s as [|c s IH]; [simpl; lia|].
  rewrite rstrip_cons. destruct (Py.rstrip s); simpl in *.
  - destruct (Py.is_space c); simpl; lia.
  - lia.
Qed.

Lemma lstrip_full s : String.length (Py.lstrip s) = String.length s -> Py.lstrip s = s.
Proof.
  destruct s as [|c s]; simpl; [reflexivity|].
  destruct (Py.is_space c); [|reflexivity].
  intros H. pose proof (lstrip_length s). lia.
Qed.

Lemma rstrip_full s : String.length (Py.rstrip s) = String.length s -> Py.rstrip s = s.
Proof.
  induction s as [|c s IH]; [reflexivity|].
  rewrite rstrip_cons. pose proof (rstrip_length s) as L.
  destruct (Py.rstrip s) eqn:E; simpl in *.
  - destruct (Py.is_space c); simpl; intros H; [discriminate|].
    f_equal. apply IH. lia.
  - intros H. f_equal. apply IH. lia.
Qed.

(** A string that [strip] leaves alone is left alone by both halves. *)
Lemma strip_fixed s : Py.strip s = s -> Py.rstrip s = s /\ Py.lstrip s = s.
Proof.
  unfold Py.strip. intros H.
  pose proof (lstrip_length (Py.rstrip s)) as L1.
  pose proof (rstrip_length s) as L2.
  assert (R : Py.rstrip s = s) by (apply rstrip_full; rewrite H in L1; lia).
  split; [exact R|]. now rewrite R in H.
Qed.

Lemma strip_space_cons c s :
  Py.is_space c = true -> Py.strip s = s -> Py.strip (String c s) = s.
Proof.
  intros Hc H. destruct (strip_fixed s H) as [R L]. unfold Py.strip.
  rewrite rstrip_cons, R. destruct s as [|x s].
  - now rewrite Hc.
  - simpl. rewrite Hc. exact L.
Qed.

Lemma startswith_absent old s :
  Py.contains old s = false -> Py.startswith s old = false.
Proof.
  destruct s; simpl; intros H; apply orb_false_iff in H; tauto.
Qed.

Lemma replace_absent old new s :
  Py.contains old s = false -> Py.replace_from 0 s old new = s.
Proof.
  induction s as [|c s IH]; intros H; [reflexivity|].
  cbn [Py.replace_from]. rewrite (startswith_absent _ _ H).
  f_equal. apply IH. simpl in H. apply orb_false_iff in H. tauto.
Qed.

Lemma split_cons sep c s :
  Py.split sep (String c s)
  = if Ascii.eqb c sep then "" :: Py.split sep s
    else match Py.split sep s with
         | h :: t => String c h :: t
         | [] => [String c ""]
         end.
Proof. reflexivity. Qed.

(** Stripping the end of a text only removes or shortens blank lines at the
    end, as far as lines are compared after [rstrip]. *)
Lemma rstrip_split_lines t :
  exists k,
    map Py.rstrip (Py.split Py.nl_char t)
    = (map Py.rstrip (Py.split Py.nl_char (Py.rstrip t)) ++ repeat "" k)%list.
Proof.
  induction t as [|c t [k Hk]].
  - now exists 0.
  - rewrite rstrip_cons.
    destruct (split_cons_exists Py.nl_char t) as (h & tl & Ht).
    destruct (Py.rstrip t) as [|a r] eqn:E.
    + change (Py.split Py.nl_char "") with [""] in Hk.
      rewrite Ht in Hk. simpl in Hk. injection Hk as Hh Htl.
      destruct (Ascii.eqb c Py.nl_char) eqn:Ec.
      * apply Ascii.eqb_eq in Ec. subst c.
        change (Py.is_space Py.nl_char) with true. cbv iota.
        exists (S k). rewrite split_cons, Ascii.eqb_refl, Ht. simpl.
        now rewrite Hh, Htl.
      * rewrite split_cons, Ec, Ht.
        destruct (Py.is_space c) eqn:Sp.
        -- exists k. cbn [map]. rewrite rstrip_cons, Hh, Sp, Htl. reflexivity.
        -- exists k. rewrite split_cons, Ec.
           change (Py.split Py.nl_char "") with [""]. cbn [map app].
           rewrite !rstrip_cons, Hh, Sp, Htl. reflexivity.
    + destruct (split_cons_exists Py.nl_char (String a r)) as (h' & tl' & Hr).
      rewrite Ht, Hr in Hk. simpl in Hk. injection Hk as Hh Htl.
      exists k.
      rewrite (split_cons _ c t), (split_cons _ c (String a r)), Ht, Hr.
      destruct (Ascii.eqb c Py.nl_char).
      * simpl. now rewrite Hh, Htl.
      * cbn [map]. rewrite !rstrip_cons, Hh, Htl. reflexivity.
Qed.

(** ** Facts about the decoder *)

Lemma parse_line_blank st : parse_line st "" = st.
Proof. reflexivity. Qed.

Lemma parse_lines_app l1 l2 st :
  parse_lines (l1 ++ l2)%list st = parse_lines l2 (parse_lines l1 st).
Proof. unfold parse_lines. apply fold_left_app. Qed.

(** The decoder looks at each line through [strip], hence through
    [rstrip]. *)
Lemma parse_lines_rstrip l1 l2 st :
  map Py.rstrip l1 = map Py.rstrip l2 -> parse_lines l1 st = parse_lines l2 st.
Proof.
  revert l2 st. induction l1 as [|x l1 IH]; intros [|y l2] st H;
    try discriminate; [reflexivity|].
  simpl in H. injection H as Hx Hl.
  unfold parse_lines. simpl. unfold Py.strip. rewrite Hx.
  apply (IH l2 _ Hl).
Qed.

Lemma parse_lines_blank_tail k st : parse_lines (repeat "" k) st = st.
Proof. induction k as [|k IH]; [reflexivity|]. simpl. exact IH. Qed.

Lemma map_rstrip_repeat k : map Py.rstrip (repeat "" k) = repeat "" k.
Proof. induction k as [|k IH]; simpl; [reflexivity | now rewrite IH]. Qed.

(** For a text that starts with a character other than white space, the
    decoder reads the same lines with and without the outer [strip]. *)
Lemma parse_lines_outer_strip c t st :
  Py.is_space c = false ->
  parse_lines (Py.split Py.nl_char (Py.strip (String c t))) st
  = parse_lines (Py.split Py.nl_char (String c t)) st.
Proof.
  intros Hc.
  assert (E : Py.strip (String c t) = Py.rstrip (String c t)).
  { unfold Py.strip. rewrite (rstrip_cons_keep _ _ Hc). simpl. now rewrite Hc. }
  rewrite E. destruct (rstrip_split_lines (String c t)) as [k Hk].
  symmetry.
  rewrite (parse_lines_rstrip _
             (Py.split Py.nl_char (Py.rstrip (String c t)) ++ repeat "" k)%list).
  - rewrite parse_lines_app. apply parse_lines_blank_tail.
  - rewrite Hk, map_app, map_rstrip_repeat. reflexivity.
Qed.

Lemma startswith_app p s : Py.startswith (p ++ s) p = true.
Proof.
  induction p as [|a p IH]; [now destruct s|].
  simpl. now rewrite Ascii.eqb_refl, IH.
Qed.

Lemma replace_from_skip p s old new :
  Py.replace_from (String.length p) (p ++ s) old new
  = Py.replace_from 0 s old new.
Proof. induction p as [|a p IH]; [reflexivity | exact IH]. Qed.

Lemma replace_from_hit a old s new :
  Py.replace_from 0 (String a old ++ s) (String a old) new
  = new ++ Py.replace_from 0 s (String a old) new.
Proof.
  change (String a old ++ s) with (String a (old ++ s)).
  cbn [Py.replace_from].
  change (String a (old ++ s)) with (String a old ++ s).
  rewrite startswith_app.
  change (String.length (String a old) - 1) with (String.length old - 0).
  rewrite Nat.sub_0_r. now rewrite replace_from_skip.
Qed.

Lemma replace_from_miss c s old new :
  Py.startswith (String c s) old = false ->
  Py.replace_from 0 (String c s) old new
  = String c (Py.replace_from 0 s old new).
Proof. intros H. cbn [Py.replace_from]. now rewrite H. Qed.

(** What the decoder recovers from a line made of a keyword, a space and
    a step. *)
Lemma strip_replace_keyword a kw g :
  Py.startswith (String " " g) (String a kw) = false ->
  clean_for (String a kw) g ->
  Py.strip (Py.replace (String a kw ++ Py.rstrip (String " " g)) (String a kw) "")
  = g.
Proof.
  intros Hsp (_ & Hs & Hk). unfold Py.replace. rewrite replace_from_hit.
  destruct (strip_fixed g Hs) as [R L].
  rewrite rstrip_cons, R. destruct g as [|c g]; [reflexivity|].
  change ("" ++ ?x) with x.
  rewrite (replace_from_miss _ _ _ _ Hsp), (replace_absent _ _ _ Hk).
  now apply strip_space_cons.
Qed.

Lemma rstrip_app_blank w b :
  Py.rstrip b = "" -> Py.rstrip (w ++ b) = Py.rstrip w.
Proof.
  intros H. induction w as [|x w IH]; [exact H|].
  change (String x w ++ b) with (String x (w ++ b)).
  now rewrite !rstrip_cons, IH.
Qed.

Lemma lstrip_app_blank indent s :
  Py.lstrip indent = "" -> Py.lstrip (indent ++ s) = Py.lstrip s.
Proof.
  induction indent as [|x indent IH]; [reflexivity|].
  simpl. destruct (Py.is_space x); [exact IH | discriminate].
Qed.

(** The line as the decoder sees it after [strip]: the keyword [w], then
    the rest without its trailing white space. *)
Lemma strip_keyword_line indent a kw rest :
  Py.lstrip indent = "" ->
  Py.is_space a = false ->
  Py.rstrip (String a kw) = String a kw ->
  Py.strip (indent ++ String a kw ++ rest)
  = String a kw ++ Py.rstrip rest.
Proof.
  intros Hi Ha Hkw. unfold Py.strip.
  assert (E : Py.rstrip (String a kw ++ rest) = String a kw ++ Py.rstrip rest).
  { destruct (Py.rstrip rest) eqn:R.
    - now rewrite (rstrip_app_blank _ _ R), Hkw, append_empty_r.
    - rewrite rstrip_app_keep; rewrite R; [reflexivity | discriminate]. }
  rewrite rstrip_app_keep; rewrite E; [|discriminate].
  rewrite (lstrip_app_blank _ _ Hi). simpl. now rewrite Ha.
Qed.

Ltac decide_startswith :=
  repeat match goal with
  | |- context [Py.startswith ?l ?p] =>
      let v := eval cbv in (Py.startswith l p) in
      change (Py.startswith l p) with v; cbv iota
  end.

Ltac keyword_line kw :=
  match goal with
  | |- context [Py.strip (?pre ++ ?g)] =>
      change (Py.strip (pre ++ g))
        with (Py.strip ("  " ++ kw ++ String " " g))
  end;
  rewrite strip_keyword_line by reflexivity;
  unfold parse_line; decide_startswith;
  rewrite strip_replace_keyword by (reflexivity || assumption).

Lemma parse_given_line st g :
  clean_for "Given" g ->
  parse_line st (Py.strip ("  Given " ++ g))
  = {| p_feature := p_feature st; p_scenario := p_scenario st;
       p_given := (p_given st ++ [g])%list;
       p_when := p_when st; p_then := p_then st;
       current_section := Some sec_given |}.
Proof. intros H. keyword_line "Given". reflexivity. Qed.

Lemma parse_when_line st g :
  clean_for "When" g ->
  parse_line st (Py.strip ("  When " ++ g))
  = {| p_feature := p_feature st; p_scenario := p_scenario st;
       p_given := p_given st;
       p_when := (p_when st ++ [g])%list; p_then := p_then st;
       current_section := Some sec_when |}.
Proof. intros H. keyword_line "When". reflexivity. Qed.

Lemma parse_then_line st g :
  clean_for "Then" g ->
  parse_line st (Py.strip ("  Then " ++ g))
  = {| p_feature := p_feature st; p_scenario := p_scenario st;
       p_given := p_given st; p_when := p_when st;
       p_then := (p_then st ++ [g])%list;
       current_section := Some sec_then |}.
Proof. intros H. keyword_line "Then". reflexivity. Qed.

Lemma parse_scenario_line st n :
  clean_for "Scenario:" n ->
  parse_line st (Py.strip ("Scenario: " ++ n))
  = {| p_feature := p_feature st; p_scenario := n;
       p_given := p_given st; p_when := p_when st; p_then := p_then st;
       current_section := current_section st |}.
Proof.
  intros H.
  change (Py.strip ("Scenario: " ++ n))
    with (Py.strip ("" ++ "Scenario:" ++ String " " n)).
  rewrite strip_keyword_line by reflexivity.
  unfold parse_line. decide_startswith.
  rewrite strip_replace_keyword by (reflexivity || assumption).
  reflexivity.
Qed.

(** The [Feature:] line changes the feature only. *)
Lemma parse_feature_line st f :
  exists f',
    parse_line st (Py.strip ("Feature: " ++ f))
    = {| p_feature := f'; p_scenario := p_scenario st;
         p_given := p_given st; p_when := p_when st; p_then := p_then st;
         current_section := current_section st |}.
Proof.
  change (Py.strip ("Feature: " ++ f))
    with (Py.strip ("" ++ "Feature:" ++ String " " f)).
  rewrite strip_keyword_line by reflexivity.
  unfold parse_line. decide_startswith. eexists. reflexivity.
Qed.

Lemma parse_lines_cons x l st :
  parse_lines (x :: l) st = parse_lines l (parse_line st (Py.strip x)).
Proof. reflexivity. Qed.

(** A block of step lines extends one list and leaves the others. *)
Lemma parse_given_block gs st :
  Forall (clean_for "Given") gs ->
  let st' := parse_lines (map (fun s => "  Given " ++ s) gs) st in
  p_scenario st' = p_scenario st /\ p_given st' = (p_given st ++ gs)%list
  /\ p_when st' = p_when st /\ p_then st' = p_then st.
Proof.
  intros H. revert st. induction H as [|g gs Hg _ IH]; intros st; cbn zeta.
  - simpl. now rewrite app_nil_r.
  - cbn [map]. rewrite parse_lines_cons, (parse_given_line _ _ Hg).
    destruct (IH {| p_feature := p_feature st; p_scenario := p_scenario st;
                    p_given := (p_given st ++ [g])%list;
                    p_when := p_when st; p_then := p_then st;
                    current_section := Some sec_given |})
      as (E1 & E2 & E3 & E4).
    cbn [p_scenario p_given p_when p_then] in *.
    rewrite E1, E2, E3, E4, <- app_assoc. auto.
Qed.

Lemma parse_when_block ws st :
  Forall (clean_for "When") ws ->
  let st' := parse_lines (map (fun s => "  When " ++ s) ws) st in
  p_scenario st' = p_scenario st /\ p_given st' = p_given st
  /\ p_when st' = (p_when st ++ ws)%list /\ p_then st' = p_then st.
Proof.
  intros H. revert st. induction H as [|g gs Hg _ IH]; intros st; cbn zeta.
  - simpl. now rewrite app_nil_r.
  - cbn [map]. rewrite parse_lines_cons, (parse_when_line _ _ Hg).
    destruct (IH {| p_feature := p_feature st; p_scenario := p_scenario st;
                    p_given := p_given st;
                    p_when := (p_when st ++ [g])%list; p_then := p_then st;
                    current_section := Some sec_when |})
      as (E1 & E2 & E3 & E4).
    cbn [p_scenario p_given p_when p_then] in *.
    rewrite E1, E2, E3, E4, <- app_assoc. auto.
Qed.

Lemma parse_then_block ts st :
  Forall (clean_for "Then") ts ->
  let st' := parse_lines (map (fun s => "  Then " ++ s) ts) st in
  p_scenario st' = p_scenario st /\ p_given st' = p_given st
  /\ p_when st' = p_when st /\ p_then st' = (p_then st ++ ts)%list.
Proof.
  intros H. revert st. induction H as [|g gs Hg _ IH]; intros st; cbn zeta.
  - simpl. now rewrite app_nil_r.
  - cbn [map]. rewrite parse_lines_cons, (parse_then_line _ _ Hg).
    destruct (IH {| p_feature := p_feature st; p_scenario := p_scenario st;
                    p_given := p_given st; p_when := p_when st;
                    p_then := (p_then st ++ [g])%list;
                    current_section := Some sec_then |})
      as (E1 & E2 & E3 & E4).
    cbn [p_scenario p_given p_when p_then] in *.
    rewrite E1, E2, E3, E4, <- app_assoc. auto.
Qed.

(** ** Lines of a generated text *)

Lemma no_newline_app a b :
  no_newline a -> no_newline b -> no_newline (a ++ b).
Proof.
  unfold no_newline, Py.nl. intros Ha Hb.
  now rewrite contains_char_app, Ha, Hb.
Qed.

Lemma split_step_lines kw steps rest :
  no_newline kw ->
  Forall (clean_for kw) steps ->
  Py.split Py.nl_char (step_lines kw steps ++ rest)
  = (map (fun s => ("  " ++ kw ++ " " ++ s)%string) steps
     ++ Py.split Py.nl_char rest)%list.
Proof.
  intros Hkw H. induction H as [|s steps (Hs & _) _ IH]; [reflexivity|].
  cbn [step_lines map].
  replace (("  " ++ kw ++ " " ++ s ++ Py.nl ++ step_lines kw steps) ++ rest)
    with (("  " ++ kw ++ " " ++ s)
          ++ String Py.nl_char (step_lines kw steps ++ rest))
    by (unfold Py.nl; rewrite !append_assoc_s; reflexivity).
  rewrite split_app_sep, IH; [reflexivity|].
  apply (no_newline_app "  "); [reflexivity|].
  apply no_newline_app; [exact Hkw|].
  apply (no_newline_app " "); [reflexivity | exact Hs].
Qed.

Lemma split_gherkin_text sc :
  no_newline (feature sc) ->
  clean_for "Scenario:" (scenario sc) ->
  Forall (clean_for "Given") (given sc) ->
  Forall (clean_for "When") (when sc) ->
  Forall (clean_for "Then") (then_ sc) ->
  Py.split Py.nl_char (gherkin_text_of sc)
  = (("Feature: " ++ feature sc)%string :: ""
     :: ("Scenario: " ++ scenario sc)%string
     :: map (fun s => ("  Given " ++ s)%string) (given sc)
     ++ map (fun s => ("  When " ++ s)%string) (when sc)
     ++ map (fun s => ("  Then " ++ s)%string) (then_ sc) ++ [""])%list.
Proof.
  intros Hf (Hn & _) Hg Hw Ht. unfold gherkin_text_of.
  replace ("Feature: " ++ feature sc ++ Py.nl ++ Py.nl ++ "Scenario: "
           ++ scenario sc ++ Py.nl ++ step_lines "Given" (given sc)
           ++ step_lines "When" (when sc) ++ step_lines "Then" (then_ sc))
    with (("Feature: " ++ feature sc)
          ++ String Py.nl_char
               ("" ++ String Py.nl_char
                  (("Scenario: " ++ scenario sc)
                   ++ String Py.nl_char
                        (step_lines "Given" (given sc)
                         ++ step_lines "When" (when sc)
                         ++ step_lines "Then" (then_ sc) ++ ""))))
    by (unfold Py.nl; rewrite !append_assoc_s, append_empty_r; reflexivity).
  rewrite split_app_sep by (apply (no_newline_app "Feature: "); [reflexivity | exact Hf]).
  rewrite split_app_sep by reflexivity.
  rewrite split_app_sep by (apply (no_newline_app "Scenario: "); [reflexivity | exact Hn]).
  rewrite !split_step_lines by (reflexivity || assumption).
  reflexivity.
Qed.

(** ** C3: the scenario text codec *)

(** C3, as stated, fails: [padded_scenario] has non-empty given, when and
    then lists, and decoding its text gives the given step without its
    leading space. *)
Lemma codec_round_trip_fails_on_padding :
  given padded_scenario <> [] /\ when padded_scenario <> []
  /\ then_ padded_scenario <> []
  /\ given (_parse_gherkin_text (gherkin_text_of padded_scenario))
     = ["the service is up"]
  /\ given (_parse_gherkin_text (gherkin_text_of padded_scenario))
     <> given padded_scenario.
Proof. repeat split; try discriminate. Qed.

(** C3 (amended): for every scenario whose feature has no newline and whose
    name and steps have no newline, no white space at either end and no
    occurrence of the keyword of their own line ([Scenario:], [Given],
    [When], [Then]), decoding the generated text gives back the scenario
    name and the given, when and then lists, in order. *)
Theorem codec_round_trip sc :
  no_newline (feature sc) ->
  clean_for "Scenario:" (scenario sc) ->
  Forall (clean_for "Given") (given sc) ->
  Forall (clean_for "When") (when sc) ->
  Forall (clean_for "Then") (then_ sc) ->
  let decoded := _parse_gherkin_text (gherkin_text_of sc) in
  scenario decoded = scenario sc /\ given decoded = given sc
  /\ when decoded = when sc /\ then_ decoded = then_ sc.
Proof.
  intros Hf Hn Hg Hw Ht. cbn zeta. unfold _parse_gherkin_text.
  cbn [scenario given when then_].
  assert (E : exists t, gherkin_text_of sc = String "F" t)
    by (eexists; reflexivity).
  destruct E as [t E]. rewrite E, parse_lines_outer_strip by reflexivity.
  rewrite <- E, split_gherkin_text by assumption.
  rewrite parse_lines_cons.
  destruct (parse_feature_line parse_init (feature sc)) as [f' ->].
  rewrite 2 parse_lines_cons, parse_line_blank.
  change (Py.strip "") with "".
  rewrite (parse_scenario_line _ _ Hn), !parse_lines_app.
  cbn [p_feature p_scenario p_given p_when p_then current_section parse_init].
  match goal with
  | |- context [parse_lines (map _ (given sc)) ?st] =>
      destruct (parse_given_block (given sc) st Hg) as (G1 & G2 & G3 & G4);
      set (s1 := parse_lines (map _ (given sc)) st) in *
  end.
  destruct (parse_when_block (when sc) s1 Hw) as (W1 & W2 & W3 & W4).
  match goal with
  | |- context [parse_lines (map _ (when sc)) s1] =>
      set (s2 := parse_lines (map _ (when sc)) s1) in *
  end.
  destruct (parse_then_block (then_ sc) s2 Ht) as (T1 & T2 & T3 & T4).
  match goal with
  | |- context [parse_lines (map _ (then_ sc)) s2] =>
      set (s3 := parse_lines (map _ (then_ sc)) s2) in *
  end.
  rewrite parse_lines_cons. change (Py.strip "") with "".
  rewrite parse_line_blank. change (parse_lines [] s3) with s3.
  cbn [p_scenario p_given p_when p_then] in *.
  rewrite T1, T2, T3, T4, W1, W2, W3, W4, G1, G2, G3, G4.
  repeat split; reflexivity.
Qed.

Lemma codec_round_trip_witness :
  (no_newline (feature sample_scenario)
   /\ clean_for "Scenario:" (scenario sample_scenario)
   /\ Forall (clean_for "Given") (given sample_scenario)
   /\ Forall (clean_for "When") (when sample_scenario)
   /\ Forall (clean_for "Then") (then_ sample_scenario))
  /\ let decoded := _parse_gherkin_text (gherkin_text_of sample_scenario) in
     scenario decoded = scenario sample_scenario
     /\ given decoded = given sample_scenario
     /\ when decoded = when sample_scenario
     /\ then_ decoded = then_ sample_scenario.
Proof.
  assert (H : no_newline (feature sample_scenario)
              /\ clean_for "Scenario:" (scenario sample_scenario)
              /\ Forall (clean_for "Given") (given sample_scenario)
              /\ Forall (clean_for "When") (when sample_scenario)
              /\ Forall (clean_for "Then") (then_ sample_scenario)).
  { unfold clean_for, no_newline.
    repeat first [ split | apply Forall_cons | apply Forall_nil
                 | vm_compute; reflexivity ]. }
  split; [exact H|].
  destruct H as (H1 & H2 & H3 & H4 & H5).
  exact (codec_round_trip sample_scenario H1 H2 H3 H4 H5).
Defined.

(** ** Facts about directive extraction *)

Lemma search_quoted_nonempty s u : Re.search_quoted s = Some u -> u <> "".
Proof.
  induction s as [|c s IH]; [discriminate|]. simpl.
  destruct (Ascii.eqb c Py.dquote); [|exact IH].
  destruct (Re.until_quote s) as [[|a r]|]; try exact IH.
  intros [= <-]. discriminate.
Qed.

(** Cases on the tests and matches of one iteration. *)
Ltac directive_cases :=
  unfold read_status, read_method, read_url, read_scenario_name, set_method;
  repeat match goal with
         | |- context [if ?b then _ else _] => destruct b
         | |- context [match ?o with Some _ => _ | None => _ end] =>
             destruct o
         end.

(** After an exception nothing changes. *)
Lemma directive_line_after_raise d line message :
  raised d = Some message -> directive_line d line = d.
Proof. unfold directive_line. now intros ->. Qed.

Lemma directive_fold_cons x lines d :
  directive_fold (x :: lines) d
  = directive_fold lines (directive_line d (Py.strip x)).
Proof. reflexivity. Qed.

Lemma directive_fold_after_raise lines d message :
  raised d = Some message -> directive_fold lines d = d.
Proof.
  intros H. induction lines as [|x lines IH]; [reflexivity|].
  now rewrite directive_fold_cons, (directive_line_after_raise _ _ _ H).
Qed.

(** An iteration that ends without exception started without one. *)
Lemma raised_directive_line d line :
  raised (directive_line d line) = None -> raised d = None.
Proof.
  destruct (raised d) as [message|] eqn:E; [|reflexivity].
  now rewrite (directive_line_after_raise _ _ _ E), E.
Qed.

Lemma raised_fold lines d :
  raised (directive_fold lines d) = None -> raised d = None.
Proof.
  revert d. induction lines as [|x lines IH]; intros d H; [exact H|].
  rewrite directive_fold_cons in H.
  exact (raised_directive_line _ _ (IH _ H)).
Qed.



(** Only a status line can raise. *)
Lemma raised_directive_line_none d line :
  has_status_phrase line = false ->
  raised (directive_line d line) = raised d.
Proof.
  unfold has_status_phrase. intros H. unfold directive_line.
  destruct (raised d) eqn:E; [exact E|].
  unfold read_status. rewrite H. directive_cases; exact E.
Qed.

Lemma raised_fold_none lines d :
  (forall line, In line lines -> has_status_phrase (Py.strip line) = false) ->
  raised (directive_fold lines d) = raised d.
Proof.
  revert d. induction lines as [|x lines IH]; intros d H; [reflexivity|].
  rewrite directive_fold_cons, IH by (intros; apply H; now right).
  apply raised_directive_line_none, H. now left.
Qed.

Lemma api_url_directive_line d line :
  raised d = None ->
  api_url (directive_line d line)
  = match url_of_line line with
    | Some u => Some u
    | None => api_url d
    end.
Proof.
  intros H. unfold directive_line. rewrite H. unfold url_of_line.
  directive_cases; reflexivity.
Qed.

Lemma api_url_directive_line_none d line :
  url_of_line line = None -> api_url (directive_line d line) = api_url d.
Proof.
  intros H. destruct (raised d) as [message|] eqn:E.
  - now rewrite (directive_line_after_raise _ _ _ E).
  - now rewrite api_url_directive_line, H.
Qed.

Lemma method_directive_line d line :
  has_method_keyword line = false ->
  method (directive_line d line) = method d.
Proof.
  unfold has_method_keyword. intros H.
  apply orb_false_iff in H as [H H4]. apply orb_false_iff in H as [H H3].
  apply orb_false_iff in H as [H1 H2].
  unfold directive_line. destruct (raised d); [reflexivity|].
  unfold read_method. rewrite H1, H2, H3, H4.
  directive_cases; reflexivity.
Qed.

Lemma status_directive_line d line :
  has_status_phrase line = false ->
  expected_status (directive_line d line) = expected_status d.
Proof.
  unfold has_status_phrase. intros H.
  unfold directive_line. destruct (raised d); [reflexivity|].
  unfold read_status. rewrite H.
  directive_cases; reflexivity.
Qed.



Lemma api_url_fold_some lines d u :
  api_url (directive_fold lines d) = Some u ->
  api_url d = Some u
  \/ exists line, In line lines /\ url_of_line (Py.strip line) = Some u.
Proof.
  revert d. induction lines as [|x lines IH]; intros d H; [now left|].
  rewrite directive_fold_cons in H.
  apply IH in H as [H | (line & Hin & Hl)].
  - destruct (url_of_line (Py.strip x)) eqn:E.
    + destruct (raised d) as [message|] eqn:R.
      * rewrite (directive_line_after_raise _ _ _ R) in H. now left.
      * rewrite (api_url_directive_line _ _ R), E in H.
        right. exists x. split; [now left | congruence].
    + rewrite (api_url_directive_line_none _ _ E) in H. now left.
  - right. exists line. split; [now right | exact Hl].
Qed.

Lemma method_fold lines d :
  (forall line, In line lines -> has_method_keyword (Py.strip line) = false) ->
  method (directive_fold lines d) = method d.
Proof.
  revert d. induction lines as [|x lines IH]; intros d H; [reflexivity|].
  rewrite directive_fold_cons, IH by (intros; apply H; now right).
  apply method_directive_line, H. now left.
Qed.

Lemma status_fold lines d :
  (forall line, In line lines -> has_status_phrase (Py.strip line) = false) ->
  expected_status (directive_fold lines d) = expected_status d.
Proof.
  revert d. induction lines as [|x lines IH]; intros d H; [reflexivity|].
  rewrite directive_fold_cons, IH by (intros; apply H; now right).
  apply status_directive_line, H. now left.
Qed.

Lemma url_of_line_nonempty line u : url_of_line line = Some u -> u <> "".
Proof.
  unfold url_of_line. destruct (_ || _); [|discriminate].
  apply search_quoted_nonempty.
Qed.

Lemma api_url_nonempty lines u :
  api_url (extract_directives lines) = Some u -> u <> "".
Proof.
  intros H. apply (api_url_fold_some lines directives_init) in H.
  destruct H as [H | (line & _ & H)]; [discriminate|].
  now apply url_of_line_nonempty in H.
Qed.

(** ** Facts about [execute_gherkin_scenario] *)



(** With a URL, exactly one HTTP call is made, to that URL. *)
Lemma execute_http_call env text s u :
  raised (extract_directives (split_lines text)) = None ->
  api_url (extract_directives (split_lines text)) = Some u ->
  http_calls (snd (execute_gherkin_scenario env text s))
  = (http_calls s
     ++ [(method (extract_directives (split_lines text)), u)])%list.
Proof.
  intros R H. pose proof (api_url_nonempty _ _ H) as Hne.
  destruct u as [|c u]; [contradiction|].
  unfold execute_gherkin_scenario, mbind, read_time, read_now, ret,
    http_request, append_result.
  cbn. rewrite R, H. cbn.
  destruct (requests_request env _ _ _); reflexivity.
Qed.

(** With a URL and an answer from the server: the result returned and
    the one recorded. *)
Lemma execute_responded env text s u response :
  let lines := split_lines text in
  let d := extract_directives lines in
  raised d = None ->
  api_url d = Some u ->
  requests_request env (List.length (http_calls s)) (method d) u
  = Responded response ->
  let final := validate lines d response in
  let ok := (List.length (fst final) =? 0)%nat && status_matches d response in
  exists fr tr s',
    execute_gherkin_scenario env text s = (Formatted fr, s')
    /\ f_status fr = (if ok then PASSED else FAILED)
    /\ f_validation_errors fr = fst final
    /\ f_extracted_values fr = snd final
    /\ f_api_endpoint fr = u
    /\ f_status_code fr = r_status_code response
    /\ f_response_data fr = response_body response
    /\ test_results s' = (test_results s ++ [tr])%list
    /\ success tr = ok
    /\ extracted_values tr = Some (snd final)
    /\ errors tr = match fst final with [] => None | l => Some l end
    /\ http_calls s' = (http_calls s ++ [(method d, u)])%list.
Proof.
  intros lines d R H Hreq final ok.
  pose proof (api_url_nonempty _ _ H) as Hne.
  destruct u as [|c u]; [contradiction|].
  unfold execute_gherkin_scenario, mbind, read_time, read_now, ret,
    http_request, append_result.
  cbn. fold lines. fold d. rewrite R, H. cbn. rewrite Hreq. cbn.
  do 3 eexists. split; [reflexivity|].
  cbn. fold final. repeat split; try reflexivity.
  destruct (fst final); reflexivity.
Qed.

Lemma api_url_fold_found lines d :
  raised (directive_fold lines d) = None ->
  api_url d <> None
  \/ (exists line, In line lines /\ url_of_line (Py.strip line) <> None) ->
  api_url (directive_fold lines d) <> None.
Proof.
  revert d. induction lines as [|x lines IH]; intros d R H.
  - destruct H as [H | (line & [] & _)]. exact H.
  - rewrite directive_fold_cons in *.
    pose proof (raised_directive_line _ _ (raised_fold _ _ R)) as Rd.
    apply (IH _ R). rewrite (api_url_directive_line _ _ Rd).
    destruct (url_of_line (Py.strip x)) eqn:E; [left; discriminate|].
    destruct H as [H | (line & [<- | Hin] & Hl)].
    + now left.
    + congruence.
    + right. now exists line.
Qed.

(** A run of digits is a literal that [int] refuses only for its
    length. *)
Lemma count_digits_nonneg s : (0 <= PyInt.count_digits s)%Z.
Proof.
  induction s as [|c s IH]; simpl; [lia|].
  destruct (Re.is_digit c); lia.
Qed.

(** ** C2: which URL line decides *)




(** ** C4: no URL *)

(** C4, as stated, fails: [long_status_text] has no URL line, and its
    status line carries 4301 digits, which [int] refuses; the result is
    the one of the exception, named [Error], and its error does not name
    the missing URL. *)
Lemma missing_url_not_named :
  (forall line, In line (split_lines long_status_text) ->
                url_of_line (Py.strip line) = None)
  /\ exists r,
       fst (execute_gherkin_scenario
              (sample_env (Responded (sample_response 200 (JList []))))
              long_status_text initial_state) = Plain r
       /\ scenario_name r = "Error"
       /\ errors r
          = Some ["Execution error: Exceeds the limit (4300 digits) for integer string conversion: value has 4301 digits; use sys.set_int_max_str_digits() to increase the limit"]
       /\ errors r
          <> Some ["Could not extract API URL from Gherkin scenario"].
Proof.
  split.
  - assert (E : split_lines long_status_text
                = ["Scenario: List users"; get_line; long_status_line])
      by (vm_compute; reflexivity).
    rewrite E. intros line [<- | [<- | [<- | []]]]; vm_compute; reflexivity.
  - eexists. split; [vm_compute; reflexivity|].
    repeat split; try reflexivity. discriminate.
Qed.



(** ** C9: default method and expected status *)

(** The status returned is PASSED exactly when no validation error was
    collected and the status code is the expected one. *)
Lemma passed_iff (errs : list string) (status_ok : bool) :
  (if (List.length errs =? 0)%nat && status_ok then PASSED else FAILED) = PASSED
  <-> errs = [] /\ status_ok = true.
Proof.
  destruct errs, status_ok; simpl; split; intros H;
    try discriminate; try (destruct H; discriminate); auto.
Qed.

(** C9: when some line of the notation gives a URL, no line has one of the
    method keywords and no line mentions [status code should be],
    execution does not fail for that: it calls the URL with method GET and
    compares the status code of the answer with 200. *)
Theorem default_method_and_status env text s :
  (exists line, In line (split_lines text)
                /\ url_of_line (Py.strip line) <> None) ->
  (forall line, In line (split_lines text) ->
                has_method_keyword (Py.strip line) = false) ->
  (forall line, In line (split_lines text) ->
                has_status_phrase (Py.strip line) = false) ->
  let d := extract_directives (split_lines text) in
  method d = "GET" /\ expected_status d = 200%Z
  /\ exists u,
       api_url d = Some u
       /\ http_calls (snd (execute_gherkin_scenario env text s))
          = (http_calls s ++ [("GET", u)])%list
       /\ forall response,
            requests_request env (List.length (http_calls s)) "GET" u
            = Responded response ->
            exists fr,
              fst (execute_gherkin_scenario env text s) = Formatted fr
              /\ (f_status fr = PASSED
                  <-> f_validation_errors fr = []
                      /\ r_status_code response = 200%Z).
Proof.
  intros Hurl Hm Hs d.
  assert (Em : method d = "GET")
    by (unfold d, extract_directives; now rewrite method_fold).
  assert (Es : expected_status d = 200%Z)
    by (unfold d, extract_directives; now rewrite status_fold).
  assert (Er : raised d = None)
    by (unfold d, extract_directives; now rewrite raised_fold_none).
  split; [exact Em|]. split; [exact Es|].
  destruct (api_url d) as [u|] eqn:Eu.
  2:{ exfalso. revert Eu. apply api_url_fold_found; [exact Er | now right]. }
  exists u. split; [reflexivity|]. split.
  - rewrite <- Em. now apply execute_http_call.
  - intros response Hreq. rewrite <- Em in Hreq.
    destruct (execute_responded env text s u response Er Eu Hreq)
      as (fr & tr & s' & E & Hst & Hve & _).
    exists fr. rewrite E. split; [reflexivity|].
    rewrite Hst, Hve, passed_iff. fold d. unfold status_matches. rewrite Es.
    now rewrite Z.eqb_eq.
Qed.

Lemma default_method_and_status_witness :
  ((exists line, In line (split_lines bare_url_text)
                 /\ url_of_line (Py.strip line) <> None)
   /\ (forall line, In line (split_lines bare_url_text) ->
                    has_method_keyword (Py.strip line) = false)
   /\ (forall line, In line (split_lines bare_url_text) ->
                    has_status_phrase (Py.strip line) = false))
  /\ let env := sample_env (Responded (sample_response 200 (JList []))) in
     let d := extract_directives (split_lines bare_url_text) in
     method d = "GET" /\ expected_status d = 200%Z
     /\ exists u,
          api_url d = Some u
          /\ http_calls
               (snd (execute_gherkin_scenario env bare_url_text initial_state))
             = (http_calls initial_state ++ [("GET", u)])%list
          /\ forall response,
               requests_request env (List.length (http_calls initial_state))
                 "GET" u
               = Responded response ->
               exists fr,
                 fst (execute_gherkin_scenario env bare_url_text initial_state)
                 = Formatted fr
                 /\ (f_status fr = PASSED
                     <-> f_validation_errors fr = []
                         /\ r_status_code response = 200%Z).
Proof.
  assert (H1 : exists line, In line (split_lines bare_url_text)
                            /\ url_of_line (Py.strip line) <> None).
  { eexists. split; [left; reflexivity|]. vm_compute. discriminate. }
  assert (H2 : forall line, In line (split_lines bare_url_text) ->
                            has_method_keyword (Py.strip line) = false).
  { intros line Hin. vm_compute in Hin.
    destruct Hin as [<- | [<- | []]]; vm_compute; reflexivity. }
  assert (H3 : forall line, In line (split_lines bare_url_text) ->
                            has_status_phrase (Py.strip line) = false).
  { intros line Hin. vm_compute in Hin.
    destruct Hin as [<- | [<- | []]]; vm_compute; reflexivity. }
  split; [auto|].
  exact (default_method_and_status
           (sample_env (Responded (sample_response 200 (JList []))))
           bare_url_text initial_state H1 H2 H3).
Defined.

(** ** Facts about validation *)

Lemma dict_get_set {V} (d : list (string * V)) k v k' :
  Dict.get (Dict.set d k v) k'
  = if String.eqb k k' then Some v else Dict.get d k'.
Proof.
  induction d as [|[k0 v0] d IH]; simpl; [reflexivity|].
  destruct (String.eqb k0 k) eqn:E0; simpl.
  - apply String.eqb_eq in E0. subst k0.
    now destruct (String.eqb k k').
  - rewrite IH. destruct (String.eqb k0 k') eqn:E1; [|reflexivity].
    destruct (String.eqb k k') eqn:E2; [|reflexivity].
    apply String.eqb_eq in E1, E2. subst. now rewrite String.eqb_refl in E0.
Qed.

Lemma validate_line_fst body acc line :
  fst (validate_line body acc line) = (fst acc ++ line_errors body line)%list.
Proof.
  unfold validate_line, check_contains, check_array, line_errors,
    array_errors, content_errors, content_assertion, asserts_array.
  destruct (_ || _); destruct (is_list body); simpl;
    destruct (Py.contains "should contain" (Py.lower line));
    try destruct (Re.search_should_contain line);
    try destruct (Py.contains _ (Json.dumps body));
    simpl; rewrite ?app_nil_r, <- ?app_assoc; reflexivity.
Qed.

Lemma validate_line_snd body acc line :
  snd (validate_line body acc line)
  = match content_assertion line with
    | Some v =>
        if Py.contains v (Json.dumps body)
        then Dict.set (snd acc) (content_key v) (JBool true)
        else snd acc
    | None => snd acc
    end.
Proof.
  unfold validate_line, check_contains, check_array, content_assertion,
    content_key.
  destruct (_ || _); destruct (is_list body); simpl;
    destruct (Py.contains "should contain" (Py.lower line));
    try destruct (Re.search_should_contain line);
    try destruct (Py.contains _ (Json.dumps body));
    reflexivity.
Qed.

(** The errors collected are those of every line, in order, after the ones
    present before the loop. *)
Lemma fold_validate_fst body lines acc :
  fst (fold_left (validate_line body) lines acc)
  = (fst acc ++ flat_map (line_errors body) lines)%list.
Proof.
  revert acc. induction lines as [|x lines IH]; intros acc; simpl.
  - now rewrite app_nil_r.
  - now rewrite IH, validate_line_fst, <- app_assoc.
Qed.

Lemma fold_validate_keeps body lines acc k :
  Dict.get (snd acc) k = Some (JBool true) ->
  Dict.get (snd (fold_left (validate_line body) lines acc)) k
  = Some (JBool true).
Proof.
  revert acc. induction lines as [|x lines IH]; intros acc H; [exact H|].
  simpl. apply IH. rewrite validate_line_snd.
  destruct (content_assertion x) as [v|]; [|exact H].
  destruct (Py.contains v (Json.dumps body)); [|exact H].
  rewrite dict_get_set. now destruct (String.eqb (content_key v) k).
Qed.

Lemma fold_validate_complete body lines acc line v :
  In line lines -> content_assertion line = Some v ->
  Py.contains v (Json.dumps body) = true ->
  Dict.get (snd (fold_left (validate_line body) lines acc)) (content_key v)
  = Some (JBool true).
Proof.
  revert acc. induction lines as [|x lines IH]; intros acc Hin Hv Hc;
    [destruct Hin|]. destruct Hin as [<- | Hin].
  - simpl. apply fold_validate_keeps.
    rewrite validate_line_snd, Hv, Hc, dict_get_set.
    now rewrite String.eqb_refl.
  - simpl. now apply IH.
Qed.

Lemma fold_validate_sound body lines acc k x :
  Dict.get (snd (fold_left (validate_line body) lines acc)) k = Some x ->
  Dict.get (snd acc) k = Some x
  \/ (x = JBool true
      /\ exists line v,
           In line lines /\ content_assertion line = Some v
           /\ content_key v = k /\ Py.contains v (Json.dumps body) = true).
Proof.
  revert acc. induction lines as [|y lines IH]; intros acc H; [now left|].
  simpl in H. apply IH in H as [H | (Hx & line & v & Hin & Hrest)].
  - rewrite validate_line_snd in H.
    destruct (content_assertion y) as [v|] eqn:Ev; [|now left].
    destruct (Py.contains v (Json.dumps body)) eqn:Ec; [|now left].
    rewrite dict_get_set in H.
    destruct (String.eqb (content_key v) k) eqn:Ek; [|now left].
    right. injection H as <-. split; [reflexivity|].
    apply String.eqb_eq in Ek. exists y, v. repeat split; auto. now left.
  - right. split; [exact Hx|]. exists line, v. split; [now right | exact Hrest].
Qed.

Lemma validate_fst lines d response :
  fst (validate lines d response)
  = ((if status_matches d response then []
      else [status_message (expected_status d) (r_status_code response)])
     ++ flat_map (line_errors (response_body response)) lines)%list.
Proof.
  unfold validate. rewrite fold_validate_fst.
  now destruct (status_matches d response).
Qed.

(** ** C5: every rule is evaluated *)

(** C5: for every executed scenario (directive extraction raised no
    exception, a URL was found and the server answered), the validation
    errors are the status message, when the status code differs from the
    expected one, followed by the messages of every line, each rule of
    each line read on its own whatever failed before; the result returned
    is PASSED, and the result recorded has [success = true], exactly when
    that list is empty and the status code is the expected one. *)
Theorem validation_collects_all env text s u response :
  let lines := split_lines text in
  let d := extract_directives lines in
  raised d = None ->
  api_url d = Some u ->
  requests_request env (List.length (http_calls s)) (method d) u
  = Responded response ->
  exists fr tr s',
    execute_gherkin_scenario env text s = (Formatted fr, s')
    /\ f_validation_errors fr
       = ((if (r_status_code response =? expected_status d)%Z then []
           else [("Expected status " ++ PyInt.str (expected_status d)
                  ++ ", got " ++ PyInt.str (r_status_code response))%string])
          ++ flat_map (line_errors (response_body response)) lines)%list
    /\ (f_status fr = PASSED
        <-> f_validation_errors fr = []
            /\ r_status_code response = expected_status d)
    /\ test_results s' = (test_results s ++ [tr])%list
    /\ (success tr = true
        <-> f_validation_errors fr = []
            /\ r_status_code response = expected_status d).
Proof.
  intros lines d Hr Hu Hreq.
  destruct (execute_responded env text s u response Hr Hu Hreq)
    as (fr & tr & s' & E & Hst & Hve & _ & _ & _ & _ & Htr & Hok & _).
  exists fr, tr, s'. fold lines d in Hst, Hve, Hok.
  split; [exact E|]. split; [rewrite Hve; apply validate_fst|].
  assert (P : forall b : bool,
             b = (List.length (fst (validate lines d response)) =? 0)%nat
                 && status_matches d response ->
             (b = true <-> f_validation_errors fr = []
                           /\ r_status_code response = expected_status d)).
  { intros b ->. rewrite Hve. unfold status_matches.
    rewrite andb_true_iff, Nat.eqb_eq, Z.eqb_eq, length_zero_iff_nil.
    reflexivity. }
  split; [|split; [exact Htr | now apply P]].
  rewrite Hst, passed_iff, Hve. unfold status_matches. now rewrite Z.eqb_eq.
Qed.

(** The scenario of [users_text] against an answer 404 with an empty
    object: the three rules fail and the three messages are collected. *)
Lemma validation_collects_all_witness :
  let env := sample_env (Responded (sample_response 404 (JDict []))) in
  let d := extract_directives (split_lines users_text) in
  (raised d = None
   /\ api_url d = Some "https://example.test/users"
   /\ requests_request env (List.length (http_calls initial_state))
        (method d) "https://example.test/users"
      = Responded (sample_response 404 (JDict [])))
  /\ exists fr tr s',
       execute_gherkin_scenario env users_text initial_state
       = (Formatted fr, s')
       /\ f_validation_errors fr
          = ["Expected status 200, got 404";
             "Response is not a JSON array";
             "Response does not contain 'Leanne Graham'"]
       /\ f_status fr = FAILED
       /\ test_results s' = (test_results initial_state ++ [tr])%list
       /\ success tr = false.
Proof.
  cbv zeta.
  assert (H0 : raised (extract_directives (split_lines users_text)) = None)
    by (vm_compute; reflexivity).
  assert (H1 : api_url (extract_directives (split_lines users_text))
               = Some "https://example.test/users") by (vm_compute; reflexivity).
  assert (H2 : requests_request
                 (sample_env (Responded (sample_response 404 (JDict []))))
                 (List.length (http_calls initial_state))
                 (method (extract_directives (split_lines users_text)))
                 "https://example.test/users"
               = Responded (sample_response 404 (JDict []))) by reflexivity.
  split; [auto|].
  destruct (validation_collects_all
              (sample_env (Responded (sample_response 404 (JDict []))))
              users_text initial_state "https://example.test/users"
              (sample_response 404 (JDict [])) H0 H1 H2)
    as (fr & tr & s' & E & Hve & Hp & Ht & Hs).
  assert (V : f_validation_errors fr
              = ["Expected status 200, got 404";
                 "Response is not a JSON array";
                 "Response does not contain 'Leanne Graham'"])
    by (rewrite Hve; vm_compute; reflexivity).
  exists fr, tr, s'. split; [exact E|]. split; [exact V|].
  split; [|split; [exact Ht|]].
  - destruct (f_status fr) eqn:F; try reflexivity.
    + destruct Hp as [Hp _]. destruct (Hp eq_refl) as [Hn _].
      rewrite V in Hn. discriminate Hn.
    + exfalso. vm_compute in E. injection E as <- _. discriminate F.
  - destruct (success tr) eqn:F; [|reflexivity].
    destruct Hs as [Hs _]. destruct (Hs eq_refl) as [Hn _].
    rewrite V in Hn. discriminate Hn.
Defined.

(** ** C7: the array assertion *)

Lemma array_message_in_line_errors body line :
  In "Response is not a JSON array" (line_errors body line)
  <-> asserts_array line = true /\ is_list body = false.
Proof.
  unfold line_errors, array_errors, content_errors. rewrite in_app_iff.
  split.
  - intros [H | H].
    + destruct (asserts_array line), (is_list body); simpl in H;
        try contradiction; auto.
    + destruct (content_assertion line) as [v|]; [|contradiction].
      destruct (Py.contains v (Json.dumps body)); [contradiction|].
      destruct H as [H | []]. discriminate H.
  - intros [-> ->]. left. now left.
Qed.

(** C7: for an executed scenario (directive extraction raised no
    exception, a URL was found and the server answered), when the body of
    the answer parses as JSON and some line of the scenario declares the
    array assertion, the error [Response is not a JSON array] is among the
    validation errors exactly when the parsed value is not a list; it is
    absent exactly when the value is a list. *)
Theorem array_assertion_iff env text s u response j :
  let lines := split_lines text in
  let d := extract_directives lines in
  raised d = None ->
  api_url d = Some u ->
  requests_request env (List.length (http_calls s)) (method d) u
  = Responded response ->
  r_json response = Some j ->
  (exists line, In line lines /\ asserts_array line = true) ->
  exists fr,
    fst (execute_gherkin_scenario env text s) = Formatted fr
    /\ (In "Response is not a JSON array" (f_validation_errors fr)
        <-> forall l, j <> JList l)
    /\ (~ In "Response is not a JSON array" (f_validation_errors fr)
        <-> exists l, j = JList l).
Proof.
  intros lines d Hr Hu Hreq Hj (line & Hin & Hline).
  destruct (execute_responded env text s u response Hr Hu Hreq)
    as (fr & tr & s' & E & _ & Hve & _).
  exists fr. rewrite E. split; [reflexivity|]. fold lines d in Hve.
  assert (B : response_body response = j)
    by (unfold response_body; now rewrite Hj).
  assert (K : In "Response is not a JSON array" (f_validation_errors fr)
              <-> is_list j = false).
  { rewrite Hve, validate_fst, B, in_app_iff, in_flat_map. split.
    - intros [H | (x & _ & H)].
      + destruct (status_matches d response); [contradiction|].
        destruct H as [H | []]. discriminate H.
      + now apply array_message_in_line_errors in H.
    - intros H. right. exists line. split; [exact Hin|].
      now apply array_message_in_line_errors. }
  split; rewrite K.
  - split.
    + intros H l ->. discriminate.
    + intros H. destruct j; try reflexivity. now destruct (H l).
  - split.
    + intros H. destruct j; try (now destruct H). now exists l.
    + intros [l ->]. discriminate.
Qed.

Lemma array_assertion_iff_witness :
  let env := sample_env (Responded (sample_response 200 users_body)) in
  let text := users_text in
  let s := initial_state in
  let u := "https://example.test/users" in
  let response := sample_response 200 users_body in
  let lines := split_lines text in
  let d := extract_directives lines in
  (raised d = None
   /\ api_url d = Some u
   /\ requests_request env (List.length (http_calls s)) (method d) u
      = Responded response
   /\ r_json response = Some users_body
   /\ exists line, In line lines /\ asserts_array line = true)
  /\ exists fr,
       fst (execute_gherkin_scenario env text s) = Formatted fr
       /\ (In "Response is not a JSON array" (f_validation_errors fr)
           <-> forall l, users_body <> JList l)
       /\ (~ In "Response is not a JSON array" (f_validation_errors fr)
           <-> exists l, users_body = JList l).
Proof.
  cbv zeta.
  assert (H0 : raised (extract_directives (split_lines users_text)) = None)
    by (vm_compute; reflexivity).
  assert (H1 : api_url (extract_directives (split_lines users_text))
               = Some "https://example.test/users") by (vm_compute; reflexivity).
  assert (H2 : requests_request
                 (sample_env (Responded (sample_response 200 users_body)))
                 (List.length (http_calls initial_state))
                 (method (extract_directives (split_lines users_text)))
                 "https://example.test/users"
               = Responded (sample_response 200 users_body)) by reflexivity.
  assert (H3 : r_json (sample_response 200 users_body) = Some users_body)
    by reflexivity.
  assert (H4 : exists line, In line (split_lines users_text)
                            /\ asserts_array line = true).
  { exists "Then the response should be a JSON array".
    split; vm_compute; auto. }
  split; [auto|].
  exact (array_assertion_iff
           (sample_env (Responded (sample_response 200 users_body)))
           users_text initial_state "https://example.test/users"
           (sample_response 200 users_body) users_body H0 H1 H2 H3 H4).
Defined.

(** ** C10: keys of the content assertions *)

(** C10, as stated, fails: the literal [a b] of [spaced_line] is not in the
    serialized body, yet its key [contains_a_b] is bound to true, by the
    assertion of [underscore_line], whose literal is present. *)
Lemma absent_literal_key_bound :
  In spaced_line (split_lines collision_text)
  /\ content_assertion spaced_line = Some "a b"
  /\ Py.contains "a b" (Json.dumps collision_body) = false
  /\ content_key "a b" = "contains_a_b"
  /\ match fst (execute_gherkin_scenario
                  (sample_env (Responded (sample_response 200 collision_body)))
                  collision_text initial_state) with
     | Formatted fr =>
         Dict.get (f_extracted_values fr) "contains_a_b" = Some (JBool true)
     | Plain _ => False
     end.
Proof. repeat split; vm_compute; auto. Qed.

(** C10 (amended): in the extracted values of an executed scenario
    (directive extraction raised no exception, a URL was found and the
    server answered), a key is bound exactly when some content assertion of the scenario has that
    key and a literal present in the serialized body, and then it is bound
    to true, never to false.  Hence the key of a content assertion whose
    literal is absent is itself absent unless another content assertion
    with the same key (its literal differs only by spaces against
    underscores) has its literal present. *)
Theorem content_keys env text s u response :
  let lines := split_lines text in
  let d := extract_directives lines in
  let body := response_body response in
  raised d = None ->
  api_url d = Some u ->
  requests_request env (List.length (http_calls s)) (method d) u
  = Responded response ->
  exists fr,
    fst (execute_gherkin_scenario env text s) = Formatted fr
    /\ (forall k x,
          Dict.get (f_extracted_values fr) k = Some x ->
          x = JBool true
          /\ exists line v,
               In line lines /\ content_assertion line = Some v
               /\ content_key v = k
               /\ Py.contains v (Json.dumps body) = true)
    /\ (forall line v,
          In line lines -> content_assertion line = Some v ->
          Py.contains v (Json.dumps body) = true ->
          Dict.get (f_extracted_values fr) (content_key v) = Some (JBool true))
    /\ (forall line v,
          In line lines -> content_assertion line = Some v ->
          Py.contains v (Json.dumps body) = false ->
          (forall line' v',
             In line' lines -> content_assertion line' = Some v' ->
             content_key v' = content_key v ->
             Py.contains v' (Json.dumps body) = false) ->
          Dict.get (f_extracted_values fr) (content_key v) = None).
Proof.
  intros lines d body Hr Hu Hreq.
  destruct (execute_responded env text s u response Hr Hu Hreq)
    as (fr & tr & s' & E & _ & _ & Hev & _).
  exists fr. rewrite E. split; [reflexivity|]. fold lines d in Hev.
  unfold validate in Hev. fold body in Hev.
  assert (Sound : forall k x,
             Dict.get (f_extracted_values fr) k = Some x ->
             x = JBool true
             /\ exists line v,
                  In line lines /\ content_assertion line = Some v
                  /\ content_key v = k
                  /\ Py.contains v (Json.dumps body) = true).
  { intros k x H. rewrite Hev in H.
    apply fold_validate_sound in H as [H | H]; [discriminate | exact H]. }
  split; [exact Sound|]. split.
  - intros line v Hin Hv Hc. rewrite Hev.
    now apply (fold_validate_complete body lines _ line).
  - intros line v Hin Hv Hc Hothers.
    destruct (Dict.get (f_extracted_values fr) (content_key v)) as [x|] eqn:G;
      [|reflexivity].
    destruct (Sound _ _ G) as (_ & line' & v' & Hin' & Hv' & Hk & Hc').
    rewrite (Hothers line' v' Hin' Hv' Hk) in Hc'. discriminate.
Qed.

Lemma content_keys_witness :
  let env := sample_env (Responded (sample_response 200 collision_body)) in
  let text := collision_text in
  let s := initial_state in
  let u := "https://example.test/tags" in
  let response := sample_response 200 collision_body in
  let lines := split_lines text in
  let d := extract_directives lines in
  let body := response_body response in
  (raised d = None
   /\ api_url d = Some u
   /\ requests_request env (List.length (http_calls s)) (method d) u
      = Responded response)
  /\ exists fr,
       fst (execute_gherkin_scenario env text s) = Formatted fr
       /\ (forall k x,
             Dict.get (f_extracted_values fr) k = Some x ->
             x = JBool true
             /\ exists line v,
                  In line lines /\ content_assertion line = Some v
                  /\ content_key v = k
                  /\ Py.contains v (Json.dumps body) = true)
       /\ (forall line v,
             In line lines -> content_assertion line = Some v ->
             Py.contains v (Json.dumps body) = true ->
             Dict.get (f_extracted_values fr) (content_key v)
             = Some (JBool true))
       /\ (forall line v,
             In line lines -> content_assertion line = Some v ->
             Py.contains v (Json.dumps body) = false ->
             (forall line' v',
                In line' lines -> content_assertion line' = Some v' ->
                content_key v' = content_key v ->
                Py.contains v' (Json.dumps body) = false) ->
             Dict.get (f_extracted_values fr) (content_key v) = None).
Proof.
  cbv zeta.
  assert (H0 : raised (extract_directives (split_lines collision_text)) = None)
    by (vm_compute; reflexivity).
  assert (H1 : api_url (extract_directives (split_lines collision_text))
               = Some "https://example.test/tags") by (vm_compute; reflexivity).
  assert (H2 : requests_request
                 (sample_env (Responded (sample_response 200 collision_body)))
                 (List.length (http_calls initial_state))
                 (method (extract_directives (split_lines collision_text)))
                 "https://example.test/tags"
               = Responded (sample_response 200 collision_body))
    by reflexivity.
  split; [auto|].
  exact (content_keys
           (sample_env (Responded (sample_response 200 collision_body)))
           collision_text initial_state "https://example.test/tags"
           (sample_response 200 collision_body) H0 H1 H2).
Defined.

(** ** C1: the end-to-end scenario *)

(** C1: executing the five-line notation against an answer with status 200
    and body [users_body] returns a PASSED result with no validation error
    and extracted values exactly [contains_Leanne_Graham: true]; the result
    recorded has [success = true], no errors and the same extracted
    values. *)
Theorem end_to_end env s response :
  requests_request env (List.length (http_calls s)) "GET"
    "https://example.test/users" = Responded response ->
  r_status_code response = 200%Z ->
  r_json response = Some users_body ->
  exists fr tr s',
    execute_gherkin_scenario env users_text s = (Formatted fr, s')
    /\ f_status fr = PASSED
    /\ f_validation_errors fr = []
    /\ f_extracted_values fr = [("contains_Leanne_Graham", JBool true)]
    /\ test_results s' = (test_results s ++ [tr])%list
    /\ success tr = true
    /\ errors tr = None
    /\ extracted_values tr = Some [("contains_Leanne_Graham", JBool true)].
Proof.
  intros Hreq Hcode Hjson.
  assert (D : extract_directives (split_lines users_text)
              = {| api_url := Some "https://example.test/users";
                   method := "GET"; expected_status := 200;
                   d_scenario_name := "API Test"; raised := None |})
    by (vm_compute; reflexivity).
  assert (Hr : raised (extract_directives (split_lines users_text)) = None)
    by now rewrite D.
  assert (Hu : api_url (extract_directives (split_lines users_text))
               = Some "https://example.test/users") by now rewrite D.
  assert (Hm : method (extract_directives (split_lines users_text)) = "GET")
    by now rewrite D.
  rewrite <- Hm in Hreq.
  destruct (execute_responded env users_text s _ response Hr Hu Hreq)
    as (fr & tr & s' & E & Hst & Hve & Hev & _ & _ & _ & Htr & Hok & Hx & Her & _).
  assert (V : validate (split_lines users_text)
                (extract_directives (split_lines users_text)) response
              = ([], [("contains_Leanne_Graham", JBool true)])).
  { unfold validate, status_matches, response_body.
    rewrite D, Hcode, Hjson. vm_compute. reflexivity. }
  assert (S : status_matches (extract_directives (split_lines users_text))
                response = true)
    by (unfold status_matches; rewrite D, Hcode; reflexivity).
  rewrite V in *. rewrite S in *. clear D Hr Hu Hm Hreq V S.
  cbn [fst snd List.length Nat.eqb andb] in *.
  exists fr, tr, s'. repeat split; assumption.
Qed.

Lemma end_to_end_witness :
  let env := sample_env (Responded (sample_response 200 users_body)) in
  let s := initial_state in
  let response := sample_response 200 users_body in
  (requests_request env (List.length (http_calls s)) "GET"
     "https://example.test/users" = Responded response
   /\ r_status_code response = 200%Z
   /\ r_json response = Some users_body)
  /\ exists fr tr s',
       execute_gherkin_scenario env users_text s = (Formatted fr, s')
       /\ f_status fr = PASSED
       /\ f_validation_errors fr = []
       /\ f_extracted_values fr = [("contains_Leanne_Graham", JBool true)]
       /\ test_results s' = (test_results s ++ [tr])%list
       /\ success tr = true
       /\ errors tr = None
       /\ extracted_values tr = Some [("contains_Leanne_Graham", JBool true)].
Proof.
  cbv zeta. split; [repeat split|].
  exact (end_to_end
           (sample_env (Responded (sample_response 200 users_body)))
           initial_state (sample_response 200 users_body)
           eq_refl eq_refl eq_refl).
Defined.

(** ** C6: value extraction *)

Import APIValidator.





Lemma get_segments_app data pre post :
  get_segments data (pre ++ post)%list
  = bind (get_segments data pre) (fun v => get_segments v post).
Proof.
  revert data. induction pre as [|k pre IH]; intros data; [reflexivity|].
  simpl. destruct (get_segment data k); simpl; [apply IH | reflexivity].
Qed.

(** C6, as stated, fails: over the example body, whose list has one
    element, the index [-1] is not refused but counts from the end, and an
    index applied to the string of the name is not refused either but
    gives a character; both paths give a value, not an error string. *)
Lemma index_counts_from_end_and_into_strings :
  _get_nested_value users_document "users[-1].name"
  = Return (JStr "Leanne Graham")
  /\ _get_nested_value users_document "users[0].name[0]" = Return (JStr "L")
  /\ _extract_values str_exception_sample users_document
       [("last", "users[-1].name"); ("initial", "users[0].name[0]")]
     = [("last", JStr "Leanne Graham"); ("initial", JStr "L")].
Proof. repeat split; vm_compute; reflexivity. Qed.


(** ** C8: the pass rate of an empty log *)

Lemma success_rate_text_total passed_tests total_tests :
  exists rate, success_rate_text passed_tests total_tests = Some rate.
Proof.
  unfold success_rate_text, Fmt.truediv.
  destruct (0 <? total_tests)%nat eqn:E; [|eauto].
  apply Nat.ltb_lt in E.
  destruct (total_tests =? 0)%nat eqn:Z; [|eauto].
  apply Nat.eqb_eq in Z. lia.
Qed.

(** C8: with an empty log the rate field prints [0.0] without dividing,
    and the report is produced, with the line [- Success Rate: 0.0%];
    for every log the report is produced (the division is never by
    zero). *)
Theorem empty_log_rate env calls reads :
  success_rate_text (count_passed []) (List.length (@nil TestResult))
  = Some "0.0"
  /\ fst (generate_test_report env
            {| test_results := []; http_calls := calls; clock_reads := reads |})
     = Some ("# API Testing Report" ++ Py.nl ++ Py.nl
             ++ "Generated: " ++ strftime (datetime_now env reads)
             ++ Py.nl ++ Py.nl
             ++ "## Summary" ++ Py.nl
             ++ "- Total Tests: 0" ++ Py.nl
             ++ "- Passed: 0" ++ Py.nl
             ++ "- Failed: 0" ++ Py.nl
             ++ "- Success Rate: 0.0%" ++ Py.nl ++ Py.nl
             ++ "## Test Results" ++ Py.nl ++ Py.nl)
  /\ forall s, exists report, fst (generate_test_report env s) = Some report.
Proof.
  assert (R : success_rate_text 0 0 = Some "0.0") by (vm_compute; reflexivity).
  split; [exact R|]. split.
  - unfold generate_test_report, mbind, read_now.
    cbn [test_results clock_reads fst List.length count_passed filter
         Nat.sub result_sections].
    rewrite R. cbn [fst]. rewrite append_empty_r. reflexivity.
  - intros s. unfold generate_test_report, mbind, read_now.
    cbn [fst test_results].
    destruct (success_rate_text_total (count_passed (test_results s))
                (List.length (test_results s))) as [rate ->].
    cbn [fst]. eauto.
Qed.

(** ** More facts about the string primitives *)

(** Splitting distributes over a separator, whatever is on its left. *)
Lemma split_app sep a b :
  Py.split sep (a ++ String sep b) = (Py.split sep a ++ Py.split sep b)%list.
Proof.
  induction a as [|c a IH].
  - simpl. now rewrite Ascii.eqb_refl.
  - change (String c a ++ String sep b) with (String c (a ++ String sep b)).
    rewrite !split_cons, IH.
    destruct (Ascii.eqb c sep); [reflexivity|].
    destruct (split_cons_exists sep a) as (h & t & ->). reflexivity.
Qed.

Lemma lstrip_idempotent s : Py.lstrip (Py.lstrip s) = Py.lstrip s.
Proof.
  induction s as [|c s IH]; [reflexivity|]. simpl.
  destruct (Py.is_space c) eqn:E; [exact IH|]. simpl. now rewrite E.
Qed.

Lemma rstrip_tail c s :
  Py.rstrip (String c s) = String c s -> Py.rstrip s = s.
Proof.
  rewrite rstrip_cons. destruct (Py.rstrip s) eqn:E.
  - destruct (Py.is_space c); [discriminate|]. now intros [= <-].
  - now intros [= <-].
Qed.

Lemma rstrip_lstrip s : Py.rstrip s = s -> Py.rstrip (Py.lstrip s) = Py.lstrip s.
Proof.
  induction s as [|c s IH]; intros H; [reflexivity|]. simpl.
  destruct (Py.is_space c); [|exact H].
  apply IH. exact (rstrip_tail _ _ H).
Qed.

Lemma rstrip_idempotent s : Py.rstrip (Py.rstrip s) = Py.rstrip s.
Proof.
  induction s as [|c s IH]; [reflexivity|].
  rewrite rstrip_cons. destruct (Py.rstrip s) as [|a r] eqn:E.
  - destruct (Py.is_space c) eqn:Sp; [reflexivity|].
    rewrite rstrip_cons. simpl. now rewrite Sp.
  - rewrite rstrip_cons, IH. reflexivity.
Qed.

Lemma strip_idempotent s : Py.strip (Py.strip s) = Py.strip s.
Proof.
  unfold Py.strip.
  rewrite (rstrip_lstrip (Py.rstrip s) (rstrip_idempotent s)).
  apply lstrip_idempotent.
Qed.

Lemma lstrip_space_cons c s : Py.is_space c = true -> Py.strip (String c s) = Py.strip s.
Proof.
  intros Hc. unfold Py.strip. rewrite rstrip_cons.
  destruct (Py.rstrip s); simpl; now rewrite Hc.
Qed.

(** Stripping the start of a text only removes or shortens blank lines at
    the start, as far as lines are compared after [strip]. *)
Lemma lstrip_split_lines t :
  exists k,
    map Py.strip (Py.split Py.nl_char t)
    = (repeat "" k ++ map Py.strip (Py.split Py.nl_char (Py.lstrip t)))%list.
Proof.
  induction t as [|c t [k Hk]]; [now exists 0|].
  simpl Py.lstrip. destruct (Py.is_space c) eqn:Sp; [|now exists 0].
  rewrite split_cons. destruct (Ascii.eqb c Py.nl_char).
  - exists (S k). cbn [map repeat app]. now rewrite Hk.
  - destruct (split_cons_exists Py.nl_char t) as (h & tl & Ht).
    rewrite Ht in *. exists k. cbn [map] in *.
    now rewrite (lstrip_space_cons _ _ Sp).
Qed.

(** A loop over the stripped lines of a text that does nothing on a blank
    line gives the same result with and without the outer [strip]. *)
Lemma fold_lines_outer_strip {A} (f : A -> string -> A) t a :
  (forall a, f a "" = a) ->
  fold_left (fun a line => f a (Py.strip line))
    (Py.split Py.nl_char (Py.strip t)) a
  = fold_left (fun a line => f a (Py.strip line)) (Py.split Py.nl_char t) a.
Proof.
  intros Hblank.
  assert (M : forall l a,
             fold_left (fun a line => f a (Py.strip line)) l a
             = fold_left f (map Py.strip l) a).
  { induction l as [|x l IH]; intros a0; [reflexivity | apply IH]. }
  assert (B : forall k a, fold_left f (repeat "" k) a = a).
  { induction k as [|k IH]; intros a0; [reflexivity|].
    simpl. rewrite Hblank. apply IH. }
  rewrite !M. unfold Py.strip at 2.
  destruct (rstrip_split_lines t) as [k1 H1].
  destruct (lstrip_split_lines (Py.rstrip t)) as [k2 H2].
  assert (E : map Py.strip (Py.split Py.nl_char t)
              = (map Py.strip (Py.split Py.nl_char (Py.rstrip t))
                 ++ repeat "" k1)%list).
  { unfold Py.strip.
    rewrite <- (map_map Py.rstrip Py.lstrip), H1, map_app, map_map.
    f_equal. clear. induction k1 as [|k IH]; [reflexivity|].
    simpl. now rewrite IH. }
  rewrite E, H2, !fold_left_app, !B. reflexivity.
Qed.

(** ** The codec beyond the round trip of names and steps *)

Lemma parse_feature_line_clean st f :
  clean_for "Feature:" f ->
  parse_line st (Py.strip ("Feature: " ++ f))
  = {| p_feature := f; p_scenario := p_scenario st;
       p_given := p_given st; p_when := p_when st; p_then := p_then st;
       current_section := current_section st |}.
Proof.
  intros H.
  change (Py.strip ("Feature: " ++ f))
    with (Py.strip ("" ++ "Feature:" ++ String " " f)).
  rewrite strip_keyword_line by reflexivity.
  unfold parse_line. decide_startswith.
  rewrite strip_replace_keyword by (reflexivity || assumption).
  reflexivity.
Qed.

Lemma parse_line_keeps_feature st line :
  Py.startswith line "Feature:" = false ->
  p_feature (parse_line st line) = p_feature st.
Proof.
  intros H. unfold parse_line. rewrite H.
  repeat match goal with
         | |- context [if ?b then _ else _] => destruct b
         | |- context [match current_section st with _ => _ end] =>
             destruct (current_section st) as [[]|]
         end; reflexivity.
Qed.

Lemma parse_lines_keep_feature lines st :
  Forall (fun l => Py.startswith (Py.strip l) "Feature:" = false) lines ->
  p_feature (parse_lines lines st) = p_feature st.
Proof.
  intros H. revert st. induction H as [|l lines Hl _ IH]; intros st;
    [reflexivity|].
  rewrite parse_lines_cons, IH. now apply parse_line_keeps_feature.
Qed.

Lemma step_lines_not_feature a kw steps :
  Py.is_space a = false ->
  Py.rstrip (String a kw) = String a kw ->
  Py.startswith (String a kw) "F" = false ->
  Forall (fun l => Py.startswith (Py.strip l) "Feature:" = false)
    (map (fun s => ("  " ++ String a kw ++ String " " s)%string) steps).
Proof.
  intros Ha Hkw Hf. apply Forall_forall. intros l Hin.
  apply in_map_iff in Hin as (s & <- & _).
  rewrite strip_keyword_line by (reflexivity || assumption).
  cbn [Py.startswith] in Hf. rewrite andb_true_r in Hf.
  change (String a kw ++ ?x) with (String a (kw ++ x)).
  cbn [Py.startswith]. now rewrite Hf.
Qed.

(** What the decoder makes of a generated text, field by field. *)
Lemma decode_generated sc :
  clean_for "Feature:" (feature sc) ->
  clean_for "Scenario:" (scenario sc) ->
  Forall (clean_for "Given") (given sc) ->
  Forall (clean_for "When") (when sc) ->
  Forall (clean_for "Then") (then_ sc) ->
  _parse_gherkin_text (gherkin_text_of sc)
  = {| feature := feature sc; scenario := scenario sc; given := given sc;
       when := when sc; then_ := then_ sc; background := None |}.
Proof.
  intros Hf Hn Hg Hw Ht. unfold _parse_gherkin_text.
  assert (E : exists t, gherkin_text_of sc = String "F" t)
    by (eexists; reflexivity).
  destruct E as [t E]. rewrite E, parse_lines_outer_strip by reflexivity.
  rewrite <- E, split_gherkin_text by (assumption || apply Hf).
  rewrite parse_lines_cons, (parse_feature_line_clean _ _ Hf).
  rewrite 2 parse_lines_cons, parse_line_blank.
  change (Py.strip "") with "".
  rewrite (parse_scenario_line _ _ Hn), !parse_lines_app.
  cbn [p_feature p_scenario p_given p_when p_then current_section parse_init].
  match goal with
  | |- context [parse_lines (map ?f (given sc)) ?st] =>
      destruct (parse_given_block (given sc) st Hg) as (G1 & G2 & G3 & G4);
      pose proof (parse_lines_keep_feature (map f (given sc)) st
                    (step_lines_not_feature "G" "iven" (given sc)
                       eq_refl eq_refl eq_refl)) as G0;
      set (s1 := parse_lines (map f (given sc)) st) in *
  end.
  destruct (parse_when_block (when sc) s1 Hw) as (W1 & W2 & W3 & W4).
  match goal with
  | |- context [parse_lines (map ?f (when sc)) s1] =>
      pose proof (parse_lines_keep_feature (map f (when sc)) s1
                    (step_lines_not_feature "W" "hen" (when sc)
                       eq_refl eq_refl eq_refl)) as W0;
      set (s2 := parse_lines (map f (when sc)) s1) in *
  end.
  destruct (parse_then_block (then_ sc) s2 Ht) as (T1 & T2 & T3 & T4).
  match goal with
  | |- context [parse_lines (map ?f (then_ sc)) s2] =>
      pose proof (parse_lines_keep_feature (map f (then_ sc)) s2
                    (step_lines_not_feature "T" "hen" (then_ sc)
                       eq_refl eq_refl eq_refl)) as T0;
      set (s3 := parse_lines (map f (then_ sc)) s2) in *
  end.
  rewrite parse_lines_cons. change (Py.strip "") with "".
  rewrite parse_line_blank. change (parse_lines [] s3) with s3.
  cbn [p_feature p_scenario p_given p_when p_then] in *.
  rewrite T0, T1, T2, T3, T4, W0, W1, W2, W3, W4, G0, G1, G2, G3, G4.
  reflexivity.
Qed.

(** X1: for a scenario whose feature, name and steps have no newline, no
    white space at either end and no occurrence of the keyword of their own
    line, decoding the generated text gives back every field, with no
    background; generating again from the decoded scenario gives the same
    text. *)
Theorem generated_text_is_canonical sc :
  clean_for "Feature:" (feature sc) ->
  clean_for "Scenario:" (scenario sc) ->
  Forall (clean_for "Given") (given sc) ->
  Forall (clean_for "When") (when sc) ->
  Forall (clean_for "Then") (then_ sc) ->
  _parse_gherkin_text (gherkin_text_of sc)
  = {| feature := feature sc; scenario := scenario sc; given := given sc;
       when := when sc; then_ := then_ sc; background := None |}
  /\ gherkin_text_of (_parse_gherkin_text (gherkin_text_of sc))
     = gherkin_text_of sc.
Proof.
  intros Hf Hn Hg Hw Ht.
  rewrite (decode_generated sc Hf Hn Hg Hw Ht). split; reflexivity.
Qed.

Lemma generated_text_is_canonical_witness :
  (clean_for "Feature:" (feature sample_scenario)
   /\ clean_for "Scenario:" (scenario sample_scenario)
   /\ Forall (clean_for "Given") (given sample_scenario)
   /\ Forall (clean_for "When") (when sample_scenario)
   /\ Forall (clean_for "Then") (then_ sample_scenario))
  /\ (_parse_gherkin_text (gherkin_text_of sample_scenario)
      = {| feature := feature sample_scenario;
           scenario := scenario sample_scenario;
           given := given sample_scenario; when := when sample_scenario;
           then_ := then_ sample_scenario; background := None |}
      /\ gherkin_text_of (_parse_gherkin_text (gherkin_text_of sample_scenario))
         = gherkin_text_of sample_scenario).
Proof.
  assert (H : clean_for "Feature:" (feature sample_scenario)
              /\ clean_for "Scenario:" (scenario sample_scenario)
              /\ Forall (clean_for "Given") (given sample_scenario)
              /\ Forall (clean_for "When") (when sample_scenario)
              /\ Forall (clean_for "Then") (then_ sample_scenario)).
  { unfold clean_for, no_newline.
    repeat first [ split | apply Forall_cons | apply Forall_nil
                 | vm_compute; reflexivity ]. }
  split; [exact H|].
  destruct H as (H1 & H2 & H3 & H4 & H5).
  exact (generated_text_is_canonical sample_scenario H1 H2 H3 H4 H5).
Defined.

Lemma parse_line_unrecognised st line :
  recognised line = false -> parse_line st line = st.
Proof.
  unfold recognised, parse_line. intros H.
  repeat (apply orb_false_iff in H; destruct H as [H ?]).
  repeat match goal with E : Py.startswith _ _ = false |- _ =>
                           rewrite E; clear E end.
  reflexivity.
Qed.

Lemma parse_text_lines text :
  _parse_gherkin_text text
  = let st := parse_lines (Py.split Py.nl_char text) parse_init in
    {| feature := p_feature st; scenario := p_scenario st;
       given := p_given st; when := p_when st; then_ := p_then st;
       background := None |}.
Proof.
  unfold _parse_gherkin_text, parse_lines.
  now rewrite (fold_lines_outer_strip parse_line text parse_init parse_line_blank).
Qed.

(** X2: a line that, once stripped, starts with none of [Feature:],
    [Scenario:], [Given], [When], [Then], [And] can be put between any two
    parts of a text without changing what is decoded. *)
Theorem unrecognised_line_ignored a junk b :
  no_newline junk ->
  recognised (Py.strip junk) = false ->
  _parse_gherkin_text (a ++ Py.nl ++ junk ++ Py.nl ++ b)
  = _parse_gherkin_text (a ++ Py.nl ++ b).
Proof.
  intros Hn Hr. rewrite !parse_text_lines. cbv zeta.
  assert (E : parse_lines (Py.split Py.nl_char (a ++ Py.nl ++ junk ++ Py.nl ++ b))
                parse_init
              = parse_lines (Py.split Py.nl_char (a ++ Py.nl ++ b)) parse_init).
  { unfold Py.nl. cbn [append]. rewrite !split_app, !parse_lines_app.
    rewrite (split_no_sep _ _ Hn), parse_lines_cons.
    now rewrite (parse_line_unrecognised _ _ Hr). }
  now rewrite E.
Qed.

Lemma unrecognised_line_ignored_witness :
  (no_newline comment_line /\ recognised (Py.strip comment_line) = false)
  /\ _parse_gherkin_text
       ("Feature: Users" ++ Py.nl ++ comment_line ++ Py.nl
        ++ "Scenario: List users")
     = _parse_gherkin_text ("Feature: Users" ++ Py.nl ++ "Scenario: List users").
Proof.
  split; [split; vm_compute; reflexivity|].
  exact (unrecognised_line_ignored "Feature: Users" comment_line
           "Scenario: List users" eq_refl eq_refl).
Defined.

Lemma no_section_parse_line st line :
  current_section st = None -> starts_step line = false ->
  current_section (parse_line st line) = None.
Proof.
  unfold starts_step, parse_line. intros Hc H.
  repeat (apply orb_false_iff in H; destruct H as [H ?]).
  repeat match goal with E : Py.startswith _ _ = false |- _ =>
                           rewrite E; clear E end.
  rewrite Hc.
  repeat match goal with
         | |- context [if ?b then _ else _] => destruct b
         end; cbn; assumption || reflexivity.
Qed.

Lemma no_section_parse_lines lines st :
  current_section st = None ->
  Forall (fun l => starts_step (Py.strip l) = false) lines ->
  current_section (parse_lines lines st) = None.
Proof.
  intros Hc H. revert st Hc. induction H as [|l lines Hl _ IH]; intros st Hc;
    [exact Hc|].
  rewrite parse_lines_cons. apply IH. now apply no_section_parse_line.
Qed.

Lemma parse_and_without_section st line :
  current_section st = None -> Py.startswith line "And" = true ->
  parse_line st line = st.
Proof.
  intros Hc Ha. unfold parse_line. rewrite Ha, Hc.
  destruct line as [|c line]; [discriminate|].
  cbn [Py.startswith] in Ha. apply andb_true_iff in Ha as [Ha _].
  apply Ascii.eqb_eq in Ha. subst c. reflexivity.
Qed.

(** X3: an [And] line that comes before every [Given], [When] and [Then]
    line is dropped: the text decodes as it does without that line. *)
Theorem and_before_steps_dropped a x b :
  Forall (fun l => starts_step (Py.strip l) = false) (Py.split Py.nl_char a) ->
  no_newline x ->
  _parse_gherkin_text (a ++ Py.nl ++ "And" ++ x ++ Py.nl ++ b)
  = _parse_gherkin_text (a ++ Py.nl ++ b).
Proof.
  intros Ha Hx. rewrite !parse_text_lines. cbv zeta.
  assert (E : parse_lines
                (Py.split Py.nl_char (a ++ Py.nl ++ "And" ++ x ++ Py.nl ++ b))
                parse_init
              = parse_lines (Py.split Py.nl_char (a ++ Py.nl ++ b)) parse_init).
  { unfold Py.nl.
    replace (a ++ String Py.nl_char "" ++ "And" ++ x ++ String Py.nl_char "" ++ b)
      with (a ++ String Py.nl_char (("And" ++ x) ++ String Py.nl_char b))
      by (now rewrite append_assoc_s).
    change (String Py.nl_char "" ++ b) with (String Py.nl_char b).
    rewrite !split_app, !parse_lines_app.
    rewrite (split_no_sep _ ("And" ++ x))
      by (apply (no_newline_app "And"); [reflexivity | exact Hx]).
    rewrite parse_lines_cons. f_equal.
    apply parse_and_without_section.
    - now apply no_section_parse_lines.
    - change ("And" ++ x) with ("" ++ "And" ++ x).
      now rewrite strip_keyword_line by reflexivity. }
  now rewrite E.
Qed.

Lemma and_before_steps_dropped_witness :
  (Forall (fun l => starts_step (Py.strip l) = false)
     (Py.split Py.nl_char "Scenario: List users")
   /\ no_newline " the service is up")
  /\ _parse_gherkin_text
       ("Scenario: List users" ++ Py.nl ++ "And" ++ " the service is up"
        ++ Py.nl ++ "When I send a GET request")
     = _parse_gherkin_text
         ("Scenario: List users" ++ Py.nl ++ "When I send a GET request").
Proof.
  assert (H : Forall (fun l => starts_step (Py.strip l) = false)
                (Py.split Py.nl_char "Scenario: List users")).
  { repeat constructor. }
  split; [split; [exact H | reflexivity]|].
  exact (and_before_steps_dropped "Scenario: List users" " the service is up"
           "When I send a GET request" H eq_refl).
Defined.

(** *** What never comes out of the decoder *)

Lemma split_pieces_no_sep sep s :
  Forall (fun l => Py.contains (String sep "") l = false) (Py.split sep s).
Proof.
  induction s as [|c s IH]; [repeat constructor|].
  rewrite split_cons. destruct (Ascii.eqb c sep) eqn:E.
  - constructor; [reflexivity | exact IH].
  - destruct (Py.split sep s) as [|h t]; inversion IH; subst;
      constructor; auto; rewrite contains_char_cons, Ascii.eqb_sym, E;
      simpl; auto.
Qed.

Lemma lstrip_no_char c s :
  Py.contains (String c "") s = false ->
  Py.contains (String c "") (Py.lstrip s) = false.
Proof.
  induction s as [|a s IH]; intros H; [exact H|]. simpl.
  destruct (Py.is_space a); [|exact H].
  rewrite contains_char_cons in H. apply orb_false_iff in H. now apply IH.
Qed.

Lemma rstrip_no_char c s :
  Py.contains (String c "") s = false ->
  Py.contains (String c "") (Py.rstrip s) = false.
Proof.
  induction s as [|a s IH]; intros H; [exact H|].
  rewrite contains_char_cons in H. apply orb_false_iff in H as [Ha Hs].
  rewrite rstrip_cons. specialize (IH Hs).
  destruct (Py.rstrip s) eqn:E.
  - destruct (Py.is_space a); [reflexivity|].
    now rewrite contains_char_cons, Ha.
  - now rewrite contains_char_cons, Ha, IH.
Qed.

Lemma strip_no_char c s :
  Py.contains (String c "") s = false ->
  Py.contains (String c "") (Py.strip s) = false.
Proof. intros H. now apply lstrip_no_char, rstrip_no_char. Qed.

Lemma replace_from_no_char c k s old :
  Py.contains (String c "") s = false ->
  Py.contains (String c "") (Py.replace_from k s old "") = false.
Proof.
  revert k. induction s as [|a s IH]; intros k H; [reflexivity|].
  rewrite contains_char_cons in H. apply orb_false_iff in H as [Ha Hs].
  cbn [Py.replace_from]. destruct k as [|k]; [|now apply IH].
  destruct (Py.startswith (String a s) old).
  - now apply IH.
  - now rewrite contains_char_cons, Ha, IH.
Qed.

Lemma tidy_strip_replace line old :
  no_newline line -> tidy (Py.strip (Py.replace line old "")).
Proof.
  intros H. split; [apply strip_idempotent|].
  now apply strip_no_char, replace_from_no_char.
Qed.


Lemma tidy_parse_line st line :
  no_newline line -> tidy_state st -> tidy_state (parse_line st line).
Proof.
  intros Hl (Hf & Hs & Hg & Hw & Ht).
  assert (T : forall old, tidy (Py.strip (Py.replace line old "")))
    by (intros; now apply tidy_strip_replace).
  assert (A : forall l x, Forall tidy l -> tidy x -> Forall tidy (l ++ [x])%list)
    by (intros; apply Forall_app; auto).
  unfold parse_line, tidy_state.
  repeat match goal with
         | |- context [if ?b then _ else _] => destruct b
         | |- context [match current_section st with _ => _ end] =>
             destruct (current_section st) as [[]|]
         end; cbn; auto 10.
Qed.

(** X4: whatever the text, the feature, the scenario name and every step
    the decoder returns have no white space at either end and no
    newline. *)
Theorem decoded_fields_are_tidy text :
  let d := _parse_gherkin_text text in
  tidy (feature d) /\ tidy (scenario d)
  /\ Forall tidy (given d) /\ Forall tidy (when d) /\ Forall tidy (then_ d).
Proof.
  cbv zeta. rewrite parse_text_lines. cbv zeta.
  cbn [feature scenario given when then_].
  change (tidy_state (parse_lines (Py.split Py.nl_char text) parse_init)).
  assert (G : forall lines st,
             Forall no_newline lines -> tidy_state st ->
             tidy_state (parse_lines lines st)).
  { intros lines st H. revert st. induction H as [|l lines Hl _ IH];
      intros st Hst; [exact Hst|].
    rewrite parse_lines_cons. apply IH, tidy_parse_line; [|exact Hst].
    now apply strip_no_char. }
  apply G.
  - apply split_pieces_no_sep.
  - repeat split; constructor.
Qed.

(** ** More facts about directive extraction *)


Lemma method_of_line_none line :
  has_method_keyword line = false -> method_of_line line = None.
Proof.
  unfold has_method_keyword, method_of_line. intros H.
  repeat (apply orb_false_iff in H; destruct H as [H ?]).
  repeat match goal with E : Py.contains _ _ = false |- _ =>
                           rewrite E; clear E end.
  reflexivity.
Qed.





(** *** What [int] makes of a run of digits *)

Lemma digit_not_int_space c :
  Re.is_digit c = true -> PyInt.is_int_space c = false.
Proof.
  destruct c as [[] [] [] [] [] [] [] []]; vm_compute; intros H;
    reflexivity || discriminate.
Qed.

Lemma skip_trailing_cons_keep c s :
  PyInt.is_int_space c = false ->
  PyInt.skip_trailing (String c s) = String c (PyInt.skip_trailing s).
Proof.
  intros H. cbn [PyInt.skip_trailing]. rewrite H.
  now destruct (PyInt.skip_trailing s).
Qed.

Lemma skip_all_digits s :
  all_digits s = true -> PyInt.skip_leading (PyInt.skip_trailing s) = s.
Proof.
  intros H.
  assert (R : PyInt.skip_trailing s = s).
  { induction s as [|c s IH]; [reflexivity|].
    cbn [all_digits] in H. apply andb_true_iff in H as [Hc Hs].
    rewrite (skip_trailing_cons_keep _ _ (digit_not_int_space _ Hc)).
    now rewrite IH. }
  rewrite R. destruct s as [|c s]; [reflexivity|].
  cbn [all_digits] in H. apply andb_true_iff in H as [Hc _].
  cbn [PyInt.skip_leading]. now rewrite (digit_not_int_space _ Hc).
Qed.

Lemma count_all_digits s :
  all_digits s = true -> PyInt.count_digits s = Z.of_nat (String.length s).
Proof.
  induction s as [|c s IH]; intros H; [reflexivity|].
  cbn [all_digits] in H. apply andb_true_iff in H as [Hc Hs].
  cbn [PyInt.count_digits String.length]. rewrite Hc, (IH Hs). lia.
Qed.




(** *** The status line *)







(** *** The scenario name, from generation to execution *)

Lemma name_directive_line d line :
  raised d = None ->
  d_scenario_name (directive_line d line)
  = if Py.startswith line "Scenario:"
    then Py.strip (Py.replace line "Scenario:" "")
    else d_scenario_name d.
Proof.
  intros H. unfold directive_line. rewrite H.
  directive_cases; reflexivity.
Qed.

Lemma name_directive_line_none d line :
  Py.startswith line "Scenario:" = false ->
  d_scenario_name (directive_line d line) = d_scenario_name d.
Proof.
  intros H. destruct (raised d) as [message|] eqn:R.
  - now rewrite (directive_line_after_raise _ _ _ R).
  - now rewrite name_directive_line, H.
Qed.

Lemma name_fold lines d :
  Forall (fun l => Py.startswith (Py.strip l) "Scenario:" = false) lines ->
  d_scenario_name (directive_fold lines d) = d_scenario_name d.
Proof.
  intros H. revert d. induction H as [|l lines Hl _ IH]; intros d;
    [reflexivity|].
  now rewrite directive_fold_cons, IH, name_directive_line_none.
Qed.


Lemma directives_of_text text :
  extract_directives (split_lines text)
  = directive_fold (Py.split Py.nl_char text) directives_init.
Proof.
  unfold extract_directives, split_lines, directive_fold.
  apply (fold_lines_outer_strip directive_line).
  intros d. unfold directive_line. now destruct (raised d).
Qed.





(** ** More facts about [execute_gherkin_scenario] *)

(** X8: when directive extraction raised no exception and found a URL,
    and the transport raises, the execution returns a failed result and
    records nothing: for a [RequestException] the result is named after
    the scenario and its only error is [API request failed: ...]; for any
    other exception it is named [Error] and its only error is
    [Execution error: ...].  The call was made once. *)
Theorem transport_failure_not_recorded env text s u :
  let d := extract_directives (split_lines text) in
  let run := execute_gherkin_scenario env text s in
  raised d = None ->
  api_url d = Some u ->
  (forall message,
     requests_request env (List.length (http_calls s)) (method d) u
     = RequestException message ->
     exists r,
       fst run = Plain r /\ success r = false
       /\ scenario_name r = d_scenario_name d
       /\ errors r = Some [("API request failed: " ++ message)%string]
       /\ test_results (snd run) = test_results s
       /\ http_calls (snd run) = (http_calls s ++ [(method d, u)])%list)
  /\ (forall message,
        requests_request env (List.length (http_calls s)) (method d) u
        = OtherException message ->
        exists r,
          fst run = Plain r /\ success r = false
          /\ scenario_name r = "Error"
          /\ errors r = Some [("Execution error: " ++ message)%string]
          /\ test_results (snd run) = test_results s
          /\ http_calls (snd run) = (http_calls s ++ [(method d, u)])%list).
Proof.
  intros d run Hr Hu. pose proof (api_url_nonempty _ _ Hu) as Hne.
  destruct u as [|c u]; [contradiction|].
  split; intros message Hreq; unfold run, execute_gherkin_scenario, mbind,
    read_time, read_now, ret, http_request, append_result;
    cbn; fold d; rewrite Hr, Hu; cbn; rewrite Hreq; cbn;
    eexists; repeat split.
Qed.

Lemma transport_failure_not_recorded_witness :
  let env := sample_env (RequestException "connection refused") in
  let text := users_text in
  let s := initial_state in
  let u := "https://example.test/users" in
  let d := extract_directives (split_lines text) in
  let run := execute_gherkin_scenario env text s in
  (raised d = None /\ api_url d = Some u)
  /\ ((forall message,
         requests_request env (List.length (http_calls s)) (method d) u
         = RequestException message ->
         exists r,
           fst run = Plain r /\ success r = false
           /\ scenario_name r = d_scenario_name d
           /\ errors r = Some [("API request failed: " ++ message)%string]
           /\ test_results (snd run) = test_results s
           /\ http_calls (snd run) = (http_calls s ++ [(method d, u)])%list)
      /\ (forall message,
            requests_request env (List.length (http_calls s)) (method d) u
            = OtherException message ->
            exists r,
              fst run = Plain r /\ success r = false
              /\ scenario_name r = "Error"
              /\ errors r = Some [("Execution error: " ++ message)%string]
              /\ test_results (snd run) = test_results s
              /\ http_calls (snd run) = (http_calls s ++ [(method d, u)])%list)).
Proof.
  cbv zeta.
  assert (H0 : raised (extract_directives (split_lines users_text)) = None)
    by (vm_compute; reflexivity).
  assert (H : api_url (extract_directives (split_lines users_text))
              = Some "https://example.test/users") by (vm_compute; reflexivity).
  split; [split; [exact H0 | exact H]|].
  exact (transport_failure_not_recorded
           (sample_env (RequestException "connection refused"))
           users_text initial_state "https://example.test/users" H0 H).
Defined.

(** X9: an execution never changes the results already in the log: it
    appends at most one result, and one exactly when it returns a
    formatted result, that is when the server answered; it makes at most
    one HTTP call. *)
Theorem log_is_append_only env text s :
  let run := execute_gherkin_scenario env text s in
  exists added calls,
    test_results (snd run) = (test_results s ++ added)%list
    /\ (List.length added <= 1)%nat
    /\ (added <> [] <-> exists fr, fst run = Formatted fr)
    /\ http_calls (snd run) = (http_calls s ++ calls)%list
    /\ (List.length calls <= 1)%nat
    /\ (added <> [] -> calls <> []).
Proof.
  cbv zeta.
  unfold execute_gherkin_scenario, mbind, read_time, read_now, ret,
    http_request, append_result.
  cbn.
  destruct (raised (extract_directives (split_lines text))); cbn.
  1: exists [], []; rewrite !app_nil_r; repeat split; auto;
    try (intros H; now destruct H); intros [fr H]; discriminate.
  destruct (api_url (extract_directives (split_lines text))) as [[|c u]|]; cbn.
  1, 3: exists [], []; rewrite !app_nil_r; repeat split; auto;
    try (intros H; now destruct H); intros [fr H]; discriminate.
  destruct (requests_request env _ _ _); cbn.
  - eexists [_], [_]. repeat split; auto; try discriminate. eauto.
  - eexists [], [_]. rewrite !app_nil_r. repeat split; auto;
      try (intros H; now destruct H); intros [fr H]; discriminate.
  - eexists [], [_]. rewrite !app_nil_r. repeat split; auto;
      try (intros H; now destruct H); intros [fr H]; discriminate.
Qed.

(** X10: for an executed scenario (directive extraction raised no
    exception, a URL was found and the server answered), when the body of
    the answer is not JSON, the text is kept under the key [text] of a
    dict, so a scenario that declares the array assertion always fails
    with [Response is not a JSON array]. *)
Theorem non_json_body_fails_array env text s u response :
  let lines := split_lines text in
  let d := extract_directives lines in
  raised d = None ->
  api_url d = Some u ->
  requests_request env (List.length (http_calls s)) (method d) u
  = Responded response ->
  r_json response = None ->
  (exists line, In line lines /\ asserts_array line = true) ->
  exists fr,
    fst (execute_gherkin_scenario env text s) = Formatted fr
    /\ f_response_data fr = JDict [("text", JStr (r_text response))]
    /\ In "Response is not a JSON array" (f_validation_errors fr)
    /\ f_status fr = FAILED.
Proof.
  intros lines d Hr Hu Hreq Hj (line & Hin & Hline).
  destruct (execute_responded env text s u response Hr Hu Hreq)
    as (fr & tr & s' & E & Hst & Hve & _ & _ & _ & Hrd & _).
  exists fr. rewrite E. split; [reflexivity|]. fold lines d in Hve, Hst.
  assert (B : response_body response = JDict [("text", JStr (r_text response))])
    by (unfold response_body; now rewrite Hj).
  assert (I : In "Response is not a JSON array" (f_validation_errors fr)).
  { rewrite Hve, validate_fst, in_app_iff, in_flat_map. right.
    exists line. split; [exact Hin|].
    apply array_message_in_line_errors. rewrite B. now split. }
  split; [now rewrite Hrd|]. split; [exact I|].
  rewrite Hst. rewrite Hve in I.
  destruct (fst (validate lines d response)); [destruct I | reflexivity].
Qed.

Lemma non_json_body_fails_array_witness :
  let response :=
    {| r_status_code := 200; r_elapsed_seconds := 0.25%float;
       r_text := web_page; r_json := None |} in
  let env := sample_env (Responded response) in
  let text := users_text in
  let s := initial_state in
  let u := "https://example.test/users" in
  let lines := split_lines text in
  let d := extract_directives lines in
  (raised d = None
   /\ api_url d = Some u
   /\ requests_request env (List.length (http_calls s)) (method d) u
      = Responded response
   /\ r_json response = None
   /\ exists line, In line lines /\ asserts_array line = true)
  /\ exists fr,
       fst (execute_gherkin_scenario env text s) = Formatted fr
       /\ f_response_data fr = JDict [("text", JStr (r_text response))]
       /\ In "Response is not a JSON array" (f_validation_errors fr)
       /\ f_status fr = FAILED.
Proof.
  cbv zeta.
  assert (H0 : raised (extract_directives (split_lines users_text)) = None)
    by (vm_compute; reflexivity).
  assert (H1 : api_url (extract_directives (split_lines users_text))
               = Some "https://example.test/users") by (vm_compute; reflexivity).
  assert (H4 : exists line, In line (split_lines users_text)
                            /\ asserts_array line = true).
  { exists "Then the response should be a JSON array".
    split; vm_compute; auto. }
  split; [auto|].
  exact (non_json_body_fails_array
           (sample_env
              (Responded {| r_status_code := 200; r_elapsed_seconds := 0.25%float;
                            r_text := web_page; r_json := None |}))
           users_text initial_state "https://example.test/users"
           {| r_status_code := 200; r_elapsed_seconds := 0.25%float;
              r_text := web_page; r_json := None |}
           H0 H1 eq_refl eq_refl H4).
Defined.

(** *** What [json.dumps] can print *)

Section JsonInduction.
Variable P : json -> Prop.
Hypothesis Hnull : P JNull.
Hypothesis Hbool : forall b, P (JBool b).
Hypothesis Hint : forall n, P (JInt n).
Hypothesis Hfloat : forall t, P (JFloat t).
Hypothesis Hstr : forall s, P (JStr s).
Hypothesis Hlist : forall l, Forall P l -> P (JList l).
Hypothesis Hdict : forall d, Forall (fun kv => P (snd kv)) d -> P (JDict d).

Fixpoint json_nested_ind (j : json) : P j :=
  match j with
  | JNull => Hnull
  | JBool b => Hbool b
  | JInt n => Hint n
  | JFloat t => Hfloat t
  | JStr s => Hstr s
  | JList l =>
      Hlist l
        ((fix all (l : list json) : Forall P l :=
            match l with
            | [] => Forall_nil P
            | x :: r => Forall_cons x (json_nested_ind x) (all r)
            end) l)
  | JDict d =>
      Hdict d
        ((fix all (d : list (string * json))
            : Forall (fun kv => P (snd kv)) d :=
            match d with
            | [] => Forall_nil _
            | kv :: r =>
                Forall_cons (P := fun kv => P (snd kv)) kv
                  (json_nested_ind (snd kv)) (all r)
            end) d)
  end.
End JsonInduction.

Lemma all_chars_app p a b :
  all_chars p (a ++ b) = all_chars p a && all_chars p b.
Proof.
  induction a as [|c a IH]; [reflexivity|]. simpl.
  now rewrite IH, andb_assoc.
Qed.

Lemma escape_char_printable c : all_chars printable (Json.escape_char c) = true.
Proof.
  destruct c as [[] [] [] [] [] [] [] []]; vm_compute; reflexivity.
Qed.

Lemma escape_printable s : all_chars printable (Json.escape s) = true.
Proof.
  induction s as [|c s IH]; [reflexivity|]. simpl.
  now rewrite all_chars_app, escape_char_printable, IH.
Qed.

Lemma dumps_str_printable s : all_chars printable (Json.dumps_str s) = true.
Proof.
  unfold Json.dumps_str. cbn [all_chars].
  rewrite all_chars_app, escape_printable. reflexivity.
Qed.

Lemma digit_char_printable k :
  (k < 10)%nat -> printable (ascii_of_nat (48 + k)) = true.
Proof.
  intros H. do 10 (destruct k as [|k]; [reflexivity|]). lia.
Qed.

Lemma pos_digits_printable fuel n acc :
  (0 <= n)%Z -> all_chars printable acc = true ->
  all_chars printable (PyInt.pos_digits fuel n acc) = true.
Proof.
  revert n acc. induction fuel as [|fuel IH]; intros n acc Hn Hacc;
    [exact Hacc|].
  assert (D : all_chars printable
                (String (ascii_of_nat (48 + Z.to_nat (n mod 10))) acc) = true).
  { cbn [all_chars]. rewrite Hacc, digit_char_printable; [reflexivity|].
    pose proof (Z.mod_pos_bound n 10). lia. }
  cbn [PyInt.pos_digits]. cbv zeta.
  destruct (n <? 10)%Z; [exact D|].
  apply IH; [apply Z.div_pos; lia | exact D].
Qed.

Lemma int_str_printable n : all_chars printable (PyInt.str n) = true.
Proof.
  unfold PyInt.str. destruct (n <? 0)%Z eqn:E.
  - apply Z.ltb_lt in E. cbn [all_chars].
    rewrite pos_digits_printable; [reflexivity | lia | reflexivity].
  - apply Z.ltb_ge in E. now apply pos_digits_printable.
Qed.

Lemma join_printable sep l :
  all_chars printable sep = true ->
  Forall (fun x => all_chars printable x = true) l ->
  all_chars printable (join sep l) = true.
Proof.
  intros Hs H. induction H as [|x l Hx Hl IH]; [reflexivity|].
  cbn [join]. destruct l as [|y l]; [exact Hx|].
  now rewrite !all_chars_app, Hx, Hs, IH.
Qed.

Lemma dumps_list_join l :
  Json.dumps (JList l) = "[" ++ join ", " (map Json.dumps l) ++ "]".
Proof.
  cbn [Json.dumps]. do 2 f_equal.
  induction l as [|x l IH]; [reflexivity|].
  cbn [map join]. destruct l as [|y l]; [reflexivity|].
  now rewrite IH.
Qed.

Lemma dumps_dict_join d :
  Json.dumps (JDict d)
  = "{" ++ join ", "
             (map (fun kv => Json.dumps_str (fst kv) ++ ": " ++ Json.dumps (snd kv))
                d) ++ "}".
Proof.
  cbn [Json.dumps]. do 2 f_equal.
  induction d as [|[k v] d IH]; [reflexivity|].
  cbn [map join fst snd]. destruct d as [|kv d]; [reflexivity|].
  now rewrite IH, !append_assoc_s.
Qed.

(** The serialized body has printable ASCII characters only. *)
Lemma dumps_printable j :
  floats_printable j = true -> all_chars printable (Json.dumps j) = true.
Proof.
  induction j as [| [] | n | t | s | l IH | d IH] using json_nested_ind;
    intros H; try reflexivity.
  - apply int_str_printable.
  - exact H.
  - apply dumps_str_printable.
  - rewrite dumps_list_join. cbn [all_chars append].
    rewrite all_chars_app, join_printable; [reflexivity | reflexivity |].
    cbn [floats_printable] in H. rewrite forallb_forall in H.
    apply Forall_forall. intros x Hx. apply in_map_iff in Hx as (y & <- & Hy).
    rewrite Forall_forall in IH. apply IH; auto.
  - rewrite dumps_dict_join. cbn [all_chars append].
    rewrite all_chars_app, join_printable; [reflexivity | reflexivity |].
    cbn [floats_printable] in H. rewrite forallb_forall in H.
    apply Forall_forall. intros x Hx. apply in_map_iff in Hx as (y & <- & Hy).
    rewrite Forall_forall in IH.
    rewrite !all_chars_app, dumps_str_printable. cbn [all_chars andb].
    rewrite (IH y Hy (H y Hy)).
    reflexivity.
Qed.

Lemma startswith_all_chars p s v :
  Py.startswith s v = true -> all_chars p s = true -> all_chars p v = true.
Proof.
  revert s. induction v as [|a v IH]; intros s H Hs; [reflexivity|].
  destruct s as [|b s]; [discriminate|].
  cbn [Py.startswith] in H. apply andb_true_iff in H as [Hab H].
  apply Ascii.eqb_eq in Hab. subst b.
  cbn [all_chars] in *. apply andb_true_iff in Hs as [Ha Hs].
  now rewrite Ha, (IH s H Hs).
Qed.

Lemma contains_all_chars p s v :
  Py.contains v s = true -> all_chars p s = true -> all_chars p v = true.
Proof.
  induction s as [|b s IH]; intros H Hs.
  - simpl in H. rewrite orb_false_r in H.
    now apply (startswith_all_chars p "" v).
  - cbn [Py.contains] in H. apply orb_true_iff in H as [H | H].
    + now apply (startswith_all_chars p (String b s) v).
    + apply IH; [exact H|]. cbn [all_chars] in Hs.
      apply andb_true_iff in Hs. tauto.
Qed.

(** X11: for an executed scenario (directive extraction raised no
    exception, a URL was found and the server answered), the body is
    searched in its serialized form, which has printable ASCII characters
    only (every other character of a string is written as an escape), so
    a content assertion whose literal has a character outside printable
    ASCII, such as an accented letter, always fails, even when the body
    contains the literal. *)
Theorem non_ascii_literal_never_found env text s u response line v :
  let lines := split_lines text in
  let d := extract_directives lines in
  raised d = None ->
  api_url d = Some u ->
  requests_request env (List.length (http_calls s)) (method d) u
  = Responded response ->
  floats_printable (response_body response) = true ->
  In line lines -> content_assertion line = Some v ->
  all_chars printable v = false ->
  exists fr,
    fst (execute_gherkin_scenario env text s) = Formatted fr
    /\ In ("Response does not contain '" ++ v ++ "'") (f_validation_errors fr)
    /\ f_status fr = FAILED.
Proof.
  intros lines d Hr Hu Hreq Hf Hin Hv Hbad.
  destruct (execute_responded env text s u response Hr Hu Hreq)
    as (fr & tr & s' & E & Hst & Hve & _).
  exists fr. rewrite E. split; [reflexivity|]. fold lines d in Hve, Hst.
  assert (C : Py.contains v (Json.dumps (response_body response)) = false).
  { destruct (Py.contains v (Json.dumps (response_body response))) eqn:C;
      [|reflexivity].
    rewrite (contains_all_chars printable _ _ C (dumps_printable _ Hf)) in Hbad.
    discriminate. }
  assert (I : In ("Response does not contain '" ++ v ++ "'")
                (f_validation_errors fr)).
  { rewrite Hve, validate_fst, in_app_iff, in_flat_map. right.
    exists line. split; [exact Hin|].
    unfold line_errors, content_errors. rewrite Hv, C, in_app_iff.
    right. now left. }
  split; [exact I|]. rewrite Hst. rewrite Hve in I.
  destruct (fst (validate lines d response)); [destruct I | reflexivity].
Qed.

Lemma non_ascii_literal_never_found_witness :
  let env := sample_env (Responded (sample_response 200 accented_body)) in
  let text := accented_text in
  let s := initial_state in
  let u := "https://example.test/users" in
  let response := sample_response 200 accented_body in
  let line := ("Then the response should contain " ++ quoted accented_name) in
  let lines := split_lines text in
  let d := extract_directives lines in
  (raised d = None
   /\ api_url d = Some u
   /\ requests_request env (List.length (http_calls s)) (method d) u
      = Responded response
   /\ floats_printable (response_body response) = true
   /\ In line lines /\ content_assertion line = Some accented_name
   /\ all_chars printable accented_name = false)
  /\ exists fr,
       fst (execute_gherkin_scenario env text s) = Formatted fr
       /\ In ("Response does not contain '" ++ accented_name ++ "'")
            (f_validation_errors fr)
       /\ f_status fr = FAILED.
Proof.
  cbv zeta.
  assert (H0 : raised (extract_directives (split_lines accented_text)) = None)
    by (vm_compute; reflexivity).
  assert (H1 : api_url (extract_directives (split_lines accented_text))
               = Some "https://example.test/users") by (vm_compute; reflexivity).
  assert (H4 : In ("Then the response should contain " ++ quoted accented_name)
                 (split_lines accented_text))
    by (vm_compute; auto).
  assert (H5 : content_assertion
                 ("Then the response should contain " ++ quoted accented_name)
               = Some accented_name) by (vm_compute; reflexivity).
  split; [repeat split; auto|].
  exact (non_ascii_literal_never_found
           (sample_env (Responded (sample_response 200 accented_body)))
           accented_text initial_state "https://example.test/users"
           (sample_response 200 accented_body) _ accented_name
           H0 H1 eq_refl eq_refl H4 H5 eq_refl).
Defined.

(** ** More facts about value extraction *)

(** X12: a path [p.q] is resolved by resolving [p] and then [q] in the
    value found; when [p] raises, that exception is the result. *)
Theorem path_composes data p q :
  _get_nested_value data (p ++ "." ++ q)
  = bind (_get_nested_value data p) (fun v => _get_nested_value v q).
Proof.
  unfold _get_nested_value.
  change (p ++ "." ++ q) with (p ++ String "." q).
  now rewrite split_app, get_segments_app.
Qed.

Lemma dict_set_new_key {V} (d : list (string * V)) k v :
  ~ In k (map fst d) -> map fst (Dict.set d k v) = (map fst d ++ [k])%list.
Proof.
  induction d as [|[k0 v0] d IH]; intros H; [reflexivity|].
  simpl in *. destruct (String.eqb k0 k) eqn:E.
  - apply String.eqb_eq in E. tauto.
  - simpl. f_equal. apply IH. tauto.
Qed.

Lemma extract_fold_keys str_exception data extractors acc :
  NoDup (map fst acc ++ map fst extractors)%list ->
  map fst (fold_left (extract_one str_exception data) extractors acc)
  = (map fst acc ++ map fst extractors)%list.
Proof.
  revert acc. induction extractors as [|[k p] l IH]; intros acc N.
  - simpl. now rewrite app_nil_r.
  - cbn [fold_left map fst] in *.
    assert (Hk : ~ In k (map fst acc)).
    { apply NoDup_remove_2 in N. intros Hin. apply N, in_or_app. now left. }
    assert (K : map fst (extract_one str_exception data acc (k, p))
                = (map fst acc ++ [k])%list).
    { unfold extract_one. destruct (_get_nested_value data p);
        now apply dict_set_new_key. }
    rewrite IH; rewrite K, <- app_assoc; [reflexivity | exact N].
Qed.

(** X13: the extracted values have exactly the keys of the extractors, in
    their order: a path that fails does not drop its key, and no key is
    added. *)
Theorem extraction_keeps_keys str_exception data extractors :
  NoDup (map fst extractors) ->
  map fst (_extract_values str_exception data extractors) = map fst extractors.
Proof.
  intros N. unfold _extract_values.
  now rewrite extract_fold_keys.
Qed.

Lemma extraction_keeps_keys_witness :
  NoDup (map fst [("first", "users[0].name"); ("second", "users[5].name");
                  ("third", "users[0].id")])
  /\ map fst
       (_extract_values (fun _ => "failed") users_document
          [("first", "users[0].name"); ("second", "users[5].name");
           ("third", "users[0].id")])
     = map fst [("first", "users[0].name"); ("second", "users[5].name");
                ("third", "users[0].id")].
Proof.
  assert (N : NoDup (map fst [("first", "users[0].name");
                              ("second", "users[5].name");
                              ("third", "users[0].id")])).
  { repeat constructor; simpl; intuition discriminate. }
  split; [exact N|].
  exact (extraction_keeps_keys (fun _ => "failed") users_document _ N).
Defined.

(** *** Writing and reading an index *)

Lemma digit_char_facts k :
  (k < 10)%nat ->
  Re.is_digit (ascii_of_nat (48 + k)) = true
  /\ PyInt.digit_val (ascii_of_nat (48 + k)) = Z.of_nat k.
Proof.
  intros H. do 10 (destruct k as [|k]; [split; reflexivity|]). lia.
Qed.

Lemma pos_digits_S f n acc :
  PyInt.pos_digits (S f) n acc
  = if (n <? 10)%Z
    then String (ascii_of_nat (48 + Z.to_nat (n mod 10))) acc
    else PyInt.pos_digits f (n / 10)%Z
           (String (ascii_of_nat (48 + Z.to_nat (n mod 10))) acc).
Proof. reflexivity. Qed.

Lemma pos_digits_all_digits fuel n acc :
  (0 <= n)%Z -> all_digits acc = true ->
  all_digits (PyInt.pos_digits fuel n acc) = true.
Proof.
  revert n acc. induction fuel as [|fuel IH]; intros n acc Hn Hacc;
    [exact Hacc|].
  assert (D : all_digits
                (String (ascii_of_nat (48 + Z.to_nat (n mod 10))) acc) = true).
  { cbn [all_digits]. rewrite Hacc.
    destruct (digit_char_facts (Z.to_nat (n mod 10))) as [-> _];
      [|reflexivity].
    pose proof (Z.mod_pos_bound n 10). lia. }
  rewrite pos_digits_S.
  destruct (n <? 10)%Z; [exact D|].
  apply IH; [apply Z.div_pos; lia | exact D].
Qed.

(** Reading the digits written for [n] gives [n], when the fuel covers the
    digits of [n]. *)
Lemma digits_value_digit acc prev k s :
  (k < 10)%nat ->
  PyInt.digits_value acc prev (String (ascii_of_nat (48 + k)) s)
  = PyInt.digits_value (10 * acc + Z.of_nat k)%Z true s.
Proof.
  intros H. destruct (digit_char_facts k H) as [Hd Hv].
  cbn [PyInt.digits_value]. now rewrite Hd, Hv.
Qed.

Lemma pos_digits_value fuel n prev rest :
  (0 <= n < 2 ^ Z.of_nat (S fuel))%Z ->
  PyInt.digits_value 0 prev (PyInt.pos_digits (S fuel) n rest)
  = PyInt.digits_value n true rest.
Proof.
  revert n prev rest. induction fuel as [|fuel IH]; intros n prev rest Hn.
  - assert (L : (n <? 10)%Z = true) by (apply Z.ltb_lt; simpl in Hn; lia).
    pose proof (Z.mod_pos_bound n 10 eq_refl) as B.
    rewrite pos_digits_S, L, digits_value_digit by lia.
    f_equal. rewrite Z2Nat.id by lia.
    rewrite Z.mod_small; simpl in Hn; lia.
  - pose proof (Z.mod_pos_bound n 10 eq_refl) as B.
    rewrite pos_digits_S.
    destruct (n <? 10)%Z eqn:L.
    + apply Z.ltb_lt in L. rewrite digits_value_digit by lia.
      f_equal. rewrite Z2Nat.id by lia.
      rewrite Z.mod_small; lia.
    + apply Z.ltb_ge in L. rewrite IH.
      * rewrite digits_value_digit by lia. f_equal.
        rewrite Z2Nat.id by lia.
        pose proof (Z.div_mod n 10). lia.
      * split; [apply Z.div_pos; lia|].
        rewrite Nat2Z.inj_succ, Z.pow_succ_r in Hn by lia.
        apply Z.div_lt_upper_bound; lia.
Qed.

Lemma parse_digit_string s :
  all_digits s = true ->
  (Z.of_nat (String.length s) <= PyInt.max_str_digits)%Z ->
  PyInt.parse s = PyInt.digits_value 0 false s.
Proof.
  intros H L. unfold PyInt.parse. rewrite (skip_all_digits _ H).
  assert (E : PyInt.literal s = PyInt.digits_value 0 false s).
  { unfold PyInt.literal. rewrite (count_all_digits _ H).
    apply Z.leb_le in L. now rewrite L. }
  rewrite <- E. destruct s as [|c s]; [reflexivity|].
  cbn [all_digits] in H. apply andb_true_iff in H as [Hc _].
  destruct c as [[] [] [] [] [] [] [] []]; try reflexivity;
    vm_compute in Hc; discriminate.
Qed.

Lemma str_of_nat_all_digits i : all_digits (PyInt.str (Z.of_nat i)) = true.
Proof.
  unfold PyInt.str.
  assert (E : (Z.of_nat i <? 0)%Z = false) by (apply Z.ltb_ge; lia).
  rewrite E. apply pos_digits_all_digits; [lia | reflexivity].
Qed.

(** A number below [10 ^ (k + 1)] is written with at most [k + 1]
    digits. *)
Lemma pos_digits_length fuel n acc k :
  (0 <= n < 10 ^ Z.of_nat (S k))%Z ->
  (String.length (PyInt.pos_digits fuel n acc) <= String.length acc + S k)%nat.
Proof.
  revert n acc k. induction fuel as [|fuel IH]; intros n acc k Hn;
    [cbn [PyInt.pos_digits]; lia|].
  rewrite pos_digits_S. destruct (n <? 10)%Z eqn:L.
  - cbn [String.length]. lia.
  - apply Z.ltb_ge in L. destruct k as [|k].
    + change (10 ^ Z.of_nat 1)%Z with 10%Z in Hn. lia.
    + assert (B : (0 <= n / 10 < 10 ^ Z.of_nat (S k))%Z).
      { split; [apply Z.div_pos; lia|].
        rewrite (Nat2Z.inj_succ (S k)), Z.pow_succ_r in Hn by lia.
        apply Z.div_lt_upper_bound; lia. }
      pose proof (IH _ (String (ascii_of_nat (48 + Z.to_nat (n mod 10))) acc)
                    _ B) as H.
      cbn [String.length] in H. lia.
Qed.

Lemma str_of_nat_length i :
  (Z.of_nat i < 10 ^ PyInt.max_str_digits)%Z ->
  (Z.of_nat (String.length (PyInt.str (Z.of_nat i)))
   <= PyInt.max_str_digits)%Z.
Proof.
  intros H. unfold PyInt.str.
  assert (E : (Z.of_nat i <? 0)%Z = false) by (apply Z.ltb_ge; lia).
  rewrite E.
  assert (K : PyInt.max_str_digits = Z.of_nat (S (Z.to_nat 4299)))
    by (vm_compute; reflexivity).
  rewrite K in *.
  pose proof (pos_digits_length
                (S (Z.to_nat (Z.log2 (Z.of_nat i)))) (Z.of_nat i) ""
                (Z.to_nat 4299) (conj (Nat2Z.is_nonneg i) H)) as P.
  cbn [String.length] in P.
  apply inj_le in P. exact P.
Qed.

(** [int(str(i))] is [i], for a number [int] accepts. *)
Lemma parse_str_of_nat i :
  (Z.of_nat i < 10 ^ PyInt.max_str_digits)%Z ->
  PyInt.parse (PyInt.str (Z.of_nat i)) = Some (Z.of_nat i).
Proof.
  intros B.
  rewrite (parse_digit_string _ (str_of_nat_all_digits i)
             (str_of_nat_length i B)).
  unfold PyInt.str.
  assert (E : (Z.of_nat i <? 0)%Z = false) by (apply Z.ltb_ge; lia).
  rewrite E, pos_digits_value; [reflexivity|].
  split; [lia|].
  rewrite Nat2Z.inj_succ, Z2Nat.id by apply Z.log2_nonneg.
  destruct (Z.eq_dec (Z.of_nat i) 0) as [-> | Hz]; [reflexivity|].
  apply Z.log2_spec. lia.
Qed.

Lemma all_digits_no_char c s :
  Re.is_digit c = false -> all_digits s = true ->
  Py.contains (String c "") s = false.
Proof.
  intros Hc. induction s as [|a s IH]; intros H; [reflexivity|].
  cbn [all_digits] in H. apply andb_true_iff in H as [Ha Hs].
  rewrite contains_char_cons, (IH Hs), orb_false_r.
  destruct (Ascii.eqb c a) eqn:E; [|reflexivity].
  apply Ascii.eqb_eq in E. subst a. congruence.
Qed.

Lemma indexed_parts name i :
  plain_name name ->
  has_index (indexed name i) = true
  /\ key_name_of (indexed name i) = name
  /\ index_text_of (indexed name i) = PyInt.str (Z.of_nat i)
  /\ Py.split "." (indexed name i) = [indexed name i].
Proof.
  intros (Hdot & Hopen & Hclose).
  pose proof (str_of_nat_all_digits i) as D.
  assert (S1 : Py.split "[" (indexed name i)
               = [name; PyInt.str (Z.of_nat i) ++ "]"]).
  { unfold indexed. change (name ++ "[" ++ ?x) with (name ++ String "[" x).
    rewrite (split_app_sep _ _ _ Hopen), split_no_sep; [reflexivity|].
    rewrite contains_char_app, (all_digits_no_char "[" _ eq_refl D).
    reflexivity. }
  assert (S2 : Py.split "]" (PyInt.str (Z.of_nat i) ++ "]")
               = [PyInt.str (Z.of_nat i); ""]).
  { change (?x ++ "]") with (x ++ String "]" "").
    now rewrite (split_app_sep _ _ _ (all_digits_no_char "]" _ eq_refl D)). }
  repeat split.
  - unfold has_index, indexed.
    rewrite !(contains_char_app _ name), Hopen, Hclose.
    change ("[" ++ ?x) with (String "[" x).
    rewrite !contains_char_cons, !contains_char_app. cbn.
    now rewrite orb_true_r.
  - unfold key_name_of. now rewrite S1.
  - unfold index_text_of. rewrite S1. cbn [nth]. now rewrite S2.
  - apply split_no_sep. unfold indexed.
    rewrite contains_char_app, Hdot.
    change ("[" ++ ?x) with (String "[" x).
    rewrite contains_char_cons, contains_char_app,
      (all_digits_no_char "." _ eq_refl D).
    reflexivity.
Qed.

Lemma sequence_position_in_range len i :
  (i < len)%nat -> sequence_position len (Z.of_nat i) = Some i.
Proof.
  intros H. unfold sequence_position.
  assert (E : ((0 <=? Z.of_nat i) && (Z.of_nat i <? Z.of_nat len))%Z = true).
  { apply andb_true_iff. split; [apply Z.leb_le | apply Z.ltb_lt]; lia. }
  now rewrite E, Nat2Z.id.
Qed.

Lemma indexed_path_getitem d name i v :
  plain_name name -> Dict.get d name = Some v ->
  (Z.of_nat i < 10 ^ PyInt.max_str_digits)%Z ->
  _get_nested_value (JDict d) (indexed name i) = getitem_int v (Z.of_nat i).
Proof.
  intros Hn Hv B. destruct (indexed_parts name i Hn) as (H1 & H2 & H3 & H4).
  unfold _get_nested_value. rewrite H4.
  cbn [get_segments]. unfold get_segment.
  fold (has_index (indexed name i)).
  rewrite H1, H2, H3, (parse_str_of_nat _ B). cbn [bind getitem_str].
  rewrite Hv. cbn [bind]. now destruct (getitem_int v (Z.of_nat i)).
Qed.

(** X14: for a field name without dot or bracket, the path [name[i]],
    with [i] written in decimal, reads element [i] of the list stored
    under [name]; the list has at most [10 ^ 4300] elements, so that no
    index of an element has more digits than [int] accepts. *)
Theorem indexed_path_reads_element d name i l x :
  plain_name name ->
  Dict.get d name = Some (JList l) ->
  nth_error l i = Some x ->
  (Z.of_nat (List.length l) <= 10 ^ PyInt.max_str_digits)%Z ->
  _get_nested_value (JDict d) (indexed name i) = Return x.
Proof.
  intros Hn Hl Hx B.
  assert (L : (i < List.length l)%nat) by (apply nth_error_Some; congruence).
  rewrite (indexed_path_getitem _ _ _ _ Hn Hl).
  - cbn [getitem_int]. now rewrite (sequence_position_in_range _ _ L), Hx.
  - apply inj_lt in L.
    exact (Z.lt_le_trans _ _ _ L B).
Qed.

Lemma indexed_path_reads_element_witness :
  _get_nested_value
    (JDict [("users", JList [JStr "Leanne"; JStr "Ervin"])])
    (indexed "users" 1) = Return (JStr "Ervin").
Proof.
  apply (indexed_path_reads_element
           [("users", JList [JStr "Leanne"; JStr "Ervin"])] "users" 1
           [JStr "Leanne"; JStr "Ervin"] (JStr "Ervin")).
  - repeat split.
  - reflexivity.
  - reflexivity.
  - vm_compute. discriminate.
Defined.

(** X15: when the value stored under [name] is a string, the path
    [name[i]] does not fail: it reads the character at position [i] and
    returns it as a one-character string; the string has at most
    [10 ^ 4300] characters, so that no position has more digits than
    [int] accepts. *)
Theorem indexed_path_reads_character d name i s c :
  plain_name name ->
  Dict.get d name = Some (JStr s) ->
  String.get i s = Some c ->
  (Z.of_nat (String.length s) <= 10 ^ PyInt.max_str_digits)%Z ->
  _get_nested_value (JDict d) (indexed name i) = Return (JStr (String c "")).
Proof.
  intros Hn Hs Hc B.
  assert (L : (i < String.length s)%nat).
  { clear - Hc. revert i Hc. induction s as [|a s IH]; intros i Hc;
      [destruct i; discriminate|].
    destruct i as [|i]; simpl in *; [lia|]. apply IH in Hc. lia. }
  rewrite (indexed_path_getitem _ _ _ _ Hn Hs).
  - cbn [getitem_int]. now rewrite (sequence_position_in_range _ _ L), Hc.
  - apply inj_lt in L.
    exact (Z.lt_le_trans _ _ _ L B).
Qed.

Lemma indexed_path_reads_character_witness :
  _get_nested_value (JDict [("name", JStr "Leanne")]) (indexed "name" 2)
  = Return (JStr "a").
Proof.
  apply (indexed_path_reads_character [("name", JStr "Leanne")] "name" 2
           "Leanne" "a"%char).
  - repeat split.
  - reflexivity.
  - reflexivity.
  - vm_compute. discriminate.
Defined.

(** ** The validator's API test *)

Section ApiTestFacts.
Import ApiTest.

Lemma contains_occurrence needle hay :
  Py.contains needle hay = true -> exists a b, hay = a ++ needle ++ b.
Proof.
  assert (P : forall n h, Py.startswith h n = true -> exists b, h = n ++ b).
  { induction n as [|c n IH]; intros h H; [now exists h|].
    destruct h as [|d h]; [discriminate|]. simpl in H.
    apply andb_true_iff in H as [E H]. apply Ascii.eqb_eq in E. subst d.
    destruct (IH _ H) as [b ->]. now exists b. }
  induction hay as [|c hay IH]; intros H.
  - destruct needle; [now exists "", ""|discriminate].
  - cbn [Py.contains] in H. apply orb_true_iff in H as [H | H].
    + destruct (P _ _ H) as [b ->]. now exists "", b.
    + destruct (IH H) as (a & b & ->). now exists (String c a), b.
Qed.

Lemma upper_app a b : upper (a ++ b) = (upper a ++ upper b)%list.
Proof.
  induction a as [|c a IH]; [reflexivity|].
  cbn [append upper]. now rewrite IH, app_assoc.
Qed.

Lemma upper_lower_char c : upper_char (Py.lower_char c) = upper_char c.
Proof. destruct c as [[] [] [] [] [] [] [] []]; reflexivity. Qed.

(** What is in upper case does not depend on the case of the letters. *)
Lemma upper_lower s : upper (Py.lower s) = upper s.
Proof.
  induction s as [|c s IH]; [reflexivity|].
  cbn [Py.lower upper]. now rewrite upper_lower_char, IH.
Qed.

Lemma startswith_codes_app n b : startswith_codes (n ++ b)%list n = true.
Proof.
  induction n as [|x n IH]; [reflexivity|].
  cbn [app startswith_codes]. now rewrite N.eqb_refl, IH.
Qed.

Lemma contains_codes_app n a b :
  contains_codes n (a ++ n ++ b)%list = true.
Proof.
  induction a as [|x a IH].
  - cbn [app]. destruct (n ++ b)%list eqn:E; cbn [contains_codes];
      rewrite <- E, startswith_codes_app; reflexivity.
  - cbn [app contains_codes]. rewrite IH. apply orb_true_r.
Qed.

(** The verdict of an answer that says INVALID, in any letter case. *)
Lemma verdict_invalid content :
  Py.contains "invalid" (Py.lower content) = true -> verdict content = true.
Proof.
  intros H. apply contains_occurrence in H as (a & b & E).
  unfold verdict. rewrite <- upper_lower, E, !upper_app.
  change (upper "invalid") with ([73; 78]%N ++ codes "VALID")%list.
  rewrite <- app_assoc, app_assoc. apply contains_codes_app.
Qed.


(** X16: an answer of the language model that says INVALID, in any letter
    case, is read as a positive verdict: when the server answers with the
    expected status, the test passes although the model rejected the
    response. *)
Theorem invalid_verdict_accepted str_exception str_other sv config tr kwargs config' response schema
    content :
  prepare_request str_other config = (Return kwargs, config') ->
  request sv (List.length (requests_made tr)) kwargs = Answered response ->
  r_status_code (resp response) = expected_status config ->
  truthy (expected_response_schema config) = Some schema ->
  ainvoke sv (List.length (llm_asked tr)) system_prompt
    (user_message (response_body (resp response)) schema) = Content content ->
  Py.contains "invalid" (Py.lower content) = true ->
  let result := result_after (execute_api_test str_exception str_other sv config tr) in
  api_success result = true /\ Dict.get (api_dict result) "error" = None.
Proof.
  intros Hp Hr Hs Hschema Ha Hc.
  unfold result_after, config_after, trace_after, api_success, api_dict,
    api_extracted.
  unfold execute_api_test. rewrite Hp, Hr, Hs, Z.eqb_refl. cbn [negb].
  destruct (expected_response_schema config) as [[|kv schema']|];
    try discriminate.
  injection Hschema as <-.
  unfold _validate_schema. cbn [sent llm_asked].
  rewrite Ha, (verdict_invalid _ Hc). split; reflexivity.
Qed.

Lemma invalid_verdict_accepted_witness :
  api_success
    (result_after (execute_api_test str_exception_sample str_other_sample
                     (users_services 200 "INVALID: the key id is missing")
                     (users_config None) empty_trace)) = true
  /\ Dict.get
       (api_dict
          (result_after (execute_api_test str_exception_sample
                           str_other_sample
                           (users_services 200 "INVALID: the key id is missing")
                           (users_config None) empty_trace))) "error" = None.
Proof.
  eapply (invalid_verdict_accepted str_exception_sample str_other_sample
            (users_services 200 "INVALID: the key id is missing")
            (users_config None) empty_trace).
  - reflexivity.
  - reflexivity.
  - reflexivity.
  - reflexivity.
  - reflexivity.
  - vm_compute. reflexivity.
Defined.

(** *** The configuration after the call *)

Lemma run_config str_exception str_other sv config tr :
  config_after (execute_api_test str_exception str_other sv config tr) = snd (prepare_request str_other config).
Proof.
  unfold config_after, execute_api_test.
  destruct (prepare_request str_other config) as [[kwargs|e] config']; [|reflexivity].
  destruct (request sv _ kwargs) as [response|message]; [|reflexivity].
  destruct (negb _); [reflexivity|].
  destruct (expected_response_schema config) as [[|kv schema]|];
    try reflexivity.
  destruct (_validate_schema _ _ _ _) as [[[|]|message] tr']; reflexivity.
Qed.

(** X17: with a bearer token and a header dict that is not empty, the
    call writes the Authorization header into the dict of the
    configuration itself, whatever the outcome of the call; a later call
    with that configuration still sends the token after the credentials
    have been removed from it. *)
Theorem bearer_token_stays_in_config str_exception str_other sv config tr h a token :
  headers config = Some h -> h <> [] ->
  auth config = Some a -> Dict.get a "bearer" = Some (JStr token) ->
  let config' := config_after (execute_api_test str_exception str_other sv config tr) in
  headers config' = Some (Dict.set h "Authorization" ("Bearer " ++ token))
  /\ exists kwargs,
       fst (prepare_request str_other (without_auth config')) = Return kwargs
       /\ Dict.get (kw_headers kwargs) "Authorization"
          = Some ("Bearer " ++ token).
Proof.
  intros Hh Hne Ha Hb config'. subst config'. rewrite run_config.
  assert (P : snd (prepare_request str_other config)
              = set_headers config
                  (Dict.set h "Authorization" ("Bearer " ++ token))).
  { unfold prepare_request. rewrite Ha, Hh.
    destruct a as [|kv a]; [discriminate|]. rewrite Hb.
    destruct h as [|hv h]; [congruence|]. reflexivity. }
  rewrite P. split; [reflexivity|].
  unfold prepare_request. cbn [without_auth set_headers headers auth fst].
  destruct (Dict.set h "Authorization" ("Bearer " ++ token))
    as [|x l] eqn:E.
  - destruct h as [|[k0 v0] h]; [congruence|]. cbn [Dict.set] in E.
    destruct (String.eqb k0 "Authorization"); discriminate.
  - eexists. split; [reflexivity|]. cbn [kw_headers].
    rewrite <- E, dict_get_set. reflexivity.
Qed.

Lemma bearer_token_stays_in_config_witness :
  headers
    (config_after (execute_api_test str_exception_sample str_other_sample
                     (users_services 500 "")
                     (users_config (Some bearer_credentials)) empty_trace))
  = Some [("Accept", "application/json"); ("Authorization", "Bearer s3cret")].
Proof.
  apply (bearer_token_stays_in_config str_exception_sample str_other_sample
           (users_services 500 "") (users_config (Some bearer_credentials))
           empty_trace [("Accept", "application/json")] bearer_credentials
           "s3cret").
  - reflexivity.
  - discriminate.
  - reflexivity.
  - reflexivity.
Defined.

(** X18: without a bearer token, or when the header dict is missing or
    empty, the call leaves the configuration as it was. *)
Theorem config_kept_without_bearer str_exception str_other sv config tr :
  has_bearer config && has_headers config = false ->
  config_after (execute_api_test str_exception str_other sv config tr) = config.
Proof.
  intros H. rewrite run_config. unfold prepare_request.
  unfold has_bearer, has_headers, truthy in H.
  destruct (auth config) as [[|kv a]|]; try reflexivity.
  destruct (Dict.get (kv :: a) "bearer") as [token|].
  - destruct (headers config) as [[|hv h]|]; try reflexivity. discriminate.
  - destruct (Dict.get (kv :: a) "basic"); reflexivity.
Qed.

Lemma config_kept_without_bearer_witness :
  config_after
    (execute_api_test str_exception_sample str_other_sample
       (users_services 200 "VALID") (users_config None) empty_trace)
  = users_config None.
Proof.
  apply (config_kept_without_bearer str_exception_sample str_other_sample
           (users_services 200 "VALID") (users_config None) empty_trace).
  reflexivity.
Defined.

(** X19: basic credentials that lack the user name or the password stop
    the call before any request is made: the result is the failure with
    the text of the KeyError, and neither the server nor the language
    model is contacted. *)
Theorem incomplete_basic_auth_sends_nothing str_exception str_other sv config tr a b :
  auth config = Some a -> a <> [] ->
  Dict.get a "bearer" = None -> Dict.get a "basic" = Some (JDict b) ->
  Dict.get b "username" = None \/ Dict.get b "password" = None ->
  exists key,
    (key = "username" \/ key = "password")
    /\ Dict.get b key = None
    /\ execute_api_test str_exception str_other sv config tr
       = (error_result (str_exception (KeyError key)), config, tr).
Proof.
  intros Ha Hne Hb Hbasic Hmiss.
  unfold execute_api_test, prepare_request. rewrite Ha.
  destruct a as [|kv a]; [congruence|]. rewrite Hb, Hbasic.
  cbn [getitem_str].
  destruct (Dict.get b "username") as [u|] eqn:Hu.
  - destruct Hmiss as [|Hp]; [discriminate|].
    exists "password". rewrite Hp. cbn [bind]. auto.
  - exists "username". cbn [bind]. auto.
Qed.

Lemma incomplete_basic_auth_sends_nothing_witness :
  exists key,
    (key = "username" \/ key = "password")
    /\ Dict.get [("username", JStr "ada")] key = None
    /\ execute_api_test str_exception_sample str_other_sample
         (users_services 200 "VALID")
         (users_config (Some [("basic", JDict [("username", JStr "ada")])]))
         empty_trace
       = (error_result (str_exception_sample (KeyError key)),
          users_config (Some [("basic", JDict [("username", JStr "ada")])]),
          empty_trace).
Proof.
  apply (incomplete_basic_auth_sends_nothing str_exception_sample
           str_other_sample (users_services 200 "VALID")
           (users_config (Some [("basic", JDict [("username", JStr "ada")])]))
           empty_trace [("basic", JDict [("username", JStr "ada")])]
           [("username", JStr "ada")]).
  - reflexivity.
  - discriminate.
  - reflexivity.
  - reflexivity.
  - right. reflexivity.
Defined.

(** X20: the returned dict has an error entry exactly when the test
    failed, and that entry is a text; so a caller reading the error of a
    failed result always finds one. *)
Theorem error_entry_iff_failed str_exception str_other sv config tr :
  let result := result_after (execute_api_test str_exception str_other sv config tr) in
  (api_success result = true -> Dict.get (api_dict result) "error" = None)
  /\ (api_success result = false ->
      exists message, Dict.get (api_dict result) "error" = Some (JStr message)).
Proof.
  unfold result_after, config_after, trace_after, api_success, api_dict,
    api_extracted.
  unfold execute_api_test.
  destruct (prepare_request str_other config) as [[kwargs|e] config'];
    [|split; [discriminate | eexists; reflexivity]].
  destruct (request sv _ kwargs) as [response|message];
    [|split; [discriminate | eexists; reflexivity]].
  destruct (negb _); [split; [discriminate | eexists; reflexivity]|].
  destruct (expected_response_schema config) as [[|kv schema]|];
    try (split; [reflexivity | discriminate]).
  destruct (_validate_schema _ _ _ _) as [[[|]|message] tr'];
    cbv zeta; cbn [fst snd].
  - split; [reflexivity | discriminate].
  - split; [discriminate | eexists; reflexivity].
  - split; [discriminate | eexists; reflexivity].
Qed.

(** X21: a result that passes, or that carries extracted values, was
    obtained from exactly one request, which the server answered with the
    expected status; the status_code entry of the dict is that status. *)
Theorem passing_needs_expected_status str_exception str_other sv config tr :
  let result := result_after (execute_api_test str_exception str_other sv config tr) in
  let tr' := trace_after (execute_api_test str_exception str_other sv config tr) in
  api_success result = true \/ api_extracted result <> None ->
  exists kwargs response,
    fst (prepare_request str_other config) = Return kwargs
    /\ requests_made tr' = (requests_made tr ++ [kwargs])%list
    /\ request sv (List.length (requests_made tr)) kwargs = Answered response
    /\ r_status_code (resp response) = expected_status config
    /\ Dict.get (api_dict result) "status_code"
       = Some (JInt (expected_status config)).
Proof.
  unfold result_after, trace_after, api_success, api_dict, api_extracted,
    execute_api_test.
  destruct (prepare_request str_other config) as [[kwargs|e] config'];
    [|cbn; intros [|]; [discriminate | congruence]].
  destruct (request sv _ kwargs) as [response|message] eqn:Hr;
    [|cbn; intros [|]; [discriminate | congruence]].
  destruct (r_status_code (resp response) =? expected_status config)%Z eqn:Hs;
    cbn [negb]; [|cbn; intros [|]; [discriminate | congruence]].
  apply Z.eqb_eq in Hs.
  assert (Fin : forall (result : api_result) tr',
             requests_made tr' = (requests_made tr ++ [kwargs])%list ->
             Dict.get (snd (fst result)) "status_code"
             = Some (JInt (r_status_code (resp response))) ->
             exists kwargs0 response0,
               fst (Return kwargs, config') = Return kwargs0
               /\ requests_made tr' = (requests_made tr ++ [kwargs0])%list
               /\ request sv (List.length (requests_made tr)) kwargs0
                  = Answered response0
               /\ r_status_code (resp response0) = expected_status config
               /\ Dict.get (snd (fst result)) "status_code"
                  = Some (JInt (expected_status config))).
  { intros result tr' Ht Hd. exists kwargs, response.
    rewrite <- Hs. auto 6. }
  destruct (expected_response_schema config) as [[|kv schema]|].
  - intros _. apply Fin; reflexivity.
  - unfold _validate_schema.
    destruct (ainvoke sv _ _ _) as [content|message];
      [destruct (verdict content)|].
    + intros _. apply Fin; reflexivity.
    + intros _. apply Fin; reflexivity.
    + cbn. intros [|]; [discriminate | congruence].
  - intros _. apply Fin; reflexivity.
Qed.

Lemma passing_needs_expected_status_witness :
  exists kwargs response,
    fst (prepare_request str_other_sample (users_config None)) = Return kwargs
    /\ requests_made
         (trace_after (execute_api_test str_exception_sample str_other_sample
                         (users_services 200 "VALID") (users_config None)
                         empty_trace))
       = (requests_made empty_trace ++ [kwargs])%list
    /\ request (users_services 200 "VALID")
         (List.length (requests_made empty_trace)) kwargs = Answered response
    /\ r_status_code (resp response) = expected_status (users_config None)
    /\ Dict.get
         (api_dict
            (result_after (execute_api_test str_exception_sample
                             str_other_sample (users_services 200 "VALID")
                             (users_config None) empty_trace)))
         "status_code"
       = Some (JInt (expected_status (users_config None))).
Proof.
  apply (passing_needs_expected_status str_exception_sample str_other_sample
           (users_services 200 "VALID") (users_config None) empty_trace).
  left. reflexivity.
Defined.

(** X22: the language model is asked at most once, and only when a schema
    that is not empty is configured and the server answered with the
    expected status; the question is the fixed system prompt with the
    response data and the schema. *)
Theorem model_asked_only_for_schema str_exception str_other sv config tr :
  let tr' := trace_after (execute_api_test str_exception str_other sv config tr) in
  llm_asked tr' = llm_asked tr
  \/ exists kwargs response schema,
       fst (prepare_request str_other config) = Return kwargs
       /\ request sv (List.length (requests_made tr)) kwargs = Answered response
       /\ r_status_code (resp response) = expected_status config
       /\ truthy (expected_response_schema config) = Some schema
       /\ llm_asked tr'
          = (llm_asked tr
             ++ [(system_prompt,
                  user_message (response_body (resp response)) schema)])%list.
Proof.
  unfold result_after, config_after, trace_after, api_success, api_dict,
    api_extracted.
  unfold execute_api_test.
  destruct (prepare_request str_other config) as [[kwargs|e] config']; [|now left].
  destruct (request sv _ kwargs) as [response|message] eqn:Hr; [|now left].
  destruct (r_status_code (resp response) =? expected_status config)%Z eqn:Hs;
    cbn [negb]; [|now left].
  apply Z.eqb_eq in Hs.
  destruct (expected_response_schema config) as [[|kv schema]|] eqn:Hsch;
    try (now left).
  right. exists kwargs, response, (kv :: schema).
  unfold _validate_schema.
  destruct (ainvoke sv _ _ _) as [content|message];
    [destruct (verdict content)|]; cbv zeta; cbn [fst snd]; auto 6.
Qed.

End ApiTestFacts.

(** ** The syntax check of the web tab *)

Section TabFacts.
Import ApiTestingTab.

Lemma lstrip_app_keep a b : Py.lstrip a <> "" -> Py.lstrip (a ++ b) = Py.lstrip a ++ b.
Proof.
  induction a as [|c a IH]; intros H; [now elim H|]. simpl in *.
  destruct (Py.is_space c); [now apply IH | reflexivity].
Qed.

Lemma startswith_app_l a b p :
  Py.startswith a p = true -> Py.startswith (a ++ b) p = true.
Proof.
  revert a. induction p as [|x p IH]; intros a H; [reflexivity|].
  destruct a as [|y a]; [discriminate|]. simpl in *.
  apply andb_true_iff in H as [-> H]. now apply IH.
Qed.

(** The position after a newline is the start of a line. *)
Lemma search_after_newline rest ls a b :
  rest (Py.lstrip b) = true ->
  search_line_start rest ls (a ++ String Py.nl_char b) = true.
Proof.
  intros H. revert ls. induction a as [|c a IH]; intros ls.
  - cbn [append search_line_start]. rewrite Ascii.eqb_refl.
    destruct b; cbn [search_line_start]; rewrite H, !orb_true_r;
      reflexivity || (simpl; apply orb_true_r).
  - change (String c a ++ ?x) with (String c (a ++ x)).
    cbn [search_line_start]. rewrite IH. apply orb_true_r.
Qed.

Lemma strip_starts_nonspace c t :
  Py.is_space c = false -> Py.strip (String c t) = String c (Py.rstrip t).
Proof.
  intros H. unfold Py.strip. rewrite (rstrip_cons_keep _ _ H). simpl.
  now rewrite H.
Qed.

(** The first step line of the generated text, wherever it is. *)
Lemma generated_steps_start sc :
  given sc <> [] \/ when sc <> [] \/ then_ sc <> [] ->
  exists kw step tail,
    (kw = "Given" \/ kw = "When" \/ kw = "Then")
    /\ step_lines "Given" (given sc) ++ step_lines "When" (when sc)
       ++ step_lines "Then" (then_ sc)
       = "  " ++ kw ++ " " ++ step ++ tail.
Proof.
  intros H. destruct (given sc) as [|g gs].
  - destruct (when sc) as [|w ws].
    + destruct (then_ sc) as [|t ts]; [tauto|].
      exists "Then", t, (Py.nl ++ step_lines "Then" ts). split; [tauto|].
      cbn [step_lines]. rewrite ?append_assoc_s. reflexivity.
    + exists "When", w,
        (Py.nl ++ step_lines "When" ws ++ step_lines "Then" (then_ sc)).
      split; [tauto|]. cbn [step_lines].
      rewrite ?append_assoc_s. reflexivity.
  - exists "Given", g,
      (Py.nl ++ step_lines "Given" gs ++ step_lines "When" (when sc)
       ++ step_lines "Then" (then_ sc)).
    split; [tauto|]. cbn [step_lines]. rewrite ?append_assoc_s. reflexivity.
Qed.

(** X23: the text generated from a scenario with at least one step passes
    the syntax check of the web tab, whatever the feature, the name and
    the steps contain. *)
Theorem generated_text_passes_syntax_check sc :
  given sc <> [] \/ when sc <> [] \/ then_ sc <> [] ->
  validate_gherkin_handler (gherkin_text_of sc)
  = glyph_passed ++ " Gherkin syntax is valid!".
Proof.
  intros H.
  assert (F : has_declaration "Feature:" (gherkin_text_of sc) = true)
    by reflexivity.
  assert (S : has_declaration "Scenario:" (gherkin_text_of sc) = true).
  { unfold has_declaration, gherkin_text_of.
    replace ("Feature: " ++ feature sc ++ Py.nl ++ Py.nl ++ "Scenario: "
             ++ scenario sc ++ Py.nl ++ step_lines "Given" (given sc)
             ++ step_lines "When" (when sc) ++ step_lines "Then" (then_ sc))
      with (("Feature: " ++ feature sc ++ Py.nl)
            ++ String Py.nl_char
                 ("Scenario: " ++ scenario sc ++ Py.nl
                  ++ step_lines "Given" (given sc)
                  ++ step_lines "When" (when sc)
                  ++ step_lines "Then" (then_ sc)))
      by (now rewrite !append_assoc_s).
    now apply search_after_newline. }
  assert (T : has_steps (gherkin_text_of sc) = true).
  { destruct (generated_steps_start sc H) as (kw & step & tail & Hkw & E).
    unfold has_steps, gherkin_text_of. rewrite E.
    replace ("Feature: " ++ feature sc ++ Py.nl ++ Py.nl ++ "Scenario: "
             ++ scenario sc ++ Py.nl ++ "  " ++ kw ++ " " ++ step ++ tail)
      with (("Feature: " ++ feature sc ++ Py.nl ++ Py.nl ++ "Scenario: "
             ++ scenario sc)
            ++ String Py.nl_char ("  " ++ kw ++ " " ++ step ++ tail))
      by (now rewrite !append_assoc_s).
    apply existsb_exists. exists kw. split.
    - unfold step_keywords.
      destruct Hkw as [-> | [-> | ->]]; cbn [In]; tauto.
    - apply search_after_newline.
      destruct Hkw as [-> | [-> | ->]]; reflexivity. }
  unfold validate_gherkin_handler, syntax_errors. rewrite F, S, T.
  unfold gherkin_text_of at 1 2.
  change ("Feature: " ++ ?x) with (String "F" ("eature: " ++ x)).
  rewrite strip_starts_nonspace by reflexivity. reflexivity.
Qed.

Lemma generated_text_passes_syntax_check_witness :
  validate_gherkin_handler (gherkin_text_of sample_scenario)
  = glyph_passed ++ " Gherkin syntax is valid!".
Proof.
  apply (generated_text_passes_syntax_check sample_scenario).
  left. discriminate.
Defined.

(** *** The syntax check and the decoders *)

Lemma rstrip_prefix s : exists w, s = Py.rstrip s ++ w.
Proof.
  induction s as [|c s [w IH]]; [now exists ""|].
  rewrite rstrip_cons. destruct (Py.rstrip s) as [|a r].
  - destruct (Py.is_space c).
    + now exists (String c s).
    + exists s. reflexivity.
  - exists w. simpl in *. now rewrite <- IH.
Qed.

Lemma rstrip_lstrip_comm s : Py.rstrip (Py.lstrip s) = Py.lstrip (Py.rstrip s).
Proof.
  induction s as [|c s IH]; [reflexivity|].
  rewrite rstrip_cons. cbn [Py.lstrip].
  destruct (Py.is_space c) eqn:Sp.
  - rewrite IH. destruct (Py.rstrip s) as [|a r]; [reflexivity|].
    cbn [Py.lstrip]. now rewrite Sp.
  - rewrite rstrip_cons.
    destruct (Py.rstrip s) as [|a r]; rewrite ?Sp; cbn [Py.lstrip];
      now rewrite Sp.
Qed.

(** A line that starts with the keyword once stripped starts with it once
    stripped on the left. *)
Lemma startswith_strip_lstrip line kw :
  Py.startswith (Py.strip line) kw = true ->
  Py.startswith (Py.lstrip line) kw = true.
Proof.
  unfold Py.strip. rewrite <- rstrip_lstrip_comm. intros H.
  destruct (rstrip_prefix (Py.lstrip line)) as [w E]. rewrite E.
  now apply startswith_app_l.
Qed.

Lemma first_line_found kw text h t :
  kw <> "" ->
  Py.split Py.nl_char text = h :: t ->
  Py.startswith (Py.lstrip h) kw = true ->
  Py.startswith (Py.lstrip text) kw = true.
Proof.
  intros Hkw Hs H.
  assert (Hne : Py.lstrip h <> "").
  { intros E. rewrite E in H. destruct kw; [congruence | discriminate]. }
  assert (P : exists rest, text = h ++ rest).
  { clear - Hs. revert h t Hs. induction text as [|c text IH]; intros h t Hs.
    - injection Hs as <- <-. now exists "".
    - rewrite split_cons in Hs. destruct (Ascii.eqb c Py.nl_char).
      + injection Hs as <- <-. now exists (String c text).
      + destruct (Py.split Py.nl_char text) as [|h' t'] eqn:E.
        * injection Hs as <- <-. exists text. reflexivity.
        * injection Hs as <- <-. destruct (IH _ _ eq_refl) as [rest ->].
          now exists rest. }
  destruct P as [rest ->]. rewrite (lstrip_app_keep _ _ Hne).
  now apply startswith_app_l.
Qed.

(** A line that starts with the keyword, white space apart, is seen by
    the pattern. *)
Lemma line_found kw text line :
  kw <> "" ->
  In line (Py.split Py.nl_char text) ->
  Py.startswith (Py.lstrip line) kw = true ->
  has_declaration kw text = true.
Proof.
  intros Hkw. unfold has_declaration.
  assert (A : forall text h t,
             Py.split Py.nl_char text = h :: t ->
             Py.startswith (Py.lstrip h) kw = true ->
             search_line_start (fun r => Py.startswith r kw) true text = true).
  { intros tx h t Hs H. pose proof (first_line_found kw tx h t Hkw Hs H) as F.
    destruct tx; cbn [search_line_start]; now rewrite F. }
  assert (B : forall text ls h t,
             Py.split Py.nl_char text = h :: t -> In line t ->
             Py.startswith (Py.lstrip line) kw = true ->
             search_line_start (fun r => Py.startswith r kw) ls text = true).
  { induction text0 as [|c tx IH]; intros ls h t Hs Hin H.
    - injection Hs as <- <-. destruct Hin.
    - rewrite split_cons in Hs. cbn [search_line_start].
      destruct (Ascii.eqb c Py.nl_char) eqn:Ec.
      + injection Hs as <- <-.
        destruct (split_cons_exists Py.nl_char tx) as (h' & t' & E).
        rewrite E in Hin. destruct Hin as [<- | Hin].
        * rewrite (A _ _ _ E H). apply orb_true_r.
        * rewrite (IH true _ _ E Hin H). apply orb_true_r.
      + destruct (split_cons_exists Py.nl_char tx) as (h' & t' & E).
        rewrite E in Hs. injection Hs as <- <-.
        rewrite (IH false _ _ E Hin H). apply orb_true_r. }
  intros Hin H.
  destruct (split_cons_exists Py.nl_char text) as (h & t & E).
  rewrite E in Hin. destruct Hin as [<- | Hin].
  - exact (A _ _ _ E H).
  - exact (B _ _ _ _ E Hin H).
Qed.

Lemma no_declaration_lines kw text :
  kw <> "" ->
  has_declaration kw text = false ->
  Forall (fun l => Py.startswith (Py.strip l) kw = false)
    (Py.split Py.nl_char text).
Proof.
  intros Hkw H. apply Forall_forall. intros l Hin.
  destruct (Py.startswith (Py.strip l) kw) eqn:E; [|reflexivity].
  apply startswith_strip_lstrip in E.
  rewrite (line_found kw text l Hkw Hin E) in H. discriminate.
Qed.

Lemma feature_kept st line :
  Py.startswith line "Feature:" = false ->
  p_feature (parse_line st line) = p_feature st.
Proof.
  intros H. unfold parse_line. rewrite H.
  repeat match goal with
         | |- context [if ?b then _ else _] => destruct b
         | |- context [match ?o with Some _ => _ | None => _ end] =>
             destruct o
         | |- context [match ?s with sec_given => _ | _ => _ end] =>
             destruct s
         end; reflexivity.
Qed.

Lemma scenario_kept st line :
  Py.startswith line "Scenario:" = false ->
  p_scenario (parse_line st line) = p_scenario st.
Proof.
  intros H. unfold parse_line. rewrite H.
  repeat match goal with
         | |- context [if ?b then _ else _] => destruct b
         | |- context [match ?o with Some _ => _ | None => _ end] =>
             destruct o
         | |- context [match ?s with sec_given => _ | _ => _ end] =>
             destruct s
         end; reflexivity.
Qed.

(** X24: the syntax check and the decoders agree on what is missing: when
    the check finds no Feature: declaration the decoded feature is empty,
    and when it finds no Scenario: declaration the decoded scenario name
    is empty and the executor keeps its default name, API Test. *)
Theorem missing_declaration_decodes_empty text :
  (has_declaration "Feature:" text = false ->
   feature (_parse_gherkin_text text) = "")
  /\ (has_declaration "Scenario:" text = false ->
      scenario (_parse_gherkin_text text) = ""
      /\ d_scenario_name (extract_directives (split_lines text)) = "API Test").
Proof.
  assert (G : forall lines (proj : parse_state -> string) kw,
             (forall st line, Py.startswith line kw = false ->
                              proj (parse_line st line) = proj st) ->
             Forall (fun l => Py.startswith (Py.strip l) kw = false) lines ->
             forall st, proj (parse_lines lines st) = proj st).
  { intros lines proj kw Hk H. induction H as [|l lines Hl _ IH]; intros st;
      [reflexivity|].
    unfold parse_lines in *. cbn [fold_left]. now rewrite IH, Hk. }
  split.
  - intros H. rewrite parse_text_lines. cbv zeta. cbn [feature].
    rewrite (G _ p_feature "Feature:" feature_kept); [reflexivity|].
    apply no_declaration_lines; [discriminate | exact H].
  - intros H.
    pose proof (no_declaration_lines "Scenario:" text ltac:(discriminate) H)
      as L.
    split.
    + rewrite parse_text_lines. cbv zeta. cbn [scenario].
      now rewrite (G _ p_scenario "Scenario:" scenario_kept).
    + rewrite directives_of_text. now rewrite name_fold.
Qed.

(** *** The execution handler *)

(** X25: when the execution of the scenario gives a plain TestResult, as
    it does when the text names no URL or when the request raises, the
    handler fails on reading its status: what it shows is the text of the
    AttributeError, not the explanation the result carries, and the JSON
    is the error dict with the time of the next clock reading. *)
Theorem plain_result_shows_attribute_error env gherkin_text llm_provider
    model_name api_key base_url s r s' :
  Py.strip gherkin_text <> "" -> llm_provider <> "" -> model_name <> "" ->
  Py.strip api_key <> "" ->
  new_agent env llm_provider model_name api_key
    (if is_empty base_url then None else Some base_url) = None ->
  execute_gherkin_scenario (agent_env env) gherkin_text (with_new_agent s)
  = (Plain r, s') ->
  fst (execute_test_handler env gherkin_text llm_provider model_name api_key
         base_url s)
  = (glyph_failed ++ " Execution error: " ++ attribute_error,
     Json.dumps_indent 0
       (JDict [("status", JStr "error");
               ("error", JStr attribute_error);
               ("timestamp",
                JStr (isoformat (datetime_now (agent_env env)
                                   (clock_reads s'))))])).
Proof.
  intros Ht Hp Hm Hk Hagent Hrun. unfold execute_test_handler.
  assert (E : forall x, Py.strip x <> "" ->
                        is_empty x || is_empty (Py.strip x) = false).
  { intros x Hx. destruct x; [now elim Hx|].
    destruct (Py.strip (String a x)); [now elim Hx | reflexivity]. }
  rewrite (E _ Ht), (E _ Hk).
  destruct llm_provider; [now elim Hp|]. destruct model_name; [now elim Hm|].
  cbn [is_empty orb]. rewrite Hagent, Hrun. reflexivity.
Qed.

Lemma plain_result_shows_attribute_error_witness :
  fst (execute_test_handler
         {| agent_env := sample_env (Responded (sample_response 200 users_body));
            new_agent := fun _ _ _ _ => None;
            float_text := fun _ => "0.0" |}
         no_url_text "openai" "gpt-4o" "sk-key" "" initial_state)
  = (glyph_failed ++ " Execution error: " ++ attribute_error,
     Json.dumps_indent 0
       (JDict [("status", JStr "error");
               ("error", JStr attribute_error);
               ("timestamp", JStr (isoformat sample_datetime))])).
Proof.
  eapply (plain_result_shows_attribute_error
            {| agent_env :=
                 sample_env (Responded (sample_response 200 users_body));
               new_agent := fun _ _ _ _ => None;
               float_text := fun _ => "0.0" |}
            no_url_text "openai" "gpt-4o" "sk-key" "" initial_state).
  - vm_compute. discriminate.
  - discriminate.
  - discriminate.
  - vm_compute. discriminate.
  - reflexivity.
  - vm_compute. reflexivity.
Defined.

End TabFacts.
